(** * Document Generator API (api.py): placeholder substitution, artifact
    production and retention sweep.

    A shallow embedding of [generate_document], [replace_placeholders],
    [generate_certificate], [cleanup_old_files], [download_file] and the
    endpoints that call them, with the properties of the specification
    settled against it. *)

From Stdlib Require Import Ascii.
From Stdlib Require String.
From stdpp Require Import base list strings sorting.
From Stdlib Require Import ZArith Lia DecimalString.

Local Open Scope Z_scope.
Local Open Scope nat_scope.

(** ** Python [str] primitives used by api.py

    [x in s], [s.replace(old, new)] and [s1 + s2] over [string]; a
    character is a code point below 256. *)
Module PyStr.

Fixpoint drop (n : nat) (s : string) : string :=
  match n, s with
  | S n', String _ s' => drop n' s'
  | _, _ => s
  end.

(** [sub in s] : [sub] occurs in [s] as a contiguous substring. *)
Fixpoint contains (sub s : string) : bool :=
  String.prefix sub s ||
  match s with
  | EmptyString => false
  | String _ s' => contains sub s'
  end.

(** [s.replace(old, new)]: the occurrences of [old] are found scanning
    left to right, each match is consumed whole, and the replacement is
    never rescanned.  [skip] counts the characters of a match still to be
    consumed.  With [old] empty, [new] is inserted before every character
    and at the end. *)
Fixpoint replace_from (old new : string) (skip : nat) (s : string)
  {struct s} : string :=
  match s with
  | EmptyString =>
      match skip with
      | O => if String.prefix old "" then new else ""
      | S _ => ""
      end
  | String c s' =>
      match skip with
      | S n => replace_from old new n s'
      | O =>
          if String.prefix old s then
            match old with
            | EmptyString => new +:+ String c (replace_from old new 0 s')
            | String _ old' => new +:+ replace_from old new (String.length old') s'
            end
          else String c (replace_from old new 0 s')
      end
  end.

Definition replace (old new s : string) : string := replace_from old new 0 s.

(** [''.join(ls)] *)
Definition join (ls : list string) : string := String.concat "" ls.

(** [s[:n]] *)
Fixpoint take (n : nat) (s : string) : string :=
  match n, s with
  | S n', String c s' => String c (take n' s')
  | _, _ => ""
  end.

(** [s.find(sub)]: the index of the leftmost occurrence, [None] for -1. *)
Fixpoint find (sub s : string) : option nat :=
  if String.prefix sub s then Some 0
  else match s with
       | EmptyString => None
       | String _ s' => option_map S (find sub s')
       end.

(** [s.lower()] on the code points below 256: the letters A-Z and the
    accented capitals of Latin-1 move up by 32. *)
Definition lower_char (c : ascii) : ascii :=
  let n := nat_of_ascii c in
  if ((65 <=? n) && (n <=? 90)) || ((192 <=? n) && (n <=? 222) && negb (n =? 215))
  then ascii_of_nat (n + 32)
  else c.

Fixpoint lower (s : string) : string :=
  match s with
  | EmptyString => EmptyString
  | String c s' => String (lower_char c) (lower s')
  end.

(** [str(n)] of a non-negative integer *)
Definition str_nat (n : nat) : string := NilZero.string_of_uint (Nat.to_uint n).

End PyStr.

(** ** Exceptions and outcomes *)

Inductive exn : Type :=
  | Exception (msg : string)
  | IndexError (msg : string)
  | ValueError (msg : string)
  | OSError (msg : string)
  | HTTPException (status_code : nat) (detail : string).

(** [str(e)], as used in the handlers' messages; an [HTTPException]
    prints its status code before its detail. *)
Definition str_exn (e : exn) : string :=
  match e with
  | Exception m | IndexError m | ValueError m | OSError m => m
  | HTTPException s d => PyStr.str_nat s +:+ ": " +:+ d
  end.

Inductive outcome (A : Type) : Type :=
  | Returns (a : A)
  | Raises (e : exn).
Arguments Returns {A} a.
Arguments Raises {A} e.

Definition obind {A B} (o : outcome A) (k : A -> outcome B) : outcome B :=
  match o with
  | Returns a => k a
  | Raises e => Raises e
  end.

Notation "'let?' x ':=' o 'in' k" := (obind o (fun x => k))
  (at level 10, x name, o at level 100, k at level 200).

(** A [for] loop whose body may raise: the first exception ends it. *)
Fixpoint for_each {A} (f : A -> outcome A) (l : list A) : outcome (list A) :=
  match l with
  | [] => Returns []
  | a :: l' =>
      let? a' := f a in
      let? l'' := for_each f l' in
      Returns (a' :: l'')
  end.

(** ** The document tree, as python-docx presents it to api.py

    Only the text of a run is read or written.  A paragraph holds runs and
    hyperlinks in document order: [para.runs] lists the runs, [para.text]
    is the text of the runs and of the hyperlinks (python-docx before 1.0
    leaves the hyperlinks out of [para.text]; there a paragraph behaves as
    the one without its hyperlinks).  [row.cells] lists the cells of the
    table by reference: a merged cell is listed once for every grid column
    it spans, and under a vertical merge the cell above is listed again. *)
Module Docx.

Definition CR : ascii := "013".
Definition LF : ascii := "010".

(** The characters XML can hold: tab, line feed, carriage return and the
    code points from 32 on. *)
Definition xml_char (c : ascii) : bool :=
  let n := nat_of_ascii c in
  (32 <=? n) || (n =? 9) || (n =? 10) || (n =? 13).

Fixpoint xml_compatible (s : string) : bool :=
  match s with
  | EmptyString => true
  | String c s' => xml_char c && xml_compatible s'
  end.

(** What [run.text] reads after [run.text = s]: a carriage return is
    stored as a line break, which reads as a line feed. *)
Definition stored_char (c : ascii) : ascii :=
  if Ascii.eqb c CR then LF else c.

Fixpoint stored (s : string) : string :=
  match s with
  | EmptyString => EmptyString
  | String c s' => String (stored_char c) (stored s')
  end.

Definition XML_ERROR : string :=
  "All strings must be XML compatible: Unicode or ASCII, no NULL bytes or control characters".

(** [run.text = s]: the outcome is the text the run then reads.  A
    character XML cannot hold makes the assignment raise. *)
Definition set_text (s : string) : outcome string :=
  if xml_compatible s then Returns (stored s) else Raises (ValueError XML_ERROR).

Inductive inline : Type :=
  | Run (t : string)
  | Hyperlink (t : string).

Abbreviation paragraph := (list inline) (only parsing).
Abbreviation cell := (list paragraph) (only parsing).

Record table : Type := Table {
  cells : list cell;            (* the cells of the table *)
  rows : list (list nat)        (* [row.cells] of every row, as references into [cells] *)
}.

Record document : Type := Document {
  paragraphs : list paragraph;
  tables : list table
}.

Definition inline_text (x : inline) : string :=
  match x with
  | Run t | Hyperlink t => t
  end.

(** [para.text] *)
Definition text (para : paragraph) : string :=
  PyStr.join (List.map inline_text para).

(** The texts of [para.runs]. *)
Fixpoint runs (para : paragraph) : list string :=
  match para with
  | [] => []
  | Run t :: para' => t :: runs para'
  | Hyperlink _ :: para' => runs para'
  end.

(** The paragraph whose runs read [ts], in order; the hyperlinks stay. *)
Fixpoint with_runs (para : paragraph) (ts : list string) : paragraph :=
  match para with
  | [] => []
  | Hyperlink t :: para' => Hyperlink t :: with_runs para' ts
  | Run t :: para' =>
      match ts with
      | [] => Run t :: with_runs para' []
      | t' :: ts' => Run t' :: with_runs para' ts'
      end
  end.

(** [for cell in row.cells: for paragraph in cell.paragraphs: f] *)
Fixpoint for_cells (f : paragraph -> outcome paragraph) (refs : list nat)
    (store : list cell) : outcome (list cell) :=
  match refs with
  | [] => Returns store
  | i :: refs' =>
      match store !! i with
      | Some c =>
          let? c' := for_each f c in
          for_cells f refs' (<[i := c']> store)
      | None => for_cells f refs' store     (* [row.cells] lists cells of the table only *)
      end
  end.

(** [for row in table.rows: for cell in row.cells: ...] *)
Fixpoint for_rows (f : paragraph -> outcome paragraph) (rws : list (list nat))
    (store : list cell) : outcome (list cell) :=
  match rws with
  | [] => Returns store
  | r :: rws' =>
      let? store' := for_cells f r store in
      for_rows f rws' store'
  end.

Definition for_table (f : paragraph -> outcome paragraph) (t : table) : outcome table :=
  let? store := for_rows f (rows t) (cells t) in
  Returns (Table store (rows t)).

End Docx.

(** ** The state of the host and the state-and-exception monad of the service *)

(** Files of the output directory: what the sweep reads of them. *)
Inductive body : Type :=
  | DocxBody (d : Docx.document)
  | PdfBody (d : Docx.document).

Inductive kind : Type :=
  | Regular
  | Directory
  | Dangling.      (* a link whose target is gone: listed, but [os.stat] raises *)

Record file : Type := File {
  f_body : option body;     (* [None]: not a generated artifact *)
  f_ctime : Z;              (* [os.path.getctime] *)
  f_kind : kind;
  f_locked : bool           (* [os.remove] raises on it *)
}.

(** [os.path.isfile] *)
Definition f_regular (f : file) : bool :=
  match f_kind f with
  | Regular => true
  | _ => false
  end.

(** [os.stat] succeeds *)
Definition f_stat (f : file) : bool :=
  match f_kind f with
  | Dangling => false
  | _ => true
  end.

Inductive template_file : Type :=
  | Template (d : Docx.document)
  | Unreadable (msg : string).      (* [Document(path)] raises *)

Record world : Type := World {
  templates : string -> option template_file;   (* under TEMPLATES_DIR *)
  outdir : list (string * file);                (* OUTPUT_DIR, in listing order, by joined path *)
  tmpdir : list (string * Docx.document);       (* temporary .docx files *)
  clock : Z;
  errors : list string                          (* [logger.error] messages, oldest first;
                                                   of a message that goes on with a traceback,
                                                   the first line *)
}.

(** What a request cannot decide: the random id, the temporary name and
    whether the external calls fail. *)
Record platform : Type := Platform {
  uuid8 : string;                                   (* [str(uuid.uuid4())[:8]] *)
  tmp_name : string;                                (* [NamedTemporaryFile(...).name] *)
  save_raises : string -> option string;            (* [doc.save(path)] *)
  convert_raises : string -> string -> option string   (* [convert(docx, pdf)] *)
}.

Definition M (A : Type) : Type := world -> outcome A * world.

Definition ret {A} (a : A) : M A := fun w => (Returns a, w).
Definition raise {A} (e : exn) : M A := fun w => (Raises e, w).
Definition bind {A B} (m : M A) (k : A -> M B) : M B :=
  fun w => match m w with
           | (Returns a, w') => k a w'
           | (Raises e, w') => (Raises e, w')
           end.
(** [try: m  except Exception as e: h e] *)
Definition try_except {A} (m : M A) (h : exn -> M A) : M A :=
  fun w => match m w with
           | (Returns a, w') => (Returns a, w')
           | (Raises e, w') => h e w'
           end.

Notation "'let!' x ':=' m 'in' k" := (bind m (fun x => k))
  (at level 10, x name, m at level 100, k at level 200).

Definition logger_error (msg : string) : M unit :=
  fun w => (Returns tt,
            World (templates w) (outdir w) (tmpdir w) (clock w) (errors w ++ [msg])).

Definition set_outdir (d : list (string * file)) (w : world) : world :=
  World (templates w) d (tmpdir w) (clock w) (errors w).

Definition set_tmpdir (d : list (string * Docx.document)) (w : world) : world :=
  World (templates w) (outdir w) d (clock w) (errors w).

(** Association-list access by path. *)
Fixpoint lookup_path {A} (p : string) (d : list (string * A)) : option A :=
  match d with
  | [] => None
  | (q, a) :: d' => if String.eqb p q then Some a else lookup_path p d'
  end.

Definition remove_path {A} (p : string) (d : list (string * A)) : list (string * A) :=
  List.filter (fun e => negb (String.eqb p (fst e))) d.

(** ** Substitution engines

    Both engines rewrite the document in place; here they return the
    document they leave.  An exception ends the call: the document, partly
    rewritten, is local to the caller, which lets the exception through. *)
Module Subst.
Import Docx.

(** A field map is a Python dict: insertion-ordered, iterated in that
    order by [data.items()]. *)
Definition field_map : Type := list (string * option string).
Definition replacements : Type := list (string * string).

(** [f"{{{{{key}}}}}"] *)
Definition placeholder (key : string) : string := "{{" +:+ key +:+ "}}".

(** [str(value) if value is not None else ""] *)
Definition str_value (value : option string) : string :=
  match value with
  | Some s => s
  | None => ""
  end.

(** *** Run-local engine: the loops of [generate_document]

    [inline = p.runs] is the list of the runs of the paragraph; the loops
    work on the texts these runs read. *)

(** [inline[i].text], for [i] in [range(len(inline))]. *)
Definition run_text (inline : list string) (i : nat) : string :=
  match inline !! i with
  | Some t => t
  | None => ""
  end.

(** [for key, value in data.items(): if placeholder in inline[i].text:
    inline[i].text = inline[i].text.replace(placeholder, str_value)] *)
Fixpoint items_loop (items : field_map) (i : nat) (inline : list string)
  : outcome (list string) :=
  match items with
  | [] => Returns inline
  | (key, value) :: rest =>
      let ph := placeholder key in
      if PyStr.contains ph (run_text inline i)
      then
        let? t := set_text (PyStr.replace ph (str_value value) (run_text inline i)) in
        items_loop rest i (<[i := t]> inline)
      else items_loop rest i inline
  end.

(** [for i in range(len(inline)): ...] *)
Fixpoint index_loop (data : field_map) (idxs : list nat) (inline : list string)
  : outcome (list string) :=
  match idxs with
  | [] => Returns inline
  | i :: idxs' =>
      let? inline' := items_loop data i inline in
      index_loop data idxs' inline'
  end.

(** The body of [for p in doc.paragraphs]. *)
Definition body_paragraph (data : field_map) (p : paragraph) : outcome paragraph :=
  let? ts := index_loop data (seq 0 (length (runs p))) (runs p) in
  Returns (with_runs p ts).

(** [for run in paragraph.runs: if placeholder in run.text: run.text = ...] *)
Fixpoint runs_loop (ph sv : string) (rs : list string) : outcome (list string) :=
  match rs with
  | [] => Returns []
  | r :: rs' =>
      let? r' := (if PyStr.contains ph r then set_text (PyStr.replace ph sv r)
                  else Returns r) in
      let? rs'' := runs_loop ph sv rs' in
      Returns (r' :: rs'')
  end.

(** The body of [for paragraph in cell.paragraphs]: keys outside, runs
    inside, guarded by [placeholder in paragraph.text]. *)
Fixpoint cell_paragraph (items : field_map) (p : paragraph) : outcome paragraph :=
  match items with
  | [] => Returns p
  | (key, value) :: rest =>
      let ph := placeholder key in
      let? p' := (if PyStr.contains ph (text p)
                  then let? ts := runs_loop ph (str_value value) (runs p) in
                       Returns (with_runs p ts)
                  else Returns p) in
      cell_paragraph rest p'
  end.

(** Lines 118-144 of [generate_document]. *)
Definition substitute (data : field_map) (doc : document) : outcome document :=
  let? ps := for_each (body_paragraph data) (paragraphs doc) in
  let? ts := for_each (for_table (cell_paragraph data)) (tables doc) in
  Returns (Document ps ts).

(** What both loops do to one run: the keys in order, each on the text
    the run reads after the previous ones. *)
Definition run_step (key : string) (value : option string) (t : string)
  : outcome string :=
  if PyStr.contains (placeholder key) t
  then set_text (PyStr.replace (placeholder key) (str_value value) t)
  else Returns t.

Fixpoint run_pass (data : field_map) (t : string) : outcome string :=
  match data with
  | [] => Returns t
  | (key, value) :: rest =>
      let? t' := run_step key value t in
      run_pass rest t'
  end.

(** A body applied to every run of a paragraph, first run first. *)
Definition for_runs (f : string -> outcome string) (p : paragraph) : outcome paragraph :=
  let? ts := for_each f (runs p) in
  Returns (with_runs p ts).

(** *** Paragraph-level engine: [replace_placeholders] *)

(** [for key, value in replacements.items(): if key in text: text = ...] *)
Fixpoint replace_keys (items : replacements) (text : string) : string :=
  match items with
  | [] => text
  | (key, value) :: rest =>
      replace_keys rest
        (if PyStr.contains key text then PyStr.replace key value text else text)
  end.

(** [for run in para.runs: run.text = ""] *)
Definition clear_runs (p : paragraph) : paragraph :=
  with_runs p (List.map (fun _ => "") (runs p)).

(** [para.runs[0].text = text]: a list without a first element raises,
    then the assignment may.  The runs were emptied by then; the callers
    drop the document when the call raises. *)
Definition set_first_run (t : string) (p : paragraph) : outcome paragraph :=
  match runs p with
  | [] => Raises (IndexError "list index out of range")
  | _ :: rest =>
      let? t' := set_text t in
      Returns (with_runs p (t' :: rest))
  end.

(** The body of [for para in ...] in [replace_placeholders]. *)
Definition replace_paragraph (items : replacements) (para : paragraph)
  : outcome paragraph :=
  let t := replace_keys items (text para) in
  if negb (String.eqb t (text para))
  then set_first_run t (clear_runs para)
  else Returns para.

Definition replace_placeholders (doc : document) (items : replacements)
  : outcome document :=
  let? ps := for_each (replace_paragraph items) (paragraphs doc) in
  let? ts := for_each (for_table (replace_paragraph items)) (tables doc) in
  Returns (Document ps ts).

End Subst.

(** ** The service: artifact production, retention sweep, endpoints *)
Module Api.
Import Docx Subst.

Definition TEMPLATES_DIR : string :=
  "C:\Users\hp\Downloads\DevRolin_ems_-System-Devrolinems\DevRolin_ems_-System-Devrolinems\Python-Backend\code\templates".
(** [os.path.join(BASE_DIR, "generated_docs")], relative to [BASE_DIR],
    the directory of api.py: the paths of the artifacts are written from
    there. *)
Definition OUTPUT_DIR : string := "generated_docs".

(** *** [os.path.join] of two components (ntpath, CPython 3.11) *)

Definition is_sep (c : ascii) : bool := Ascii.eqb c "\" || Ascii.eqb c "/".

Definition starts_with_sep (s : string) : bool :=
  match s with
  | String c _ => is_sep c
  | EmptyString => false
  end.

Fixpoint last_char (s : string) : option ascii :=
  match s with
  | EmptyString => None
  | String c EmptyString => Some c
  | String _ s' => last_char s'
  end.

(** The index of the first separator. *)
Fixpoint find_sep (s : string) : option nat :=
  match s with
  | EmptyString => None
  | String c s' => if is_sep c then Some 0 else option_map S (find_sep s')
  end.

(** [normp.find(sep, k)] *)
Definition find_sep_from (k : nat) (s : string) : option nat :=
  option_map (Nat.add k) (find_sep (PyStr.drop k s)).

(** [c.upper() == u] for a capital letter [u] *)
Definition upper_is (c u : ascii) : bool :=
  Ascii.eqb c u || Ascii.eqb c (PyStr.lower_char u).

(** [normp[:8].upper() == "\\?\UNC\"] *)
Definition is_unc_prefix (s : string) : bool :=
  match s with
  | String a (String b (String c (String d (String e (String f (String g (String h _))))))) =>
      is_sep a && is_sep b && Ascii.eqb c "?" && is_sep d &&
      upper_is e "U" && upper_is f "N" && upper_is g "C" && is_sep h
  | _ => false
  end.

(** [ntpath.splitdrive]: a UNC or device drive runs to the second
    separator after its prefix, a drive-letter drive is the two characters
    before and with the colon. *)
Definition splitdrive (p : string) : string * string :=
  match p with
  | String a (String b _) =>
      if is_sep a && is_sep b then
        let start := if is_unc_prefix p then 8 else 2 in
        match find_sep_from start p with
        | None => (p, "")
        | Some index =>
            match find_sep_from (index + 1) p with
            | None => (p, "")
            | Some index2 => (PyStr.take index2 p, PyStr.drop index2 p)
            end
        end
      else if Ascii.eqb b ":" then (PyStr.take 2 p, PyStr.drop 2 p)
      else ("", p)
  | _ => ("", p)
  end.

Definition nonempty (s : string) : bool :=
  match s with
  | EmptyString => false
  | String _ _ => true
  end.

(** The second path taken relative to the first. *)
Definition relative_to (result_path p_path : string) : string :=
  (if nonempty result_path &&
      negb (match last_char result_path with Some c => is_sep c | None => false end)
   then result_path +:+ "\"
   else result_path) +:+ p_path.

Definition path_join (path p : string) : string :=
  let (result_drive, result_path) := splitdrive path in
  let (p_drive, p_path) := splitdrive p in
  let (drive, tail) :=
    if starts_with_sep p_path then
      (* the second path is absolute *)
      ((if nonempty p_drive || negb (nonempty result_drive) then p_drive else result_drive),
       p_path)
    else if nonempty p_drive && negb (String.eqb p_drive result_drive) then
      if negb (String.eqb (PyStr.lower p_drive) (PyStr.lower result_drive))
      then (p_drive, p_path)                       (* different drives *)
      else (p_drive, relative_to result_path p_path)   (* same drive in different case *)
    else (result_drive, relative_to result_path p_path) in
  (* a separator between a UNC drive and a relative path *)
  if nonempty tail && negb (starts_with_sep tail) && nonempty drive &&
     negb (match last_char drive with Some c => Ascii.eqb c ":" | None => false end)
  then drive +:+ "\" +:+ tail
  else drive +:+ tail.

(** *** Operating-system and library calls *)

Definition lift {A} (o : outcome A) : M A := fun w => (o, w).

(** [os.path.exists(template_path)] *)
Definition template_exists (path : string) : M bool :=
  fun w => (Returns (match templates w path with Some _ => true | None => false end), w).

(** [Document(template_path)] *)
Definition load_document (path : string) : M document :=
  fun w => match templates w path with
           | Some (Template d) => (Returns d, w)
           | Some (Unreadable m) => (Raises (Exception m), w)
           | None => (Raises (Exception ("Package not found at " +:+ path)), w)
           end.

(** A file written under OUTPUT_DIR: created now, or its body replaced. *)
Definition write_out (path : string) (b : body) (w : world) : world :=
  World (templates w)
        (remove_path path (outdir w) ++ [(path, File (Some b) (clock w) Regular false)])
        (tmpdir w) (clock w + 1)%Z (errors w).

(** [doc.save(path)] with [path] under OUTPUT_DIR *)
Definition doc_save (pf : platform) (doc : document) (path : string) : M unit :=
  fun w => match save_raises pf path with
           | Some m => (Raises (OSError m), w)
           | None => (Returns tt, write_out path (DocxBody doc) w)
           end.

(** [doc.save(temp_docx)] inside [with tempfile.NamedTemporaryFile(...)] *)
Definition doc_save_tmp (pf : platform) (doc : document) (path : string) : M unit :=
  fun w => match save_raises pf path with
           | Some m => (Raises (OSError m), w)
           | None => (Returns tt, set_tmpdir (remove_path path (tmpdir w) ++ [(path, doc)]) w)
           end.

(** The .docx at [path], temporary or generated. *)
Definition read_docx (path : string) (w : world) : option document :=
  match lookup_path path (tmpdir w) with
  | Some d => Some d
  | None =>
      match lookup_path path (outdir w) with
      | Some (File (Some (DocxBody d)) _ _ _) => Some d
      | _ => None
      end
  end.

(** [convert(docx_path, pdf_path)] of docx2pdf: anything it raises is an
    [Exception]. *)
Definition convert (pf : platform) (docx_path pdf_path : string) : M unit :=
  fun w => match convert_raises pf docx_path pdf_path with
           | Some m => (Raises (Exception m), w)
           | None =>
               match read_docx docx_path w with
               | Some d => (Returns tt, write_out pdf_path (PdfBody d) w)
               | None => (Raises (Exception ("cannot open " +:+ docx_path)), w)
               end
           end.

(** [os.remove(temp_docx)] *)
Definition os_remove_tmp (path : string) : M unit :=
  fun w => match lookup_path path (tmpdir w) with
           | Some _ => (Returns tt, set_tmpdir (remove_path path (tmpdir w)) w)
           | None => (Raises (OSError ("No such file: " +:+ path)), w)
           end.

(** [[os.path.join(OUTPUT_DIR, f) for f in os.listdir(OUTPUT_DIR)]] *)
Definition listdir_joined : M (list string) :=
  fun w => (Returns (List.map fst (outdir w)), w).

(** [os.path.getctime(path)]: raises when the path is gone or cannot be
    stat'ed. *)
Definition os_path_getctime (path : string) : M Z :=
  fun w => match lookup_path path (outdir w) with
           | Some f =>
               if f_stat f then (Returns (f_ctime f), w)
               else (Raises (OSError ("No such file: " +:+ path)), w)
           | None => (Raises (OSError ("No such file: " +:+ path)), w)
           end.

(** [os.path.isfile(path)]: false when the path is gone, a directory or
    a link whose target is gone. *)
Definition os_path_isfile (path : string) : M bool :=
  fun w => match lookup_path path (outdir w) with
           | Some f => (Returns (f_regular f), w)
           | None => (Returns false, w)
           end.

(** [os.remove(path)] under OUTPUT_DIR: raises on a locked file, a
    directory or a path that is gone. *)
Definition os_remove (path : string) : M unit :=
  fun w => match lookup_path path (outdir w) with
           | Some f =>
               match f_kind f with
               | Directory => (Raises (OSError ("Permission denied: " +:+ path)), w)
               | _ =>
                   if f_locked f
                   then (Raises (OSError ("Permission denied: " +:+ path)), w)
                   else (Returns tt, set_outdir (remove_path path (outdir w)) w)
               end
           | None => (Raises (OSError ("No such file: " +:+ path)), w)
           end.

(** *** [generate_document] *)

Record gen_result : Type := GenResult {
  docx_path : string;
  pdf_path : option string;
  docx_filename : string;
  pdf_filename : option string;
  warning : option string
}.

Definition generate_document (pf : platform)
    (template_name : string) (data : field_map) (output_prefix : string)
  : M gen_result :=
  let unique_id := uuid8 pf in
  let docx_filename := output_prefix +:+ "_" +:+ unique_id +:+ ".docx" in
  let pdf_filename := output_prefix +:+ "_" +:+ unique_id +:+ ".pdf" in
  let docx_path := path_join OUTPUT_DIR docx_filename in
  let pdf_path := path_join OUTPUT_DIR pdf_filename in
  let template_path := path_join TEMPLATES_DIR template_name in
  let! found := template_exists template_path in
  if negb found then
    let! _ := logger_error ("Template file not found: " +:+ template_path) in
    raise (HTTPException 500 ("Template file not found: " +:+ template_name))
  else
    try_except
      (let! doc := load_document template_path in
       let! doc := lift (substitute data doc) in
       let! _ := doc_save pf doc docx_path in
       try_except
         (let! _ := convert pf docx_path pdf_path in
          ret (GenResult docx_path (Some pdf_path)
                         docx_filename (Some pdf_filename) None))
         (fun e =>
            let! _ := logger_error ("PDF conversion failed: " +:+ str_exn e) in
            ret (GenResult docx_path None docx_filename None
                   (Some "PDF conversion failed, only DOCX is available"))))
      (fun e =>
         let! _ := logger_error ("Document generation failed: " +:+ str_exn e) in
         raise (HTTPException 500 ("Document generation failed: " +:+ str_exn e))).

(** *** [generate_certificate] *)

Definition generate_certificate (pf : platform)
    (template_path output_pdf name position duration : string) : M string :=
  let! doc := load_document template_path in
  let replacements :=
    [("{{NAME}}", name); ("{{POSITION}}", position); ("{{DURATION}}", duration)] in
  let! doc := lift (replace_placeholders doc replacements) in
  let temp_docx := tmp_name pf in
  let! _ := doc_save_tmp pf doc temp_docx in
  let! _ := convert pf temp_docx output_pdf in
  let! _ := os_remove_tmp temp_docx in
  ret output_pdf.

(** *** [cleanup_old_files] and its task [delete_old_files] *)

(** The keys of [files.sort(key=os.path.getctime, ...)], computed for
    every element before any is moved. *)
Fixpoint sort_keys (files : list string) : M (list (Z * string)) :=
  match files with
  | [] => ret []
  | f :: files' =>
      let! k := os_path_getctime f in
      let! ks := sort_keys files' in
      ret ((k, f) :: ks)
  end.

(** [list.sort(reverse=True)] is stable: larger keys first, equal keys
    in their original order. *)
Fixpoint insert_desc (x : Z * string) (l : list (Z * string)) : list (Z * string) :=
  match l with
  | [] => [x]
  | y :: l' => if (fst x <? fst y)%Z then y :: insert_desc x l' else x :: l
  end.

Fixpoint sort_desc (l : list (Z * string)) : list (Z * string) :=
  match l with
  | [] => []
  | x :: l' => insert_desc x (sort_desc l')
  end.

(** [for old_file in ...: if os.path.isfile(old_file): os.remove(old_file)] *)
Fixpoint remove_loop (old_files : list string) : M unit :=
  match old_files with
  | [] => ret tt
  | old_file :: rest =>
      let! isf := os_path_isfile old_file in
      let! _ := (if isf then os_remove old_file else ret tt) in
      remove_loop rest
  end.

(** The statements inside [try:] of [delete_old_files]. *)
Definition sweep : M unit :=
  let! files := listdir_joined in
  let! keyed := sort_keys files in
  let files := List.map snd (sort_desc keyed) in
  remove_loop (List.skipn 40 files).

Definition delete_old_files : M unit :=
  try_except sweep
    (fun e => logger_error ("Cleanup failed: " +:+ str_exn e)).

Inductive task : Type := DeleteOldFiles.

(** [background_tasks.add_task(delete_old_files)] *)
Definition cleanup_old_files (background_tasks : list task) : list task :=
  background_tasks ++ [DeleteOldFiles].

Definition run_task (t : task) : M unit :=
  match t with DeleteOldFiles => delete_old_files end.

(** *** Endpoints *)

Record OfferLetterData : Type := {
  ol_REF : string; ol_DATE : string; ol_NAME : string; ol_DURATION : string;
  ol_STARTDATE : string; ol_SUPNAME : string; ol_TASKS : string;
  ol_POSITION : string; ol_DEPARTMENT : string; ol_FROMANDTODATE : string;
  ol_TYPE : string; ol_RESPONSEDATE : string
}.

Record TerminationLetterData : Type := {
  tl_REF : string; tl_DATE : string; tl_NAME : string;
  tl_POSITION : string; tl_TERMDATE : string; tl_LASTDAY : string
}.

Record CertificateData : Type := {
  c_NAME : string; c_POSITION : string; c_DURATION : string
}.

(** The three experience-letter models have the same fields. *)
Record ExperienceLetterData : Type := {
  el_REF : string; el_DATE : string; el_NAME : string;
  el_DURATION : string; el_STARTDATE : string; el_ENDDATE : string
}.

Record response : Type := Response {
  success : bool;
  message : string;
  docx_url : string;
  pdf_url : option string;
  resp_warning : option string
}.

(** [str(x) if x else ""] on a string field *)
Definition or_blank (x : string) : option string :=
  match x with
  | EmptyString => Some ""
  | _ => Some x
  end.

(** [if result.get(k):] on an optional string *)
Definition truthy (o : option string) : bool :=
  match o with
  | Some (String _ _) => true
  | _ => false
  end.

(** The part the five letter endpoints share: generate, schedule the
    sweep, build the response; any exception becomes a 500. *)
Definition letter_endpoint (pf : platform) (template_name : string)
    (template_data : field_map) (output_prefix what msg : string)
  : M (response * list task) :=
  try_except
    (let! result := generate_document pf template_name template_data output_prefix in
     let background_tasks := cleanup_old_files [] in
     ret (Response true msg
            ("/download/" +:+ docx_filename result)
            (if truthy (pdf_filename result)
             then option_map (String.append "/download/") (pdf_filename result)
             else None)
            (if truthy (warning result) then warning result else None),
          background_tasks))
    (fun e =>
       let! _ := logger_error ("Error generating " +:+ what +:+ ": " +:+ str_exn e) in
       raise (HTTPException 500 (str_exn e))).

Definition generate_offer_letter (pf : platform) (data : OfferLetterData) :=
  letter_endpoint pf "offer_template.docx"
    [("REF", or_blank (ol_REF data)); ("DATE", or_blank (ol_DATE data));
     ("NAME", or_blank (ol_NAME data)); ("DURATION", or_blank (ol_DURATION data));
     ("STARTDATE", or_blank (ol_STARTDATE data)); ("SUPNAME", or_blank (ol_SUPNAME data));
     ("TASKS", or_blank (ol_TASKS data)); ("POSITION", or_blank (ol_POSITION data));
     ("DEPARTMENT", or_blank (ol_DEPARTMENT data));
     ("FROMANDTODATE", or_blank (ol_FROMANDTODATE data));
     ("TYPE", or_blank (ol_TYPE data)); ("RESPONSEDATE", or_blank (ol_RESPONSEDATE data))]
    "offer_letter" "offer letter" "Offer letter generated successfully".

Definition generate_termination_letter (pf : platform) (data : TerminationLetterData) :=
  letter_endpoint pf "Termination Letter.docx"
    [("REFNO", or_blank (tl_REF data)); ("DATE", or_blank (tl_DATE data));
     ("NAME", Some (tl_NAME data)); ("POSITION", Some (tl_POSITION data));
     ("TERMDATE", Some (tl_TERMDATE data)); ("LASTDAY", Some (tl_LASTDAY data))]
    "termination_letter" "termination letter" "Termination letter generated successfully".

Definition experience_data (data : ExperienceLetterData) : field_map :=
  [("REF", or_blank (el_REF data)); ("DATE", or_blank (el_DATE data));
   ("NAME", or_blank (el_NAME data)); ("DURATION", or_blank (el_DURATION data));
   ("STARTDATE", or_blank (el_STARTDATE data)); ("ENDDATE", or_blank (el_ENDDATE data))].

Definition generate_aiml_experience_letter (pf : platform) (data : ExperienceLetterData) :=
  letter_endpoint pf (TEMPLATES_DIR +:+ "\Experince_AI_Template.docx")
    (experience_data data)
    "aiml_experience_letter" "AI/ML experience letter"
    "AI/ML Experience letter generated successfully".

Definition generate_webdev_experience_letter (pf : platform) (data : ExperienceLetterData) :=
  letter_endpoint pf (TEMPLATES_DIR +:+ "\Experience_Web_Template.docx")
    (experience_data data)
    "webdev_experience_letter" "Web Development experience letter"
    "Web Development Experience letter generated successfully".

Definition generate_graphic_design_experience_letter (pf : platform)
    (data : ExperienceLetterData) :=
  letter_endpoint pf (TEMPLATES_DIR +:+ "\Experience_Graphic_Template.docx")
    (experience_data data)
    "graphic_design_experience_letter" "Graphic Design experience letter"
    "Graphic Design Experience letter generated successfully".

Definition generate_certificate_endpoint (pf : platform) (data : CertificateData)
  : M (response * list task) :=
  try_except
    (let unique_id := uuid8 pf in
     let docx_filename := "certificate_" +:+ unique_id +:+ ".docx" in
     let pdf_filename := "certificate_" +:+ unique_id +:+ ".pdf" in
     let docx_path := path_join OUTPUT_DIR docx_filename in
     let pdf_path := path_join OUTPUT_DIR pdf_filename in
     let template_path := path_join TEMPLATES_DIR "Certificate_Template.docx" in
     let! _ := generate_certificate pf template_path pdf_path
                 (c_NAME data) (c_POSITION data) (c_DURATION data) in
     let! doc := load_document template_path in
     let replacements :=
       [("{{NAME}}", c_NAME data); ("{{POSITION}}", c_POSITION data);
        ("{{DURATION}}", c_DURATION data)] in
     let! doc := lift (replace_placeholders doc replacements) in
     let! _ := doc_save pf doc docx_path in
     let background_tasks := cleanup_old_files [] in
     ret (Response true "Experience certificate generated successfully"
            ("/download/" +:+ docx_filename)
            (Some ("/download/" +:+ pdf_filename))
            None,
          background_tasks))
    (fun e =>
       let! _ := logger_error ("Error generating certificate: " +:+ str_exn e) in
       raise (HTTPException 500 (str_exn e))).

(** The framework sends the response of an endpoint that returned, then
    runs its background tasks. *)
Fixpoint run_tasks (ts : list task) : M unit :=
  match ts with
  | [] => ret tt
  | t :: ts' => let! _ := run_task t in run_tasks ts'
  end.

Definition serve (endpoint : M (response * list task)) : M response :=
  let! rb := endpoint in
  let! _ := run_tasks (snd rb) in
  ret (fst rb).

End Api.

(** ** Token structure of a text

    Vocabulary for the statements about templates: names without braces,
    and texts whose braces all belong to [{{NAME}}] tokens. *)
Module Tokens.
Import Subst.

Definition is_brace (c : ascii) : bool :=
  Ascii.eqb c "{" || Ascii.eqb c "}".

Fixpoint brace_free (s : string) : bool :=
  match s with
  | EmptyString => true
  | String c s' => negb (is_brace c) && brace_free s'
  end.

Inductive segment : Type :=
  | Lit (c : ascii)
  | Tok (name : string).

Definition seg_text (g : segment) : string :=
  match g with
  | Lit c => String c ""
  | Tok n => placeholder n
  end.

Fixpoint flatten (gs : list segment) : string :=
  match gs with
  | [] => ""
  | g :: gs' => seg_text g +:+ flatten gs'
  end.

Definition seg_ok (g : segment) : bool :=
  match g with
  | Lit c => negb (is_brace c)
  | Tok n => brace_free n
  end.

(** Every brace of [flatten gs] belongs to a token with a brace-free name. *)
Definition well_formed (gs : list segment) : bool := forallb seg_ok gs.

Fixpoint lits (s : string) : list segment :=
  match s with
  | EmptyString => []
  | String c s' => Lit c :: lits s'
  end.

(** Locate-then-write substitution of one key on the segments. *)
Definition seg_subst (k v : string) (g : segment) : list segment :=
  match g with
  | Tok n => if String.eqb n k then lits v else [g]
  | Lit _ => [g]
  end.

Definition subst_segments (k v : string) (gs : list segment) : list segment :=
  flat_map (seg_subst k v) gs.

Definition has_token (k : string) (gs : list segment) : bool :=
  existsb (fun g => match g with Tok n => String.eqb n k | Lit _ => false end) gs.

(** The keys of a field map, in order, on the segments. *)
Definition seg_pass (data : field_map) (gs : list segment) : list segment :=
  foldl (fun gs kv => subst_segments (fst kv) (str_value (snd kv)) gs) gs data.

(** The text the run-local pass asks a run to hold: the keys in order,
    each on the text the previous ones asked for. *)
Definition text_step (key : string) (value : option string) (t : string) : string :=
  if PyStr.contains (placeholder key) t
  then PyStr.replace (placeholder key) (str_value value) t
  else t.

Definition text_pass (data : field_map) (t : string) : string :=
  foldl (fun t kv => text_step (fst kv) (snd kv) t) t data.

(** No occurrence of [p] touches an occurrence of [q]: one that starts at or
    before [q] ends before it, and none starts inside [q]. *)
Definition clear_of (p q : string) : Prop :=
  (forall a b, String.prefix p (a +:+ q +:+ b) = true -> exists a', a = p +:+ a') /\
  (forall x y b, q = x +:+ y -> y <> "" -> String.prefix p (y +:+ b) = false).

End Tokens.

(** ** Sample directories and hosts for the scenarios of the specification *)
Module Scenario.
Import Docx.

(** Distinct artifact paths. *)
Definition artifact_path (i : nat) : string :=
  Api.path_join Api.OUTPUT_DIR ("offer_letter_" +:+ String (ascii_of_nat (48 + i)) ".pdf").

(** [n] regular files, file [i] created at time [i]; the one numbered
    [locked] (if below [n]) cannot be removed. *)
Definition directory (n : nat) (locked : option nat) : list (string * file) :=
  List.map
    (fun i => (artifact_path i,
               File None (Z.of_nat i) Regular
                    (match locked with Some j => Nat.eqb i j | None => false end)))
    (seq 0 n).

Definition world_with (d : list (string * file)) : world :=
  World (fun _ => None) d [] 100 [].

(** A host on which every conversion fails. *)
Definition no_converter : platform :=
  Platform "1a2b3c4d" "tmpabcd.docx" (fun _ => None)
           (fun _ _ => Some "Word is not installed").

Definition certificate_template : document :=
  Document [[Run "This certifies that {{NAME}} worked as {{POSITION}}"];
            [Run "for "; Run "{{DURA"; Run "TION}}."]] [].

Definition template_world : world :=
  World (fun path =>
           if String.eqb path (Api.path_join Api.TEMPLATES_DIR "Certificate_Template.docx")
           then Some (Template certificate_template)
           else if String.eqb path (Api.path_join Api.TEMPLATES_DIR "offer_template.docx")
           then Some (Template certificate_template)
           else None)
        [] [] 100 [].

(** Values with a character XML cannot hold, and with a carriage return. *)
Definition with_nul : string := "Bob" +:+ String "000" "".
Definition two_lines_cr : string := "Bob" +:+ String CR "Ray".
Definition two_lines_lf : string := "Bob" +:+ String LF "Ray".

End Scenario.

(** ** Delivery: [download_file] and [root] *)
Module Delivery.
Import Api.

(** [s.endswith(suffix)] *)
Definition endswith (s suffix : string) : bool :=
  String.eqb (PyStr.drop (String.length s - String.length suffix) s) suffix.

(** [os.path.exists(path)] over the files the service knows of: false
    for a link whose target is gone. *)
Definition os_path_exists (path : string) : M bool :=
  fun w =>
    (Returns (match lookup_path path (outdir w) with
              | Some f => f_stat f
              | None =>
                  match lookup_path path (tmpdir w) with
                  | Some _ => true
                  | None =>
                      match templates w path with
                      | Some _ => true
                      | None => false
                      end
                  end
              end), w).

Record FileResponse : Type := Build_FileResponse {
  fr_path : string;
  fr_filename : string;
  fr_media_type : string
}.

Definition DOCX_MEDIA_TYPE : string :=
  "application/vnd.openxmlformats-officedocument.wordprocessingml.document".

Definition download_file (filename : string) : M FileResponse :=
  let file_path := path_join OUTPUT_DIR filename in
  let! found := os_path_exists file_path in
  if negb found then
    let! _ := logger_error ("File not found: " +:+ file_path) in
    raise (HTTPException 404 "File not found")
  else
    let content_type :=
      if endswith filename ".docx" then DOCX_MEDIA_TYPE else "application/pdf" in
    ret (Build_FileResponse file_path filename content_type).

Definition root : M (list (string * string)) :=
  ret [("message",
        "Document Generator API is running. Access the API documentation at /docs")].

End Delivery.

(** ** Vocabulary for the statements about whole documents and directories *)
Module Whole.
Import Docx.

(** Every paragraph of the document: the top-level ones, then those of
    the cells of the tables. *)
Definition all_paragraphs (doc : document) : list (list inline) :=
  paragraphs doc ++ concat (concat (List.map cells (tables doc))).

(** The loops of both engines over a document: a body for every
    top-level paragraph, then for every paragraph of every cell listed. *)
Definition every_paragraph (f : list inline -> outcome (list inline)) (doc : document)
  : outcome document :=
  let? ps := for_each f (paragraphs doc) in
  let? ts := for_each (for_table f) (tables doc) in
  Returns (Document ps ts).

(** A property of every paragraph of every cell. *)
Definition all_cells (Q : list inline -> Prop) (store : list (list (list inline))) : Prop :=
  forall c p, In c store -> In p c -> Q p.

(** What a paragraph keeps whatever its runs read: the places of its runs
    and its hyperlinks. *)
Definition layout (p : list inline) : list (option string) :=
  List.map (fun x => match x with Run _ => None | Hyperlink t => Some t end) p.

Definition shape (doc : document)
  : list (list (option string))
    * list (list (list (list (option string))) * list (list nat)) :=
  (List.map layout (paragraphs doc),
   List.map (fun t => (List.map (List.map layout) (cells t), rows t)) (tables doc)).

(** No hyperlink in the paragraph. *)
Definition plain (p : list inline) : Prop := List.map Run (runs p) = p.

(** A text a run stores as it is: no character XML cannot hold, no
    carriage return. *)
Definition clean (s : string) : Prop :=
  xml_compatible s = true /\ stored s = s.

(** A paragraph without runs has no text either. *)
Definition grounded (p : list inline) : Prop := runs p = [] -> text p = "".

(** A directory of distinct paths holding removable regular files, all
    created before the present time. *)
Definition tidy (w : world) : Prop :=
  NoDup (List.map fst (outdir w)) /\
  forall p f, In (p, f) (outdir w) ->
    f_regular f = true /\ f_locked f = false /\ (f_ctime f < clock w)%Z.

(** The replacement map [generate_certificate] builds from names and values. *)
Definition braced (data : Subst.field_map) : Subst.replacements :=
  List.map (fun kv => (Subst.placeholder (fst kv), Subst.str_value (snd kv))) data.

(** The field map with every value as a run stores it. *)
Definition stored_values (data : Subst.field_map) : Subst.field_map :=
  List.map (fun kv => (fst kv, Some (stored (Subst.str_value (snd kv))))) data.

End Whole.

(** ** More hosts for the scenarios *)
Module Hosts.

(** A host on which saving and converting work. *)
Definition working : platform :=
  Platform "1a2b3c4d" "tmpabcd.docx" (fun _ => None) (fun _ _ => None).

(** A host on which only the temporary directory can be written. *)
Definition output_read_only : platform :=
  Platform "1a2b3c4d" "tmpabcd.docx"
           (fun path => if String.eqb path "tmpabcd.docx" then None
                        else Some "Permission denied")
           (fun _ _ => None).

(** The templates in place and 45 earlier artifacts in the output directory. *)
Definition busy_world : world :=
  World (templates Scenario.template_world) (Scenario.directory 45 None) [] 100 [].

End Hosts.

(** * Supporting lemmas *)

(** ** Facts about the string primitives *)

Lemma sapp_nil_l (s : string) : "" +:+ s = s.
Proof. reflexivity. Qed.

Lemma sapp_cons (c : ascii) (s t : string) : String c s +:+ t = String c (s +:+ t).
Proof. reflexivity. Qed.

Lemma sapp_nil_r (s : string) : s +:+ "" = s.
Proof. induction s as [|c s IH]; [reflexivity | now rewrite sapp_cons, IH]. Qed.

Lemma sapp_assoc (a b c : string) : (a +:+ b) +:+ c = a +:+ (b +:+ c).
Proof. induction a as [|x a IH]; [reflexivity | now rewrite !sapp_cons, IH]. Qed.

Lemma slength_app (a b : string) :
  String.length (a +:+ b) = String.length a + String.length b.
Proof.
  induction a as [|x a IH]; [reflexivity|].
  rewrite sapp_cons. simpl. now rewrite IH.
Qed.

Lemma prefix_nil (s : string) : String.prefix "" s = true.
Proof. destruct s; reflexivity. Qed.

Lemma prefix_cons (a b : ascii) (p s : string) :
  String.prefix (String a p) (String b s) = bool_decide (a = b) && String.prefix p s.
Proof.
  simpl. destruct (ascii_dec a b) as [->|Hne].
  - now rewrite bool_decide_eq_true_2.
  - now rewrite bool_decide_eq_false_2.
Qed.

Lemma prefix_app (p r : string) : String.prefix p (p +:+ r) = true.
Proof.
  induction p as [|c p IH]; [apply prefix_nil|].
  simpl. destruct (ascii_dec c c); [exact IH | congruence].
Qed.

Lemma prefix_true_inv (p s : string) :
  String.prefix p s = true -> exists r, s = p +:+ r.
Proof.
  revert s. induction p as [|c p IH]; intros s H.
  - exists s. reflexivity.
  - destruct s as [|d s]; [discriminate|].
    simpl in H. destruct (ascii_dec c d) as [->|]; [|discriminate].
    destruct (IH _ H) as [r ->]. exists r. reflexivity.
Qed.

Lemma prefix_empty_r (p : string) : String.prefix p "" = true -> p = "".
Proof. destruct p; [reflexivity | discriminate]. Qed.

Lemma drop_app (p r : string) : PyStr.drop (String.length p) (p +:+ r) = r.
Proof. induction p as [|c p IH]; simpl; [now destruct r | exact IH]. Qed.

Lemma take_drop (n : nat) (s : string) : PyStr.take n s +:+ PyStr.drop n s = s.
Proof.
  revert s. induction n as [|n IH]; intros [|c s]; try reflexivity.
  simpl. rewrite sapp_cons. now rewrite IH.
Qed.

Lemma contains_nil_r (p : string) : PyStr.contains p "" = true -> p = "".
Proof. simpl. rewrite orb_false_r. apply prefix_empty_r. Qed.

Lemma contains_cons (p : string) (c : ascii) (s : string) :
  PyStr.contains p (String c s) = String.prefix p (String c s) || PyStr.contains p s.
Proof. reflexivity. Qed.

Lemma contains_of_prefix (p s : string) :
  String.prefix p s = true -> PyStr.contains p s = true.
Proof. intros H. destruct s; cbn [PyStr.contains]; rewrite H; reflexivity. Qed.

Lemma contains_app_intro (a p b : string) : PyStr.contains p (a +:+ p +:+ b) = true.
Proof.
  induction a as [|c a IH].
  - rewrite sapp_nil_l. apply contains_of_prefix, prefix_app.
  - rewrite sapp_cons, contains_cons, IH. apply orb_true_r.
Qed.

Lemma contains_true_inv (p s : string) :
  PyStr.contains p s = true -> exists a b, s = a +:+ p +:+ b.
Proof.
  induction s as [|c s IH]; intros H.
  - apply contains_nil_r in H. subst. exists "", "". reflexivity.
  - rewrite contains_cons in H. apply orb_true_iff in H as [H|H].
    + apply prefix_true_inv in H as [r Hr]. exists "", r. exact Hr.
    + destruct (IH H) as (a & b & ->). exists (String c a), b. reflexivity.
Qed.

Lemma contains_true_iff (p s : string) :
  PyStr.contains p s = true <-> exists a b, s = a +:+ p +:+ b.
Proof.
  split; [apply contains_true_inv|]. intros (a & b & ->). apply contains_app_intro.
Qed.

Lemma contains_app_l (q a b : string) :
  PyStr.contains q a = true -> PyStr.contains q (a +:+ b) = true.
Proof.
  intros H. apply contains_true_inv in H as (x & y & ->).
  rewrite !sapp_assoc. apply contains_app_intro.
Qed.

Lemma contains_app_r (q a b : string) :
  PyStr.contains q b = true -> PyStr.contains q (a +:+ b) = true.
Proof.
  intros H. apply contains_true_inv in H as (x & y & ->).
  rewrite <- sapp_assoc. apply contains_app_intro.
Qed.

Lemma contains_empty_text (key : string) :
  key <> "" -> PyStr.contains key "" = false.
Proof.
  intros H. destruct (PyStr.contains key "") eqn:E; [|reflexivity].
  apply contains_nil_r in E. congruence.
Qed.

Lemma join_cons (r : string) (p : list string) :
  PyStr.join (r :: p) = r +:+ PyStr.join p.
Proof.
  unfold PyStr.join. destruct p as [|r' p]; simpl.
  - now rewrite sapp_nil_r.
  - reflexivity.
Qed.

(** *** [replace]: the equations of the left-to-right scan *)

Lemma replace_from_drop (old new : string) (n : nat) (s : string) :
  old <> "" ->
  PyStr.replace_from old new n s = PyStr.replace old new (PyStr.drop n s).
Proof.
  intros Hold. revert n. induction s as [|c s IH]; intros n.
  - destruct n; simpl; [reflexivity|].
    unfold PyStr.replace. simpl. destruct old; [congruence | reflexivity].
  - destruct n; [reflexivity|]. simpl PyStr.drop.
    rewrite <- IH. reflexivity.
Qed.

Lemma replace_nil (old new : string) :
  old <> "" -> PyStr.replace old new "" = "".
Proof. intros H. unfold PyStr.replace. simpl. destruct old; [congruence | reflexivity]. Qed.

Lemma replace_hit (old new s : string) :
  old <> "" -> String.prefix old s = true ->
  PyStr.replace old new s =
  new +:+ PyStr.replace old new (PyStr.drop (String.length old) s).
Proof.
  intros Hold Hp. destruct s as [|c s].
  - apply prefix_empty_r in Hp. congruence.
  - unfold PyStr.replace at 1. cbn [PyStr.replace_from]. rewrite Hp.
    destruct old as [|a old']; [congruence|].
    rewrite replace_from_drop by exact Hold. reflexivity.
Qed.

Lemma replace_miss (old new : string) (c : ascii) (s : string) :
  String.prefix old (String c s) = false ->
  PyStr.replace old new (String c s) = String c (PyStr.replace old new s).
Proof.
  intros Hp. unfold PyStr.replace at 1. cbn [PyStr.replace_from]. rewrite Hp.
  reflexivity.
Qed.

Lemma replace_absent (old new s : string) :
  PyStr.contains old s = false -> PyStr.replace old new s = s.
Proof.
  induction s as [|c s IH]; intros H.
  - simpl in H. rewrite orb_false_r in H.
    unfold PyStr.replace. simpl. now rewrite H.
  - rewrite contains_cons in H. apply orb_false_iff in H as [Hp Hc].
    rewrite replace_miss by exact Hp. now rewrite IH.
Qed.

(** *** [str.replace] and [in] on the cases the Python documentation gives *)

Example replace_all_occurrences :
  PyStr.replace "ab" "X" "abcabab" = "XcXX".
Proof. reflexivity. Qed.

Example replace_non_overlapping :
  PyStr.replace "aa" "b" "aaa" = "ba".
Proof. reflexivity. Qed.

Example replace_not_rescanned :
  PyStr.replace "a" "aa" "aba" = "aabaa".
Proof. reflexivity. Qed.

Example replace_empty_old :
  PyStr.replace "" "-" "abc" = "-a-b-c-" /\ PyStr.replace "" "x" "" = "x".
Proof. split; reflexivity. Qed.

Example contains_examples :
  PyStr.contains "{{A}}" "x{{A}}y" = true /\
  PyStr.contains "{{A}}" "{{A" = false /\
  PyStr.contains "" "" = true.
Proof. repeat split; reflexivity. Qed.

Example str_exn_examples :
  str_exn (HTTPException 500 "Template file not found: x.docx")
  = "500: Template file not found: x.docx" /\
  str_exn (ValueError Docx.XML_ERROR) = Docx.XML_ERROR.
Proof. split; reflexivity. Qed.

(** *** [find] and [replace] *)

Lemma find_none_iff (sub s : string) :
  PyStr.find sub s = None <-> PyStr.contains sub s = false.
Proof.
  induction s as [|c s IH].
  - cbn [PyStr.find PyStr.contains]. destruct (String.prefix sub ""); split; intros H;
      first [discriminate | reflexivity].
  - rewrite contains_cons. cbn [PyStr.find].
    destruct (String.prefix sub (String c s)); [split; discriminate|].
    rewrite orb_false_l, <- IH. destruct (PyStr.find sub s); split; intros H;
      first [discriminate | reflexivity].
Qed.

Lemma find_some (sub s : string) :
  PyStr.contains sub s = true -> exists i, PyStr.find sub s = Some i.
Proof.
  intros H. destruct (PyStr.find sub s) as [i|] eqn:E; [now exists i|].
  apply find_none_iff in E. congruence.
Qed.

(** The scan replaces the leftmost occurrence and resumes after it. *)
Lemma replace_at_find (old new s : string) (i : nat) :
  old <> "" -> PyStr.find old s = Some i ->
  PyStr.replace old new s =
  PyStr.take i s +:+ new +:+
  PyStr.replace old new (PyStr.drop (i + String.length old) s).
Proof.
  intros Hold. revert i. induction s as [|c s IH]; intros i Hf.
  - cbn [PyStr.find] in Hf. destruct (String.prefix old "") eqn:E; [|discriminate].
    apply prefix_empty_r in E. congruence.
  - cbn [PyStr.find] in Hf. destruct (String.prefix old (String c s)) eqn:E.
    + injection Hf as <-. rewrite (replace_hit _ _ _ Hold E). reflexivity.
    + destruct (PyStr.find old s) as [j|] eqn:Ej; [|discriminate].
      injection Hf as <-. rewrite (replace_miss _ _ _ _ E), (IH j eq_refl).
      reflexivity.
Qed.

(** ** What a run stores *)

Section Stored.
Import Docx.

Lemma xml_compatible_app (a b : string) :
  xml_compatible (a +:+ b) = xml_compatible a && xml_compatible b.
Proof.
  induction a as [|c a IH]; [reflexivity|].
  rewrite sapp_cons. cbn [xml_compatible]. now rewrite IH, andb_assoc.
Qed.

Lemma stored_app (a b : string) : stored (a +:+ b) = stored a +:+ stored b.
Proof.
  induction a as [|c a IH]; [reflexivity|].
  rewrite sapp_cons. cbn [stored]. now rewrite IH, sapp_cons.
Qed.

Lemma stored_char_idem (c : ascii) : stored_char (stored_char c) = stored_char c.
Proof.
  unfold stored_char. destruct (Ascii.eqb c CR) eqn:E; [reflexivity|]. now rewrite E.
Qed.

Lemma stored_idem (s : string) : stored (stored s) = stored s.
Proof.
  induction s as [|c s IH]; [reflexivity|]. cbn [stored]. now rewrite stored_char_idem, IH.
Qed.

Lemma xml_char_stored (c : ascii) : xml_char (stored_char c) = xml_char c.
Proof.
  unfold stored_char. destruct (Ascii.eqb_spec c CR) as [->|]; reflexivity.
Qed.

Lemma xml_compatible_stored (s : string) : xml_compatible (stored s) = xml_compatible s.
Proof.
  induction s as [|c s IH]; [reflexivity|].
  cbn [stored xml_compatible]. now rewrite xml_char_stored, IH.
Qed.

Lemma stored_cons_inv (c : ascii) (s : string) :
  stored (String c s) = String c s -> stored_char c = c /\ stored s = s.
Proof. cbn [stored]. intros [= H1 H2]. now split. Qed.

Lemma stored_app_inv (a b : string) :
  stored (a +:+ b) = a +:+ b -> stored a = a /\ stored b = b.
Proof.
  induction a as [|c a IH]; [now split|].
  rewrite sapp_cons. intros H. apply stored_cons_inv in H as [Hc H].
  destruct (IH H) as [Ha Hb]. split; [|exact Hb]. cbn [stored]. now rewrite Hc, Ha.
Qed.

Lemma contains_stored (q t : string) :
  PyStr.contains q t = true -> PyStr.contains (stored q) (stored t) = true.
Proof.
  intros H. apply contains_true_inv in H as (a & b & ->).
  rewrite !stored_app. apply contains_app_intro.
Qed.

(** A text that holds no carriage return holds no key that has one. *)
Lemma contains_plain (q t : string) :
  stored t = t -> PyStr.contains q t = true -> stored q = q.
Proof.
  intros Ht H. apply contains_true_inv in H as (a & b & ->).
  apply stored_app_inv in Ht as [_ Ht]. now apply stored_app_inv in Ht as [Ht _].
Qed.

Lemma xml_compatible_replace_from (old new : string) (n : nat) (s : string) :
  xml_compatible new = true -> xml_compatible s = true ->
  xml_compatible (PyStr.replace_from old new n s) = true.
Proof.
  intros Hnew. revert n. induction s as [|c s IH]; intros n Hs.
  - destruct n; cbn [PyStr.replace_from]; [|reflexivity].
    destruct (String.prefix old ""); [exact Hnew | reflexivity].
  - cbn [xml_compatible] in Hs. apply andb_true_iff in Hs as [Hc Hs].
    destruct n; cbn [PyStr.replace_from]; [|now apply IH].
    destruct (String.prefix old (String c s)).
    + destruct old.
      * rewrite xml_compatible_app, Hnew. cbn [xml_compatible]. now rewrite Hc, IH.
      * rewrite xml_compatible_app, Hnew. now apply IH.
    + cbn [xml_compatible]. now rewrite Hc, IH.
Qed.

Lemma xml_compatible_replace (old new s : string) :
  xml_compatible new = true -> xml_compatible s = true ->
  xml_compatible (PyStr.replace old new s) = true.
Proof. apply xml_compatible_replace_from. Qed.

(** On a text without carriage returns, storing the result of a
    replacement is replacing by the stored value. *)
Lemma stored_replace_from (old new : string) (n : nat) (s : string) :
  stored s = s ->
  stored (PyStr.replace_from old new n s) = PyStr.replace_from old (stored new) n s.
Proof.
  revert n. induction s as [|c s IH]; intros n Hs.
  - destruct n; cbn [PyStr.replace_from]; [|reflexivity].
    now destruct (String.prefix old "").
  - apply stored_cons_inv in Hs as [Hc Hs].
    destruct n; cbn [PyStr.replace_from]; [|now apply IH].
    destruct (String.prefix old (String c s)).
    + destruct old.
      * rewrite stored_app. cbn [stored]. now rewrite Hc, IH.
      * rewrite stored_app. now rewrite IH.
    + cbn [stored]. now rewrite Hc, IH.
Qed.

Lemma stored_replace (old new s : string) :
  stored s = s -> stored (PyStr.replace old new s) = PyStr.replace old (stored new) s.
Proof. apply stored_replace_from. Qed.

Lemma set_text_returns (s t : string) :
  set_text s = Returns t <-> xml_compatible s = true /\ t = stored s.
Proof.
  unfold set_text. destruct (xml_compatible s); split.
  - intros [= <-]. now split.
  - intros [_ ->]. reflexivity.
  - discriminate.
  - intros [? _]. discriminate.
Qed.

Lemma set_text_raises (s : string) (e : exn) :
  set_text s = Raises e <-> xml_compatible s = false /\ e = ValueError XML_ERROR.
Proof.
  unfold set_text. destruct (xml_compatible s); split.
  - discriminate.
  - intros [? _]. discriminate.
  - intros [= <-]. now split.
  - intros [_ ->]. reflexivity.
Qed.

Lemma set_text_empty : set_text "" = Returns "".
Proof. reflexivity. Qed.

End Stored.

(** ** Loops that may raise *)

Section Loops.

Lemma for_each_Forall2 {A} (f : A -> outcome A) (l l' : list A) :
  for_each f l = Returns l' <-> Forall2 (fun a a' => f a = Returns a') l l'.
Proof.
  revert l'. induction l as [|a l IH]; intros l'.
  - simpl. split.
    + intros [= <-]. constructor.
    + intros H. inversion H. reflexivity.
  - simpl. split.
    + intros H. destruct (f a) as [a'|] eqn:Ha; [|discriminate].
      cbn [obind] in H.
      destruct (for_each f l) as [l''|] eqn:Hl; [|discriminate].
      injection H as <-. constructor; [exact Ha | now apply IH].
    + intros H. inversion H as [|? a' ? l'' Ha Hl]; subst.
      rewrite Ha. cbn [obind]. apply IH in Hl. now rewrite Hl.
Qed.

Lemma for_each_length {A} (f : A -> outcome A) (l l' : list A) :
  for_each f l = Returns l' -> length l' = length l.
Proof. intros H. apply for_each_Forall2 in H. symmetry. exact (Forall2_length _ _ _ H). Qed.

Lemma for_each_id {A} (f : A -> outcome A) (l : list A) :
  (forall a, In a l -> f a = Returns a) -> for_each f l = Returns l.
Proof.
  induction l as [|a l IH]; intros H; [reflexivity|].
  simpl. rewrite (H a (or_introl eq_refl)). cbn [obind].
  rewrite IH by (intros b Hb; apply H; now right). reflexivity.
Qed.

Lemma for_each_ext {A} (f g : A -> outcome A) (l : list A) :
  (forall a, In a l -> f a = g a) -> for_each f l = for_each g l.
Proof.
  induction l as [|a l IH]; intros H; [reflexivity|].
  simpl. rewrite (H a (or_introl eq_refl)).
  rewrite IH by (intros b Hb; apply H; now right). reflexivity.
Qed.

Lemma for_each_raises {A} (f : A -> outcome A) (l : list A) (e : exn) :
  for_each f l = Raises e -> exists a, In a l /\ f a = Raises e.
Proof.
  induction l as [|a l IH]; [discriminate|]. simpl.
  destruct (f a) as [a'|e'] eqn:Ha; cbn [obind].
  - destruct (for_each f l) as [l'|e'] eqn:Hl; cbn [obind]; [discriminate|].
    intros [= <-]. destruct (IH eq_refl) as (b & Hb & Hf). exists b. split; [now right | exact Hf].
  - intros [= <-]. exists a. split; [now left | exact Ha].
Qed.

Lemma for_each_returns {A} (f : A -> outcome A) (l : list A) :
  (forall a, In a l -> exists a', f a = Returns a') ->
  exists l', for_each f l = Returns l'.
Proof.
  induction l as [|a l IH]; intros Hf; [now exists []|].
  destruct (Hf a (or_introl eq_refl)) as [a' Ha].
  destruct IH as [l' Hl]; [intros b Hb; apply Hf; now right|].
  exists (a' :: l'). simpl. now rewrite Ha, Hl.
Qed.

(** A property every element has and the body keeps. *)
Lemma for_each_invariant {A} (P : A -> Prop) (f : A -> outcome A) (l l' : list A) :
  (forall a a', In a l -> f a = Returns a' -> P a') ->
  for_each f l = Returns l' -> forall a', In a' l' -> P a'.
Proof.
  intros Hf H. apply for_each_Forall2 in H.
  induction H as [|a a' l l' Ha Hl IH]; intros b Hb; [destruct Hb|].
  destruct Hb as [<-|Hb].
  - apply (Hf a); [now left | exact Ha].
  - apply IH; [|exact Hb]. intros x x' Hx. apply Hf. now right.
Qed.

Lemma for_each_In_inv {A} (f : A -> outcome A) (l l' : list A) (b : A) :
  for_each f l = Returns l' -> In b l' -> exists a, In a l /\ f a = Returns b.
Proof.
  intros H. apply for_each_Forall2 in H.
  induction H as [|a a' l l' Ha Hl IH]; intros Hb; [destruct Hb|].
  destruct Hb as [<-|Hb].
  - exists a. split; [now left | exact Ha].
  - destruct (IH Hb) as (x & Hx & Hf). exists x. split; [now right | exact Hf].
Qed.

(** Two passes over a list are one pass of the two bodies, when only one
    exception can be raised. *)
Lemma for_each_fuse {A} (e0 : exn) (f g : A -> outcome A) (l : list A) :
  (forall a e, f a = Raises e -> e = e0) ->
  (forall a e, g a = Raises e -> e = e0) ->
  (let? l1 := for_each f l in for_each g l1)
  = for_each (fun a => let? b := f a in g b) l.
Proof.
  intros Hf Hg. induction l as [|a l IH]; [reflexivity|].
  cbn [for_each]. destruct (f a) as [b|e] eqn:Ha; cbn [obind]; [|reflexivity].
  rewrite <- IH.
  destruct (for_each f l) as [l1|e1] eqn:Hl; cbn [obind].
  - cbn [for_each]. reflexivity.
  - apply for_each_raises in Hl as (x & _ & Hx). apply Hf in Hx. subst e1.
    destruct (g b) as [c|e2] eqn:Hb; cbn [obind]; [reflexivity|].
    apply Hg in Hb. now subst.
Qed.

End Loops.

(** ** Paragraphs: runs, hyperlinks and text *)

Section Paragraphs.
Import Docx.

Lemma text_cons (x : inline) (p : list inline) :
  text (x :: p) = inline_text x +:+ text p.
Proof. unfold text. cbn [List.map]. apply join_cons. Qed.

Lemma text_nil : text [] = "".
Proof. reflexivity. Qed.

Lemma with_runs_runs (p : list inline) : with_runs p (runs p) = p.
Proof.
  induction p as [|[t|t] p IH]; [reflexivity| |]; cbn [runs with_runs]; now rewrite IH.
Qed.

Lemma runs_with_runs (p : list inline) (ts : list string) :
  length ts = length (runs p) -> runs (with_runs p ts) = ts.
Proof.
  revert ts. induction p as [|[t|t] p IH]; intros ts H.
  - destruct ts; [reflexivity | discriminate].
  - destruct ts as [|t' ts]; [discriminate|]. cbn [runs with_runs].
    f_equal. apply IH. now injection H.
  - cbn [runs with_runs]. now apply IH.
Qed.

Lemma with_runs_twice (p : list inline) (ts ts' : list string) :
  length ts' = length (runs p) ->
  with_runs (with_runs p ts) ts' = with_runs p ts'.
Proof.
  revert ts ts'. induction p as [|[t|t] p IH]; intros ts ts' L; [reflexivity| |].
  - cbn [runs length] in L. destruct ts' as [|b ts']; [discriminate|].
    destruct ts as [|a ts]; simpl; rewrite IH; auto.
  - simpl. now rewrite IH.
Qed.

Lemma layout_with_runs (p : list inline) (ts : list string) :
  Whole.layout (with_runs p ts) = Whole.layout p.
Proof.
  unfold Whole.layout. revert ts. induction p as [|[t|t] p IH]; intros ts; [reflexivity| |].
  - destruct ts as [|a ts]; cbn [with_runs List.map]; now rewrite IH.
  - cbn [with_runs List.map]. now rewrite IH.
Qed.

Lemma length_runs_layout (p q : list inline) :
  Whole.layout p = Whole.layout q -> length (runs p) = length (runs q).
Proof.
  unfold Whole.layout. revert q. induction p as [|[t|t] p IH]; intros [|[u|u] q] H;
    try discriminate; cbn [List.map] in H; cbn [runs length].
  - reflexivity.
  - injection H as H. f_equal. now apply IH.
  - injection H as _ H. now apply IH.
Qed.

(** A paragraph is its layout and what its runs read. *)
Lemma with_runs_layout (p q : list inline) :
  Whole.layout p = Whole.layout q -> q = with_runs p (runs q).
Proof.
  unfold Whole.layout. revert q. induction p as [|[t|t] p IH]; intros [|[u|u] q] H;
    try discriminate; cbn [List.map] in H; cbn [runs with_runs].
  - reflexivity.
  - injection H as H. f_equal. now apply IH.
  - injection H as -> H. f_equal. now apply IH.
Qed.

(** A token inside one run is inside the paragraph text. *)
Lemma contains_run_text (q : string) (p : list inline) (r : string) :
  In r (runs p) -> PyStr.contains q r = true -> PyStr.contains q (text p) = true.
Proof.
  induction p as [|[t|t] p IH]; intros Hin Hc; [destruct Hin| |];
    rewrite text_cons; cbn [runs inline_text] in *.
  - destruct Hin as [->|Hin]; [now apply contains_app_l | apply contains_app_r; now apply IH].
  - apply contains_app_r. now apply IH.
Qed.

Lemma xml_compatible_run (p : list inline) (r : string) :
  xml_compatible (text p) = true -> In r (runs p) -> xml_compatible r = true.
Proof.
  induction p as [|[t|t] p IH]; intros H Hin; [destruct Hin| |];
    rewrite text_cons, xml_compatible_app in H; apply andb_true_iff in H as [H1 H2];
    cbn [runs inline_text] in *.
  - destruct Hin as [<-|Hin]; [exact H1 | now apply IH].
  - now apply IH.
Qed.

Lemma stored_run (p : list inline) (r : string) :
  stored (text p) = text p -> In r (runs p) -> stored r = r.
Proof.
  induction p as [|[t|t] p IH]; intros H Hin; [destruct Hin| |];
    rewrite text_cons in H; apply stored_app_inv in H as [H1 H2];
    cbn [runs inline_text] in *.
  - destruct Hin as [<-|Hin]; [exact H1 | now apply IH].
  - now apply IH.
Qed.

Lemma plain_cons_inv (x : inline) (p : list inline) :
  Whole.plain (x :: p) -> (exists t, x = Run t) /\ Whole.plain p.
Proof.
  unfold Whole.plain. destruct x as [t|t]; cbn [runs List.map].
  - intros [= H]. split; [now exists t | exact H].
  - intros H. exfalso.
    assert (L : length (List.map Run (runs p)) = length (Hyperlink t :: p)) by now rewrite H.
    rewrite length_map in L. cbn [length] in L.
    assert (Hle : length (runs p) <= length p).
    { clear. induction p as [|[u|u] p IH]; cbn [runs length]; lia. }
    lia.
Qed.

Lemma plain_text (p : list inline) : Whole.plain p -> text p = PyStr.join (runs p).
Proof.
  induction p as [|x p IH]; intros H; [reflexivity|].
  apply plain_cons_inv in H as [[t ->] H].
  rewrite text_cons. cbn [runs inline_text]. now rewrite join_cons, IH.
Qed.

Lemma plain_with_runs (p : list inline) (ts : list string) :
  Whole.plain p -> length ts = length (runs p) -> with_runs p ts = List.map Run ts.
Proof.
  revert ts. induction p as [|x p IH]; intros ts H L.
  - destruct ts; [reflexivity | discriminate].
  - apply plain_cons_inv in H as [[t ->] H]. cbn [runs length] in L.
    destruct ts as [|u ts]; [discriminate|]. cbn [with_runs List.map].
    f_equal. apply IH; [exact H | now injection L].
Qed.

Lemma plain_map_run (ts : list string) : Whole.plain (List.map Run ts).
Proof.
  unfold Whole.plain. induction ts as [|t ts IH]; [reflexivity|].
  cbn [List.map runs]. now rewrite IH.
Qed.

Lemma runs_map_run (ts : list string) : runs (List.map Run ts) = ts.
Proof. induction ts as [|t ts IH]; [reflexivity|]. cbn [List.map runs]. now rewrite IH. Qed.

Lemma join_blank (rest : list string) : PyStr.join (List.map (fun _ => "") rest) = "".
Proof. induction rest as [|r rest IH]; [reflexivity|]. cbn [List.map]. now rewrite join_cons, IH. Qed.

(** The text of a collapsed paragraph without hyperlinks. *)
Lemma text_collapsed (p : list inline) (t r : string) (rest : list string) :
  Whole.plain p -> runs p = r :: rest ->
  text (with_runs p (t :: List.map (fun _ => "") rest)) = t.
Proof.
  intros Hp Hr. rewrite plain_with_runs.
  - rewrite plain_text by apply plain_map_run.
    rewrite runs_map_run, join_cons, join_blank. apply sapp_nil_r.
  - exact Hp.
  - rewrite Hr. cbn [length]. now rewrite length_map.
Qed.

Lemma runs_clear_runs (p : list inline) :
  runs (Subst.clear_runs p) = List.map (fun _ => "") (runs p).
Proof. unfold Subst.clear_runs. apply runs_with_runs. now rewrite length_map. Qed.

End Paragraphs.

(** ** The run-local loops *)

Section RunLocal.
Import Docx Subst.

Lemma run_pass_cons (k : string) (v : option string) (rest : field_map) (t : string) :
  run_pass ((k, v) :: rest) t = let? t' := run_step k v t in run_pass rest t'.
Proof. reflexivity. Qed.

Lemma run_pass_app (d1 d2 : field_map) (t : string) :
  run_pass (d1 ++ d2) t = let? t' := run_pass d1 t in run_pass d2 t'.
Proof.
  revert t. induction d1 as [|[k v] d1 IH]; intros t; [reflexivity|].
  rewrite <- app_comm_cons, !run_pass_cons.
  destruct (run_step k v t) as [t1|e]; cbn [obind]; [apply IH | reflexivity].
Qed.

Lemma run_pass_turn (pre post : field_map) (k : string) (v : option string) (t : string) :
  run_pass (pre ++ (k, v) :: post) t
  = let? t1 := run_pass pre t in let? t2 := run_step k v t1 in run_pass post t2.
Proof. rewrite run_pass_app. now destruct (run_pass pre t). Qed.

Lemma run_step_absent (k : string) (v : option string) (t : string) :
  PyStr.contains (placeholder k) t = false -> run_step k v t = Returns t.
Proof. intros H. unfold run_step. now rewrite H. Qed.

Lemma run_step_present (k : string) (v : option string) (t : string) :
  PyStr.contains (placeholder k) t = true ->
  run_step k v t = set_text (PyStr.replace (placeholder k) (str_value v) t).
Proof. intros H. unfold run_step. now rewrite H. Qed.

Lemma run_step_raises (k : string) (v : option string) (t : string) (e : exn) :
  run_step k v t = Raises e -> e = ValueError XML_ERROR.
Proof.
  unfold run_step. destruct (PyStr.contains _ t); [|discriminate].
  intros H. now apply set_text_raises in H.
Qed.

Lemma run_pass_raises (data : field_map) (t : string) (e : exn) :
  run_pass data t = Raises e -> e = ValueError XML_ERROR.
Proof.
  revert t. induction data as [|[k v] rest IH]; intros t; [discriminate|].
  rewrite run_pass_cons. destruct (run_step k v t) as [t1|e1] eqn:E; cbn [obind].
  - apply IH.
  - intros [= <-]. now apply run_step_raises in E.
Qed.

Lemma run_pass_absent (data : field_map) (t : string) :
  (forall k v, In (k, v) data -> PyStr.contains (placeholder k) t = false) ->
  run_pass data t = Returns t.
Proof.
  induction data as [|[k v] rest IH]; intros H; [reflexivity|].
  rewrite run_pass_cons, run_step_absent by exact (H k v (or_introl eq_refl)).
  cbn [obind]. apply IH. intros k' v' Hin. apply (H k' v'). now right.
Qed.

Lemma run_text_insert (inline : list string) (i : nat) (t : string) :
  i < length inline -> run_text (<[i := t]> inline) i = t.
Proof.
  intros Hi. unfold run_text. now rewrite list_lookup_insert_eq.
Qed.

(** The inner loop rewrites run [i] only, with the keys in order. *)
Lemma items_loop_spec (items : field_map) (i : nat) (inline : list string) :
  i < length inline ->
  items_loop items i inline
  = let? t := run_pass items (run_text inline i) in Returns (<[i := t]> inline).
Proof.
  revert inline. induction items as [|[k v] rest IH]; intros inline Hi.
  - cbn [items_loop run_pass obind]. unfold run_text.
    destruct (lookup_lt_is_Some_2 inline i Hi) as [t Ht]. rewrite Ht.
    f_equal. symmetry. now apply list_insert_id.
  - cbn [items_loop]. rewrite run_pass_cons. unfold run_step.
    destruct (PyStr.contains (placeholder k) (run_text inline i)).
    + destruct (set_text _) as [t1|e]; cbn [obind]; [|reflexivity].
      rewrite IH by now rewrite length_insert.
      rewrite run_text_insert by exact Hi.
      destruct (run_pass rest t1); cbn [obind]; [|reflexivity].
      now rewrite list_insert_insert_eq.
    + cbn [obind]. now apply IH.
Qed.

Lemma index_loop_spec (data : field_map) (post pre : list string) :
  index_loop data (seq (length pre) (length post)) (pre ++ post)
  = let? post' := for_each (run_pass data) post in Returns (pre ++ post').
Proof.
  revert pre. induction post as [|r post IH]; intros pre; [reflexivity|].
  cbn [length seq index_loop for_each].
  rewrite items_loop_spec by (rewrite length_app; simpl; lia).
  assert (Hr : run_text (pre ++ r :: post) (length pre) = r).
  { unfold run_text. now rewrite list_lookup_middle. }
  rewrite Hr. destruct (run_pass data r) as [t|e]; cbn [obind]; [|reflexivity].
  rewrite insert_app_r_alt by lia. rewrite Nat.sub_diag.
  change (<[0:=t]> (r :: post)) with (t :: post).
  specialize (IH (pre ++ [t])).
  rewrite length_app in IH. simpl in IH.
  replace (length pre + 1) with (S (length pre)) in IH by lia.
  rewrite <- !app_assoc in IH. cbn [app] in IH. rewrite IH.
  destruct (for_each (run_pass data) post); cbn [obind]; [|reflexivity].
  now rewrite <- app_assoc.
Qed.

(** Top-level paragraphs: every run is rendered from its own text. *)
Lemma body_paragraph_runs (data : field_map) (p : list inline) :
  body_paragraph data p = for_runs (run_pass data) p.
Proof.
  unfold body_paragraph, for_runs.
  pose proof (index_loop_spec data (runs p) []) as H. cbn [length app] in H.
  rewrite H. now destruct (for_each (run_pass data) (runs p)).
Qed.

Lemma runs_loop_spec (k : string) (v : option string) (rs : list string) :
  runs_loop (placeholder k) (str_value v) rs = for_each (run_step k v) rs.
Proof. induction rs as [|r rs IH]; [reflexivity|]. cbn [runs_loop for_each]. now rewrite IH. Qed.

Lemma for_runs_absent (k : string) (v : option string) (p : list inline) :
  PyStr.contains (placeholder k) (text p) = false ->
  for_runs (run_step k v) p = Returns p.
Proof.
  intros H. unfold for_runs. rewrite for_each_id.
  - cbn [obind]. now rewrite with_runs_runs.
  - intros r Hr. apply run_step_absent.
    destruct (PyStr.contains (placeholder k) r) eqn:E; [|reflexivity].
    rewrite (contains_run_text _ _ _ Hr E) in H. discriminate.
Qed.

(** One pass after another over the runs of a paragraph. *)
Lemma for_runs_fuse (f g : string -> outcome string) (p : list inline) :
  (forall a e, f a = Raises e -> e = ValueError XML_ERROR) ->
  (forall a e, g a = Raises e -> e = ValueError XML_ERROR) ->
  (let? p1 := for_runs f p in for_runs g p1)
  = for_runs (fun a => let? b := f a in g b) p.
Proof.
  intros Hf Hg. unfold for_runs.
  rewrite <- (for_each_fuse (ValueError XML_ERROR) f g) by assumption.
  destruct (for_each f (runs p)) as [ts|e] eqn:E; cbn [obind]; [|reflexivity].
  rewrite runs_with_runs by now apply for_each_length in E.
  destruct (for_each g ts) as [ts'|e'] eqn:E'; cbn [obind]; [|reflexivity].
  rewrite with_runs_twice; [reflexivity|].
  apply for_each_length in E, E'. congruence.
Qed.

(** Paragraphs of table cells: the guard on the paragraph text changes
    nothing, every run is rendered from its own text. *)
Lemma cell_paragraph_runs (data : field_map) (p : list inline) :
  cell_paragraph data p = for_runs (run_pass data) p.
Proof.
  revert p. induction data as [|[k v] rest IH]; intros p.
  - unfold for_runs. cbn [cell_paragraph run_pass].
    rewrite for_each_id by reflexivity. cbn [obind]. now rewrite with_runs_runs.
  - cbn [cell_paragraph].
    assert (E : (if PyStr.contains (placeholder k) (text p)
                 then let? ts := runs_loop (placeholder k) (str_value v) (runs p) in
                      Returns (with_runs p ts)
                 else Returns p)
                = for_runs (run_step k v) p).
    { destruct (PyStr.contains (placeholder k) (text p)) eqn:Hc.
      - unfold for_runs. now rewrite runs_loop_spec.
      - symmetry. now apply for_runs_absent. }
    rewrite E.
    transitivity (let? p1 := for_runs (run_step k v) p in for_runs (run_pass rest) p1).
    { destruct (for_runs (run_step k v) p); cbn [obind]; [apply IH | reflexivity]. }
    rewrite for_runs_fuse.
    + reflexivity.
    + intros a e. apply run_step_raises.
    + intros a e. apply run_pass_raises.
Qed.

Lemma for_runs_returns (f : string -> outcome string) (p p' : list inline) :
  for_runs f p = Returns p' ->
  Forall2 (fun r r' => f r = Returns r') (runs p) (runs p') /\
  Whole.layout p' = Whole.layout p.
Proof.
  unfold for_runs. destruct (for_each f (runs p)) as [ts|e] eqn:E; [|discriminate].
  cbn [obind]. intros [= <-].
  rewrite runs_with_runs by now apply for_each_length in E.
  split; [now apply for_each_Forall2 | apply layout_with_runs].
Qed.

Lemma for_runs_raises (f : string -> outcome string) (p : list inline) (e : exn) :
  for_runs f p = Raises e -> exists r, In r (runs p) /\ f r = Raises e.
Proof.
  unfold for_runs. destruct (for_each f (runs p)) as [ts|e'] eqn:E; [discriminate|].
  cbn [obind]. intros [= <-]. now apply for_each_raises.
Qed.

Lemma for_runs_id (f : string -> outcome string) (p : list inline) :
  (forall r, In r (runs p) -> f r = Returns r) -> for_runs f p = Returns p.
Proof.
  intros H. unfold for_runs. rewrite for_each_id by exact H.
  cbn [obind]. now rewrite with_runs_runs.
Qed.

Lemma for_runs_ext (f g : string -> outcome string) (p : list inline) :
  (forall r, In r (runs p) -> f r = g r) -> for_runs f p = for_runs g p.
Proof. intros H. unfold for_runs. now rewrite (for_each_ext f g). Qed.

End RunLocal.

(** ** The paragraph-level loop *)

Section ParagraphLevel.
Import Docx Subst.

Lemma replace_guard (key value t : string) :
  (if PyStr.contains key t then PyStr.replace key value t else t)
  = PyStr.replace key value t.
Proof.
  destruct (PyStr.contains key t) eqn:E; [reflexivity|].
  symmetry. now apply replace_absent.
Qed.

Lemma replace_keys_cons (key value : string) (rest : replacements) (t : string) :
  replace_keys ((key, value) :: rest) t = replace_keys rest (PyStr.replace key value t).
Proof. cbn [replace_keys]. now rewrite replace_guard. Qed.

Lemma replace_keys_app (i1 i2 : replacements) (t : string) :
  replace_keys (i1 ++ i2) t = replace_keys i2 (replace_keys i1 t).
Proof.
  revert t. induction i1 as [|[k v] i1 IH]; intros t; [reflexivity|].
  rewrite <- app_comm_cons, !replace_keys_cons. apply IH.
Qed.


(** Non-empty keys cannot change the empty text. *)
Lemma replace_keys_empty_text (items : replacements) :
  (forall kv, In kv items -> fst kv <> "") -> replace_keys items "" = "".
Proof.
  induction items as [|[k v] rest IH]; intros H; [reflexivity|].
  cbn [replace_keys]. rewrite contains_empty_text by exact (H (k, v) (or_introl eq_refl)).
  apply IH. intros kv Hin. apply H. now right.
Qed.

Lemma replace_keys_absent (items : replacements) (t : string) :
  (forall k v, In (k, v) items -> PyStr.contains k t = false) ->
  replace_keys items t = t.
Proof.
  induction items as [|[k v] rest IH]; intros H; [reflexivity|].
  rewrite replace_keys_cons, replace_absent by exact (H k v (or_introl eq_refl)).
  apply IH. intros k' v' Hin. apply (H k' v'). now right.
Qed.

Lemma replace_keys_skip_key (pre post : replacements) (k v t : string) :
  PyStr.contains k (replace_keys pre t) = false ->
  replace_keys (pre ++ (k, v) :: post) t = replace_keys (pre ++ post) t.
Proof.
  intros H. rewrite !replace_keys_app, replace_keys_cons. now rewrite replace_absent.
Qed.

Lemma xml_compatible_replace_keys (items : replacements) (t : string) :
  (forall kv, In kv items -> xml_compatible (snd kv) = true) ->
  xml_compatible t = true -> xml_compatible (replace_keys items t) = true.
Proof.
  revert t. induction items as [|[k v] rest IH]; intros t H Ht; [exact Ht|].
  rewrite replace_keys_cons. apply IH.
  - intros kv Hin. apply H. now right.
  - apply xml_compatible_replace; [exact (H (k, v) (or_introl eq_refl)) | exact Ht].
Qed.

Lemma replace_paragraph_unchanged (items : replacements) (para : list inline) :
  replace_keys items (text para) = text para ->
  replace_paragraph items para = Returns para.
Proof.
  intros H. unfold replace_paragraph. rewrite H, String.eqb_refl. reflexivity.
Qed.

(** The collapse: every run emptied, then the first one assigned. *)
Lemma replace_paragraph_changed (items : replacements) (para : list inline)
      (r : string) (rest : list string) :
  replace_keys items (text para) <> text para ->
  runs para = r :: rest ->
  replace_paragraph items para
  = let? t := set_text (replace_keys items (text para)) in
    Returns (with_runs para (t :: List.map (fun _ => "") rest)).
Proof.
  intros H Hr. unfold replace_paragraph.
  apply String.eqb_neq in H. rewrite H. cbn [negb].
  unfold set_first_run. rewrite runs_clear_runs, Hr. cbn [List.map].
  destruct (set_text _) as [t|e]; cbn [obind]; [|reflexivity].
  unfold clear_runs. rewrite with_runs_twice; [reflexivity|].
  rewrite Hr. cbn [length]. now rewrite length_map.
Qed.

Lemma replace_paragraph_no_first_run (items : replacements) (para : list inline) :
  replace_keys items (text para) <> text para ->
  runs para = [] ->
  replace_paragraph items para = Raises (IndexError "list index out of range").
Proof.
  intros H Hr. unfold replace_paragraph.
  apply String.eqb_neq in H. rewrite H. cbn [negb].
  unfold set_first_run. now rewrite runs_clear_runs, Hr.
Qed.

(** What a returned paragraph is. *)
Lemma replace_paragraph_returned (items : replacements) (para para' : list inline) :
  replace_paragraph items para = Returns para' ->
  (replace_keys items (text para) = text para /\ para' = para) \/
  (replace_keys items (text para) <> text para /\
   xml_compatible (replace_keys items (text para)) = true /\
   exists r rest,
     runs para = r :: rest /\
     para' = with_runs para (stored (replace_keys items (text para))
                             :: List.map (fun _ => "") rest)).
Proof.
  intros H.
  destruct (String.eqb_spec (replace_keys items (text para)) (text para)) as [E|E].
  - left. rewrite (replace_paragraph_unchanged _ _ E) in H. injection H as <-. now split.
  - right. split; [exact E|]. destruct (runs para) as [|r rest] eqn:Hr.
    + rewrite (replace_paragraph_no_first_run _ _ E Hr) in H. discriminate.
    + rewrite (replace_paragraph_changed _ _ r rest E Hr) in H.
      destruct (set_text _) as [t|e] eqn:Hs; [|discriminate].
      apply set_text_returns in Hs as [Hc ->]. cbn [obind] in H. injection H as <-.
      split; [exact Hc|]. now exists r, rest.
Qed.

(** What a raised exception is. *)
Lemma replace_paragraph_raised (items : replacements) (para : list inline) (e : exn) :
  replace_paragraph items para = Raises e ->
  replace_keys items (text para) <> text para /\
  ((runs para = [] /\ e = IndexError "list index out of range") \/
   (runs para <> [] /\ xml_compatible (replace_keys items (text para)) = false /\
    e = ValueError XML_ERROR)).
Proof.
  intros H.
  destruct (String.eqb_spec (replace_keys items (text para)) (text para)) as [E|E].
  - rewrite (replace_paragraph_unchanged _ _ E) in H. discriminate.
  - split; [exact E|]. destruct (runs para) as [|r rest] eqn:Hr.
    + left. rewrite (replace_paragraph_no_first_run _ _ E Hr) in H.
      injection H as <-. now split.
    + right. rewrite (replace_paragraph_changed _ _ r rest E Hr) in H.
      destruct (set_text _) as [t|e'] eqn:Hs; [discriminate|].
      apply set_text_raises in Hs as [Hc ->]. cbn [obind] in H. injection H as <-.
      split; [discriminate | now split].
Qed.

Lemma replace_paragraph_layout (items : replacements) (para para' : list inline) :
  replace_paragraph items para = Returns para' ->
  Whole.layout para' = Whole.layout para.
Proof.
  intros H. apply replace_paragraph_returned in H as [[_ ->]|(_ & _ & r & rest & _ & ->)];
    [reflexivity | apply layout_with_runs].
Qed.

End ParagraphLevel.

(** ** Tables and documents *)

Section Documents.
Import Docx.
Variable f : list inline -> outcome (list inline).

Lemma In_insert {A} (l : list A) (i : nat) (x y : A) :
  In x (<[i := y]> l) -> x = y \/ In x l.
Proof.
  revert i. induction l as [|a l IH]; intros i H; [destruct H|].
  destruct i as [|i]; simpl in H.
  - destruct H as [<-|H]; [now left | right; now right].
  - destruct H as [<-|H]; [right; now left|].
    destruct (IH i H) as [->|Hin]; [now left | right; now right].
Qed.

Lemma lookup_In {A} (l : list A) (i : nat) (x : A) : l !! i = Some x -> In x l.
Proof. intros H. apply list_elem_of_In. eapply list_elem_of_lookup_2. exact H. Qed.

Variable Q : list inline -> Prop.
Hypothesis f_keeps : forall p p', Q p -> f p = Returns p' -> Q p'.

Lemma for_each_keeps (c c' : list (list inline)) :
  (forall p, In p c -> Q p) -> for_each f c = Returns c' -> forall p', In p' c' -> Q p'.
Proof.
  intros Hc H. apply (for_each_invariant Q f c c'); [|exact H].
  intros a a' Ha. apply f_keeps. now apply Hc.
Qed.

Lemma for_cells_keeps (refs : list nat) (store store' : list (list (list inline))) :
  Whole.all_cells Q store -> for_cells f refs store = Returns store' -> Whole.all_cells Q store'.
Proof.
  revert store. induction refs as [|i refs IH]; intros store Hs H.
  - injection H as <-. exact Hs.
  - cbn [for_cells] in H. destruct (store !! i) as [c|] eqn:Hi; [|now apply (IH store)].
    destruct (for_each f c) as [c'|e] eqn:Hc; [|discriminate]. cbn [obind] in H.
    apply (IH (<[i := c']> store)); [|exact H].
    intros d p Hd Hp. apply In_insert in Hd as [->|Hd].
    + apply (for_each_keeps c c'); auto. intros q Hq. apply (Hs c q); auto.
      now apply (lookup_In store i).
    + now apply (Hs d p).
Qed.

Lemma for_rows_keeps (rws : list (list nat)) (store store' : list (list (list inline))) :
  Whole.all_cells Q store -> for_rows f rws store = Returns store' -> Whole.all_cells Q store'.
Proof.
  revert store. induction rws as [|r rws IH]; intros store Hs H.
  - injection H as <-. exact Hs.
  - cbn [for_rows] in H. destruct (for_cells f r store) as [s1|e] eqn:E; [|discriminate].
    cbn [obind] in H. apply (IH s1); [|exact H]. now apply (for_cells_keeps r store).
Qed.

Lemma for_cells_raises (refs : list nat) (store : list (list (list inline))) (e : exn) :
  Whole.all_cells Q store -> for_cells f refs store = Raises e ->
  exists p, Q p /\ f p = Raises e.
Proof.
  revert store. induction refs as [|i refs IH]; intros store Hs H; [discriminate|].
  cbn [for_cells] in H. destruct (store !! i) as [c|] eqn:Hi; [|now apply (IH store)].
  destruct (for_each f c) as [c'|e'] eqn:Hc; cbn [obind] in H.
  - apply (IH (<[i := c']> store)); [|exact H].
    intros d p Hd Hp. apply In_insert in Hd as [->|Hd].
    + apply (for_each_keeps c c'); auto. intros q Hq. apply (Hs c q); auto.
      now apply (lookup_In store i).
    + now apply (Hs d p).
  - injection H as <-. apply for_each_raises in Hc as (p & Hp & Hf).
    exists p. split; [|exact Hf]. apply (Hs c p); auto. now apply (lookup_In store i).
Qed.

Lemma for_rows_raises (rws : list (list nat)) (store : list (list (list inline))) (e : exn) :
  Whole.all_cells Q store -> for_rows f rws store = Raises e ->
  exists p, Q p /\ f p = Raises e.
Proof.
  revert store. induction rws as [|r rws IH]; intros store Hs H; [discriminate|].
  cbn [for_rows] in H. destruct (for_cells f r store) as [s1|e'] eqn:E; cbn [obind] in H.
  - apply (IH s1); [|exact H]. now apply (for_cells_keeps r store).
  - injection H as <-. now apply (for_cells_raises r store).
Qed.

Lemma for_rows_returns (rws : list (list nat)) (store : list (list (list inline))) :
  (forall p, Q p -> exists p', f p = Returns p') ->
  Whole.all_cells Q store -> exists store', for_rows f rws store = Returns store'.
Proof.
  intros Hret Hs.
  destruct (for_rows f rws store) as [s|e] eqn:E; [now exists s|].
  apply for_rows_raises in E as (p & Hp & Hf); [|exact Hs].
  destruct (Hret p Hp) as [p' Hp']. congruence.
Qed.

Lemma in_all_paragraphs_top (doc : document) (p : list inline) :
  In p (paragraphs doc) -> In p (Whole.all_paragraphs doc).
Proof. intros H. apply in_or_app. now left. Qed.

Lemma in_all_paragraphs_cell (doc : document) (t : table) (c : list (list inline))
      (p : list inline) :
  In t (tables doc) -> In c (cells t) -> In p c -> In p (Whole.all_paragraphs doc).
Proof.
  intros Ht Hc Hp. apply in_or_app. right.
  apply in_concat. exists c. split; [|exact Hp].
  apply in_concat. exists (cells t). split; [|exact Hc]. now apply in_map.
Qed.

Lemma in_all_paragraphs_inv (doc : document) (p : list inline) :
  In p (Whole.all_paragraphs doc) ->
  In p (paragraphs doc) \/
  exists t c, In t (tables doc) /\ In c (cells t) /\ In p c.
Proof.
  intros H. apply in_app_or in H as [H|H]; [now left|]. right.
  apply in_concat in H as (c & Hc & Hp). apply in_concat in Hc as (cs & Hcs & Hc).
  apply in_map_iff in Hcs as (t & <- & Ht). now exists t, c.
Qed.

Lemma for_table_raises (t : table) (e : exn) :
  Whole.all_cells Q (cells t) -> for_table f t = Raises e -> exists p, Q p /\ f p = Raises e.
Proof.
  intros Hs. unfold for_table.
  destruct (for_rows f (rows t) (cells t)) as [s|e'] eqn:E; [discriminate|].
  cbn [obind]. intros [= <-]. now apply (for_rows_raises (rows t) (cells t)).
Qed.

Lemma for_table_keeps (t t' : table) :
  Whole.all_cells Q (cells t) -> for_table f t = Returns t' -> Whole.all_cells Q (cells t').
Proof.
  intros Hs. unfold for_table.
  destruct (for_rows f (rows t) (cells t)) as [s|e'] eqn:E; [|discriminate].
  cbn [obind]. intros [= <-]. cbn [cells]. now apply (for_rows_keeps (rows t) (cells t)).
Qed.

(** What raises in the loops over a document raises on one of its
    paragraphs, or on what the loops made of them. *)
Lemma every_paragraph_raises (doc : document) (e : exn) :
  (forall p, In p (Whole.all_paragraphs doc) -> Q p) ->
  Whole.every_paragraph f doc = Raises e ->
  exists p, Q p /\ f p = Raises e.
Proof.
  intros Hq. unfold Whole.every_paragraph.
  destruct (for_each f (paragraphs doc)) as [ps|e1] eqn:Ep; cbn [obind].
  - destruct (for_each (for_table f) (tables doc)) as [ts|e2] eqn:Et; cbn [obind];
      [discriminate|].
    intros [= <-]. apply for_each_raises in Et as (t & Ht & Hf).
    apply (for_table_raises t); [|exact Hf].
    intros c p Hc Hp. apply Hq. now apply (in_all_paragraphs_cell doc t c).
  - intros [= <-]. apply for_each_raises in Ep as (p & Hp & Hf).
    exists p. split; [|exact Hf]. apply Hq. now apply in_all_paragraphs_top.
Qed.

Lemma every_paragraph_returns (doc : document) :
  (forall p, Q p -> exists p', f p = Returns p') ->
  (forall p, In p (Whole.all_paragraphs doc) -> Q p) ->
  exists doc', Whole.every_paragraph f doc = Returns doc'.
Proof.
  intros Hret Hq.
  destruct (Whole.every_paragraph f doc) as [d|e] eqn:E; [now exists d|].
  apply every_paragraph_raises in E as (p & Hp & Hf); [|exact Hq].
  destruct (Hret p Hp) as [p' Hp']. congruence.
Qed.

Lemma every_paragraph_keeps (doc doc' : document) :
  (forall p, In p (Whole.all_paragraphs doc) -> Q p) ->
  Whole.every_paragraph f doc = Returns doc' ->
  forall p, In p (Whole.all_paragraphs doc') -> Q p.
Proof.
  intros Hq. unfold Whole.every_paragraph.
  destruct (for_each f (paragraphs doc)) as [ps|e1] eqn:Ep; cbn [obind]; [|discriminate].
  destruct (for_each (for_table f) (tables doc)) as [ts|e2] eqn:Et; cbn [obind];
    [|discriminate].
  intros [= <-] p Hp. apply in_all_paragraphs_inv in Hp as [Hp|(t' & c & Ht & Hc & Hp)];
    cbn [paragraphs tables] in *.
  - apply (for_each_keeps (paragraphs doc) ps); auto.
    intros q Hq'. apply Hq. now apply in_all_paragraphs_top.
  - destruct (for_each_In_inv _ _ _ _ Et Ht) as (t & Hin & Hf).
    apply (for_table_keeps t t') in Hf.
    + now apply (Hf c p).
    + intros c0 p0 Hc0 Hp0. apply Hq. now apply (in_all_paragraphs_cell doc t c0).
Qed.

End Documents.

Section DocumentLoops.
Import Docx Subst.

Lemma for_cells_ext (f g : list inline -> outcome (list inline)) (refs : list nat)
      (store : list (list (list inline))) :
  (forall p, f p = g p) -> for_cells f refs store = for_cells g refs store.
Proof.
  intros H. revert store. induction refs as [|i refs IH]; intros store; [reflexivity|].
  cbn [for_cells]. destruct (store !! i) as [c|]; [|apply IH].
  rewrite (for_each_ext f g c) by (intros; apply H).
  destruct (for_each g c) as [c'|e]; cbn [obind]; [apply IH | reflexivity].
Qed.

Lemma for_rows_ext (f g : list inline -> outcome (list inline)) (rws : list (list nat))
      (store : list (list (list inline))) :
  (forall p, f p = g p) -> for_rows f rws store = for_rows g rws store.
Proof.
  intros H. revert store. induction rws as [|r rws IH]; intros store; [reflexivity|].
  cbn [for_rows]. rewrite (for_cells_ext f g r store H).
  destruct (for_cells g r store) as [s|e]; cbn [obind]; [apply IH | reflexivity].
Qed.

Lemma for_table_ext (f g : list inline -> outcome (list inline)) (t : table) :
  (forall p, f p = g p) -> for_table f t = for_table g t.
Proof. intros H. unfold for_table. now rewrite (for_rows_ext f g _ _ H). Qed.

(** Both loops of [generate_document] apply the per-run pass to every run. *)
Lemma substitute_every (data : field_map) (doc : document) :
  substitute data doc = Whole.every_paragraph (for_runs (run_pass data)) doc.
Proof.
  unfold substitute, Whole.every_paragraph.
  rewrite (for_each_ext (body_paragraph data) (for_runs (run_pass data)))
    by (intros; apply body_paragraph_runs).
  rewrite (for_each_ext (for_table (cell_paragraph data))
                        (for_table (for_runs (run_pass data))))
    by (intros; apply for_table_ext; intros; apply cell_paragraph_runs).
  reflexivity.
Qed.

Lemma replace_placeholders_every (items : replacements) (doc : document) :
  replace_placeholders doc items = Whole.every_paragraph (replace_paragraph items) doc.
Proof. reflexivity. Qed.

Lemma map_insert_same {A B} (g : A -> B) (l : list A) (i : nat) (x y : A) :
  l !! i = Some x -> g y = g x -> List.map g (<[i := y]> l) = List.map g l.
Proof.
  revert i. induction l as [|a l IH]; intros i Hi Hg; [discriminate|].
  destruct i as [|i]; simpl in *.
  - injection Hi as ->. now rewrite Hg.
  - now rewrite (IH i Hi Hg).
Qed.

Lemma insert_same {A} (l : list A) (i : nat) (x : A) :
  l !! i = Some x -> <[i := x]> l = l.
Proof.
  revert i. induction l as [|a l IH]; intros i Hi; [discriminate|].
  destruct i as [|i]; simpl in *.
  - now injection Hi as ->.
  - now rewrite (IH i Hi).
Qed.

Variable f : list inline -> outcome (list inline).

(** *** A body under which every paragraph stays as it is *)

Lemma for_cells_id (refs : list nat) (store : list (list (list inline))) :
  Whole.all_cells (fun p => f p = Returns p) store -> for_cells f refs store = Returns store.
Proof.
  intros H. induction refs as [|i refs IH]; [reflexivity|].
  cbn [for_cells]. destruct (store !! i) as [c|] eqn:Hi; [|exact IH].
  rewrite for_each_id.
  - cbn [obind]. now rewrite (insert_same store i c Hi).
  - intros p Hp. apply (H c p); [|exact Hp]. now apply (lookup_In store i).
Qed.

Lemma for_rows_id (rws : list (list nat)) (store : list (list (list inline))) :
  Whole.all_cells (fun p => f p = Returns p) store -> for_rows f rws store = Returns store.
Proof.
  intros H. induction rws as [|r rws IH]; [reflexivity|].
  cbn [for_rows]. rewrite (for_cells_id r store H). exact IH.
Qed.

Lemma every_paragraph_id (doc : document) :
  (forall p, In p (Whole.all_paragraphs doc) -> f p = Returns p) ->
  Whole.every_paragraph f doc = Returns doc.
Proof.
  intros H. unfold Whole.every_paragraph.
  rewrite for_each_id by (intros p Hp; apply H; now apply in_all_paragraphs_top).
  cbn [obind]. rewrite for_each_id.
  - now destruct doc.
  - intros t Ht. unfold for_table. rewrite for_rows_id.
    + now destruct t.
    + intros c p Hc Hp. apply H. now apply (in_all_paragraphs_cell doc t c).
Qed.

(** *** A body that keeps the layout of a paragraph *)

Hypothesis f_layout : forall p p', f p = Returns p' -> Whole.layout p' = Whole.layout p.

Lemma for_each_layout (c c' : list (list inline)) :
  for_each f c = Returns c' -> List.map Whole.layout c' = List.map Whole.layout c.
Proof.
  intros H. apply for_each_Forall2 in H.
  induction H as [|p p' l l' Hp _ IH]; [reflexivity|].
  cbn [List.map]. now rewrite (f_layout p p' Hp), IH.
Qed.

Lemma for_cells_layout (refs : list nat) (store store' : list (list (list inline))) :
  for_cells f refs store = Returns store' ->
  List.map (List.map Whole.layout) store' = List.map (List.map Whole.layout) store.
Proof.
  revert store. induction refs as [|i refs IH]; intros store H.
  - now injection H as <-.
  - cbn [for_cells] in H. destruct (store !! i) as [c|] eqn:Hi; [|now apply IH].
    destruct (for_each f c) as [c'|e] eqn:Hc; [|discriminate]. cbn [obind] in H.
    rewrite (IH _ H). apply (map_insert_same _ store i c c' Hi).
    now apply for_each_layout.
Qed.

Lemma for_rows_layout (rws : list (list nat)) (store store' : list (list (list inline))) :
  for_rows f rws store = Returns store' ->
  List.map (List.map Whole.layout) store' = List.map (List.map Whole.layout) store.
Proof.
  revert store. induction rws as [|r rws IH]; intros store H.
  - now injection H as <-.
  - cbn [for_rows] in H. destruct (for_cells f r store) as [s1|e] eqn:E; [|discriminate].
    cbn [obind] in H. rewrite (IH _ H). now apply (for_cells_layout r).
Qed.

Lemma every_paragraph_shape (doc doc' : document) :
  Whole.every_paragraph f doc = Returns doc' -> Whole.shape doc' = Whole.shape doc.
Proof.
  unfold Whole.every_paragraph.
  destruct (for_each f (paragraphs doc)) as [ps|e1] eqn:Ep; cbn [obind]; [|discriminate].
  destruct (for_each (for_table f) (tables doc)) as [ts|e2] eqn:Et; cbn [obind];
    [|discriminate].
  intros [= <-]. unfold Whole.shape. cbn [paragraphs tables]. f_equal.
  - now apply for_each_layout.
  - apply for_each_Forall2 in Et.
    induction Et as [|t t' l l' Ht _ IH]; [reflexivity|].
    cbn [List.map]. rewrite IH. f_equal. unfold for_table in Ht.
    destruct (for_rows f (rows t) (cells t)) as [s|e] eqn:E; [|discriminate].
    cbn [obind] in Ht. injection Ht as <-. cbn [cells rows].
    now rewrite (for_rows_layout _ _ _ E).
Qed.

End DocumentLoops.

Section DocumentResults.
Import Docx Subst.

(** The paragraphs of the result, one by one; the tables, one by one. *)
Lemma every_paragraph_Forall2 (f : list inline -> outcome (list inline))
      (doc doc' : document) :
  Whole.every_paragraph f doc = Returns doc' ->
  Forall2 (fun p p' => f p = Returns p') (paragraphs doc) (paragraphs doc') /\
  Forall2 (fun t t' => for_table f t = Returns t') (tables doc) (tables doc').
Proof.
  unfold Whole.every_paragraph.
  destruct (for_each f (paragraphs doc)) as [ps|e1] eqn:Ep; cbn [obind]; [|discriminate].
  destruct (for_each (for_table f) (tables doc)) as [ts|e2] eqn:Et; cbn [obind];
    [|discriminate].
  intros [= <-]. cbn [paragraphs tables]. split; now apply for_each_Forall2.
Qed.

Lemma for_runs_layout (g : string -> outcome string) (p p' : list inline) :
  for_runs g p = Returns p' -> Whole.layout p' = Whole.layout p.
Proof.
  unfold for_runs. destruct (for_each g (runs p)) as [ts|e]; [|discriminate].
  cbn [obind]. intros [= <-]. apply layout_with_runs.
Qed.

End DocumentResults.

(** ** Tokens with brace-free names *)

Section TokenFacts.
Import Subst Tokens.

Lemma placeholder_unfold (k : string) :
  placeholder k = String "{" (String "{" (k +:+ "}}")).
Proof. reflexivity. Qed.

Lemma placeholder_nonempty (k : string) : placeholder k <> "".
Proof. rewrite placeholder_unfold. discriminate. Qed.

Lemma not_brace_inv (c : ascii) :
  is_brace c = false -> c <> "{"%char /\ c <> "}"%char.
Proof.
  unfold is_brace. intros H. apply orb_false_iff in H as [H1 H2].
  split; intros ->; discriminate.
Qed.

Lemma brace_free_cons (c : ascii) (s : string) :
  brace_free (String c s) = true -> (c <> "{"%char /\ c <> "}"%char) /\ brace_free s = true.
Proof.
  simpl. intros H. apply andb_true_iff in H as [H1 H2].
  split; [|exact H2]. apply not_brace_inv. now apply negb_true_iff.
Qed.

Lemma prefix_cons_true (a b : ascii) (p s : string) :
  String.prefix (String a p) (String b s) = true -> a = b /\ String.prefix p s = true.
Proof.
  rewrite prefix_cons. intros H. apply andb_true_iff in H as [H1 H2].
  split; [now apply bool_decide_eq_true in H1 | exact H2].
Qed.

Lemma prefix_cons_ne (a b : ascii) (p s : string) :
  a <> b -> String.prefix (String a p) (String b s) = false.
Proof. intros H. rewrite prefix_cons, bool_decide_eq_false_2 by exact H. reflexivity. Qed.

(** Two brace-free names followed by the closing braces: one is a prefix of
    the other only when they are equal. *)
Lemma name_prefix (J K b : string) :
  brace_free J = true -> brace_free K = true ->
  String.prefix (J +:+ "}}") (K +:+ "}}" +:+ b) = true -> J = K.
Proof.
  revert K. induction J as [|j J IH]; intros K HJ HK H.
  - destruct K as [|k K]; [reflexivity|].
    apply brace_free_cons in HK as [[_ Hk] _].
    rewrite sapp_nil_l, sapp_cons in H. apply prefix_cons_true in H as [E _]. congruence.
  - apply brace_free_cons in HJ as [[_ Hj] HJ].
    destruct K as [|k K].
    + rewrite sapp_nil_l, sapp_cons in H. apply prefix_cons_true in H as [E _]. congruence.
    + apply brace_free_cons in HK as [_ HK].
      rewrite !sapp_cons in H. apply prefix_cons_true in H as [-> H].
      f_equal. now apply IH.
Qed.

Lemma no_open_brace (K x y : string) :
  brace_free K = true -> K +:+ "}}" = x +:+ String "{" y -> False.
Proof.
  revert x. induction K as [|k K IH]; intros x HK E.
  - rewrite sapp_nil_l in E.
    destruct x as [|c1 [|c2 [|c3 x]]]; discriminate.
  - apply brace_free_cons in HK as [[Hk _] HK].
    destruct x as [|c x].
    + rewrite sapp_nil_l, sapp_cons in E. congruence.
    + rewrite !sapp_cons in E. injection E as _ E. now apply (IH x).
Qed.

Lemma name_then_open (J a rest : string) :
  brace_free J = true ->
  String.prefix (J +:+ "}}") (a +:+ String "{" rest) = true ->
  exists a', a = J +:+ "}}" +:+ a'.
Proof.
  revert a. induction J as [|j J IH]; intros a HJ H.
  - rewrite sapp_nil_l in H.
    destruct a as [|c1 [|c2 a]].
    + rewrite sapp_nil_l in H. apply prefix_cons_true in H as [E _]. discriminate.
    + rewrite sapp_cons, sapp_nil_l in H.
      apply prefix_cons_true in H as [_ H]. apply prefix_cons_true in H as [E _].
      discriminate.
    + rewrite !sapp_cons in H.
      apply prefix_cons_true in H as [<- H]. apply prefix_cons_true in H as [<- _].
      now exists a.
  - apply brace_free_cons in HJ as [[Hj _] HJ].
    destruct a as [|c a].
    + rewrite sapp_nil_l, sapp_cons in H. apply prefix_cons_true in H as [E _]. congruence.
    + rewrite !sapp_cons in H. apply prefix_cons_true in H as [<- H].
      destruct (IH a HJ H) as [a' ->]. exists a'. now rewrite !sapp_cons.
Qed.

End TokenFacts.

Section Clear.
Import Subst Tokens.

(** Tokens of two different brace-free names never touch. *)
Lemma tokens_clear (J K : string) :
  brace_free J = true -> brace_free K = true -> J <> K ->
  clear_of (placeholder J) (placeholder K).
Proof.
  intros HJ HK Hne.
  assert (N2 : forall x y b, placeholder K = x +:+ y -> y <> "" ->
                             String.prefix (placeholder J) (y +:+ b) = false).
  { intros x y b E Hy.
    destruct (String.prefix (placeholder J) (y +:+ b)) eqn:P; [exfalso | reflexivity].
    rewrite placeholder_unfold in E, P.
    destruct x as [|c1 [|c2 x]].
    - rewrite sapp_nil_l in E. subst y. rewrite !sapp_cons in P.
      apply prefix_cons_true in P as [_ P]. apply prefix_cons_true in P as [_ P].
      rewrite sapp_assoc in P. apply Hne. now apply (name_prefix J K b).
    - rewrite sapp_cons, sapp_nil_l in E. injection E as _ <-.
      rewrite sapp_cons in P. apply prefix_cons_true in P as [_ P].
      destruct K as [|k K].
      + rewrite sapp_nil_l in P. apply prefix_cons_true in P as [E _]. discriminate.
      + apply brace_free_cons in HK as [[Hk _] _].
        rewrite !sapp_cons in P. apply prefix_cons_true in P as [E _]. congruence.
    - rewrite !sapp_cons in E. injection E as _ _ E.
      destruct y as [|c y]; [congruence|].
      rewrite sapp_cons in P. apply prefix_cons_true in P as [<- _].
      now apply (no_open_brace K x y). }
  split; [|exact N2].
  intros a b P. destruct a as [|c1 [|c2 a]].
  - rewrite sapp_nil_l in P.
    rewrite (N2 "" (placeholder K) b eq_refl (placeholder_nonempty K)) in P. discriminate.
  - exfalso. rewrite !placeholder_unfold, !sapp_cons, sapp_nil_l in P.
    apply prefix_cons_true in P as [_ P]. apply prefix_cons_true in P as [_ P].
    destruct J as [|j J].
    + rewrite sapp_nil_l in P. apply prefix_cons_true in P as [E _]. discriminate.
    + apply brace_free_cons in HJ as [[Hj _] _].
      rewrite sapp_cons in P. apply prefix_cons_true in P as [E _]. congruence.
  - rewrite (placeholder_unfold J), !sapp_cons in P.
    apply prefix_cons_true in P as [<- P]. apply prefix_cons_true in P as [<- P].
    rewrite (placeholder_unfold K), sapp_cons in P.
    destruct (name_then_open J a _ HJ P) as [a' ->].
    exists a'. rewrite placeholder_unfold, !sapp_cons. now rewrite sapp_assoc.
Qed.

(** The scan crosses a stretch in which no match starts. *)
Lemma replace_across (p v q b : string) :
  (forall x y, q = x +:+ y -> y <> "" -> String.prefix p (y +:+ b) = false) ->
  PyStr.replace p v (q +:+ b) = q +:+ PyStr.replace p v b.
Proof.
  induction q as [|c q IH]; intros H; [reflexivity|].
  rewrite sapp_cons, replace_miss.
  - rewrite sapp_cons. f_equal. apply IH. intros x y -> Hy.
    now apply (H (String c x) y).
  - rewrite <- sapp_cons. now apply (H "" (String c q)).
Qed.

Lemma contains_across (p q b : string) :
  (forall x y, q = x +:+ y -> y <> "" -> String.prefix p (y +:+ b) = false) ->
  PyStr.contains p (q +:+ b) = PyStr.contains p b.
Proof.
  induction q as [|c q IH]; intros H; [reflexivity|].
  rewrite sapp_cons, contains_cons, <- sapp_cons.
  rewrite (H "" (String c q)) by (reflexivity || discriminate).
  rewrite orb_false_l. apply IH. intros x y -> Hy. now apply (H (String c x) y).
Qed.

Lemma replace_keeps_occurrence_aux (p v q b : string) (n : nat) :
  p <> "" -> clear_of p q ->
  forall a, String.length a <= n ->
            PyStr.contains q (PyStr.replace p v (a +:+ q +:+ b)) = true.
Proof.
  intros Hp [N1 N2]. induction n as [|n IH]; intros a Hlen.
  - destruct a; [|simpl in Hlen; lia]. rewrite sapp_nil_l.
    rewrite replace_across by (intros x y E Hy; now apply (N2 x y b)).
    apply contains_of_prefix, prefix_app.
  - destruct (String.prefix p (a +:+ q +:+ b)) eqn:P.
    + destruct (N1 a b P) as [a' ->].
      rewrite (replace_hit _ _ _ Hp P), sapp_assoc, drop_app.
      apply contains_app_r, IH.
      rewrite slength_app in Hlen. destruct p; [congruence|]. simpl in Hlen. lia.
    + destruct a as [|c a].
      * rewrite sapp_nil_l.
        rewrite replace_across by (intros x y E Hy; now apply (N2 x y b)).
        apply contains_of_prefix, prefix_app.
      * rewrite sapp_cons in P |- *. rewrite (replace_miss _ _ _ _ P), contains_cons.
        rewrite IH by (simpl in Hlen; lia). apply orb_true_r.
Qed.

(** Replacing [p] leaves every text that holds [q] holding [q]. *)
Lemma replace_keeps_occurrence (p v q s : string) :
  p <> "" -> clear_of p q ->
  PyStr.contains q s = true -> PyStr.contains q (PyStr.replace p v s) = true.
Proof.
  intros Hp Hc H. apply contains_true_inv in H as (a & b & ->).
  now apply (replace_keeps_occurrence_aux p v q b (String.length a)).
Qed.

End Clear.

(** ** Keys without a token, tokens without a key *)

Section AbsentKeys.
Import Docx Subst Tokens.

Lemma run_pass_skip_key (pre post : field_map) (k : string) (v : option string)
      (t : string) :
  (forall t', run_pass pre t = Returns t' -> PyStr.contains (placeholder k) t' = false) ->
  run_pass (pre ++ (k, v) :: post) t = run_pass (pre ++ post) t.
Proof.
  intros H. rewrite run_pass_turn, run_pass_app.
  destruct (run_pass pre t) as [t1|e]; cbn [obind]; [|reflexivity].
  now rewrite run_step_absent by now apply H.
Qed.

Lemma stored_placeholder (K : string) : stored (placeholder K) = placeholder (stored K).
Proof. unfold placeholder. now rewrite !stored_app. Qed.

Lemma is_brace_stored (c : ascii) : is_brace (stored_char c) = is_brace c.
Proof.
  unfold stored_char. destruct (Ascii.eqb c CR) eqn:E; [|reflexivity].
  apply Ascii.eqb_eq in E. now subst c.
Qed.

Lemma brace_free_stored (s : string) : brace_free (stored s) = brace_free s.
Proof.
  induction s as [|c s IH]; [reflexivity|]. cbn [stored brace_free].
  now rewrite is_brace_stored, IH.
Qed.

Lemma run_step_keeps_token (k : string) (v : option string) (K t t' : string) :
  brace_free K = true -> brace_free k = true -> k <> K -> stored K = K ->
  PyStr.contains (placeholder K) t = true ->
  run_step k v t = Returns t' ->
  PyStr.contains (placeholder K) t' = true.
Proof.
  intros HK Hk Hne Hs Hc. unfold run_step.
  destruct (PyStr.contains (placeholder k) t); [|now intros [= <-]].
  intros H. apply set_text_returns in H as [_ ->].
  rewrite <- Hs at 1. rewrite <- stored_placeholder. apply contains_stored.
  apply replace_keeps_occurrence; [| |exact Hc].
  - apply placeholder_nonempty.
  - now apply tokens_clear.
Qed.

(** A token whose name is no key is in whatever the pass returns. *)
Lemma run_pass_keeps_token (data : field_map) (K t t' : string) :
  brace_free K = true -> stored K = K ->
  (forall k v, In (k, v) data -> brace_free k = true /\ k <> K) ->
  PyStr.contains (placeholder K) t = true ->
  run_pass data t = Returns t' ->
  PyStr.contains (placeholder K) t' = true.
Proof.
  intros HK Hs. revert t. induction data as [|[k v] rest IH]; intros t H Hc.
  - now intros [= <-].
  - rewrite run_pass_cons. destruct (run_step k v t) as [t1|e] eqn:E; [|discriminate].
    cbn [obind]. apply IH.
    + intros k' v' Hin. apply (H k' v'). now right.
    + destruct (H k v (or_introl eq_refl)) as [Hk Hne].
      now apply (run_step_keeps_token k v K t t1).
Qed.

Lemma replace_keys_keeps_token (items : replacements) (K t : string) :
  brace_free K = true ->
  (forall key value, In (key, value) items ->
     exists J, key = placeholder J /\ brace_free J = true /\ J <> K) ->
  PyStr.contains (placeholder K) t = true ->
  PyStr.contains (placeholder K) (replace_keys items t) = true.
Proof.
  intros HK. revert t. induction items as [|[k v] rest IH]; intros t H Hc; [exact Hc|].
  rewrite replace_keys_cons. apply IH.
  - intros k' v' Hin. apply (H k' v'). now right.
  - destruct (H k v (or_introl eq_refl)) as (J & -> & HJ & Hne).
    apply replace_keeps_occurrence; [| |exact Hc].
    + apply placeholder_nonempty.
    + now apply tokens_clear.
Qed.

End AbsentKeys.

(** ** The per-run pass and the texts it asks for *)

Section TextPass.
Import Docx Subst Tokens.

Lemma text_step_replace (k : string) (v : option string) (t : string) :
  text_step k v t = PyStr.replace (placeholder k) (str_value v) t.
Proof. unfold text_step. apply replace_guard. Qed.

Lemma text_pass_cons (k : string) (v : option string) (rest : field_map) (t : string) :
  text_pass ((k, v) :: rest) t = text_pass rest (text_step k v t).
Proof. reflexivity. Qed.

Lemma text_pass_absent (data : field_map) (t : string) :
  (forall k v, In (k, v) data -> PyStr.contains (placeholder k) t = false) ->
  text_pass data t = t.
Proof.
  induction data as [|[k v] rest IH]; intros H; [reflexivity|].
  rewrite text_pass_cons. unfold text_step. rewrite (H k v (or_introl eq_refl)).
  apply IH. intros k' v' Hin. apply (H k' v'). now right.
Qed.

Lemma replace_keys_named (data : field_map) (t : string) :
  replace_keys (Whole.braced data) t = text_pass data t.
Proof.
  revert t. induction data as [|[k v] rest IH]; intros t; [reflexivity|].
  unfold Whole.braced. cbn [List.map fst snd].
  rewrite replace_keys_cons, text_pass_cons, text_step_replace. apply IH.
Qed.

Lemma xml_compatible_text_pass (data : field_map) (t : string) :
  (forall k v, In (k, v) data -> xml_compatible (str_value v) = true) ->
  xml_compatible t = true -> xml_compatible (text_pass data t) = true.
Proof.
  revert t. induction data as [|[k v] rest IH]; intros t H Ht; [exact Ht|].
  rewrite text_pass_cons. apply IH.
  - intros k' v' Hin. apply (H k' v'). now right.
  - rewrite text_step_replace. apply xml_compatible_replace; [|exact Ht].
    exact (H k v (or_introl eq_refl)).
Qed.

(** On a text without carriage returns a step stores what the step on
    the stored value asks for. *)
Lemma run_step_stored (k : string) (v : option string) (t t' : string) :
  stored t = t -> run_step k v t = Returns t' ->
  t' = text_step k (Some (stored (str_value v))) t /\ stored t' = t'.
Proof.
  intros Hs. unfold run_step, text_step.
  destruct (PyStr.contains (placeholder k) t); [|intros [= <-]; now split].
  intros H. apply set_text_returns in H as [_ ->]. split.
  - now apply stored_replace.
  - apply stored_idem.
Qed.

Lemma run_pass_stored (data : field_map) (t t' : string) :
  stored t = t -> run_pass data t = Returns t' ->
  t' = text_pass (Whole.stored_values data) t /\ stored t' = t'.
Proof.
  revert t. induction data as [|[k v] rest IH]; intros t Hs.
  - intros [= <-]. now split.
  - rewrite run_pass_cons. destruct (run_step k v t) as [t1|e] eqn:E; [|discriminate].
    cbn [obind]. intros H. apply (run_step_stored k v t t1 Hs) in E as [-> Hs1].
    now apply IH.
Qed.

(** The pass returns when the values and the text hold only characters
    XML can hold. *)
Lemma run_step_returns (k : string) (v : option string) (t : string) :
  xml_compatible (str_value v) = true -> xml_compatible t = true ->
  exists t', run_step k v t = Returns t' /\ xml_compatible t' = true.
Proof.
  intros Hv Ht. unfold run_step. destruct (PyStr.contains (placeholder k) t).
  - exists (stored (PyStr.replace (placeholder k) (str_value v) t)).
    assert (Hx : xml_compatible (PyStr.replace (placeholder k) (str_value v) t) = true)
      by now apply xml_compatible_replace.
    split; [|now rewrite xml_compatible_stored].
    unfold set_text. now rewrite Hx.
  - now exists t.
Qed.

Lemma run_pass_returns (data : field_map) (t : string) :
  (forall k v, In (k, v) data -> xml_compatible (str_value v) = true) ->
  xml_compatible t = true ->
  exists t', run_pass data t = Returns t' /\ xml_compatible t' = true.
Proof.
  revert t. induction data as [|[k v] rest IH]; intros t H Ht; [now exists t|].
  rewrite run_pass_cons.
  destruct (run_step_returns k v t (H k v (or_introl eq_refl)) Ht) as (t1 & -> & Ht1).
  cbn [obind]. apply IH; [|exact Ht1]. intros k' v' Hin. apply (H k' v'). now right.
Qed.

Lemma stored_values_clean (data : field_map) :
  (forall k v, In (k, v) data -> stored (str_value v) = str_value v) ->
  forall t, text_pass (Whole.stored_values data) t = text_pass data t.
Proof.
  induction data as [|[k v] rest IH]; intros H t; [reflexivity|].
  unfold Whole.stored_values. cbn [List.map fst snd]. rewrite !text_pass_cons.
  rewrite !text_step_replace. cbn [str_value].
  rewrite (H k v (or_introl eq_refl)).
  apply IH. intros k' v' Hin. apply (H k' v'). now right.
Qed.

(** With values and text that a run stores as they are, the pass returns
    the text the keys ask for. *)
Lemma run_pass_clean (data : field_map) (t : string) :
  (forall k v, In (k, v) data -> Whole.clean (str_value v)) ->
  Whole.clean t ->
  run_pass data t = Returns (text_pass data t) /\ Whole.clean (text_pass data t).
Proof.
  intros H [Hx Hs].
  destruct (run_pass_returns data t) as (t' & Hr & Hx'); [|exact Hx|].
  { intros k v Hin. now apply (H k v). }
  destruct (run_pass_stored data t t' Hs Hr) as [E Hs'].
  rewrite stored_values_clean in E by (intros k v Hin; now apply (H k v)).
  subst t'. split; [exact Hr | now split].
Qed.

End TextPass.

(** ** Texts made of literal characters and whole tokens *)

Section Segments.
Import Docx Subst Tokens.

Lemma flatten_app (g1 g2 : list segment) :
  flatten (g1 ++ g2) = flatten g1 +:+ flatten g2.
Proof.
  induction g1 as [|g g1 IH]; [reflexivity|].
  cbn [app flatten]. now rewrite IH, sapp_assoc.
Qed.

Lemma flatten_lits (v : string) : flatten (lits v) = v.
Proof. induction v as [|c v IH]; [reflexivity|]. cbn [lits flatten seg_text]. now rewrite IH. Qed.

Lemma well_formed_lits (v : string) : brace_free v = true -> well_formed (lits v) = true.
Proof.
  induction v as [|c v IH]; [reflexivity|]. simpl. intros H.
  apply andb_true_iff in H as [H1 H2]. now rewrite H1, (IH H2).
Qed.

Lemma has_token_lits (k v : string) : has_token k (lits v) = false.
Proof. induction v as [|c v IH]; [reflexivity | exact IH]. Qed.

Lemma well_formed_app (g1 g2 : list segment) :
  well_formed (g1 ++ g2) = well_formed g1 && well_formed g2.
Proof. apply forallb_app. Qed.

Lemma has_token_app (k : string) (g1 g2 : list segment) :
  has_token k (g1 ++ g2) = has_token k g1 || has_token k g2.
Proof. apply existsb_app. Qed.

Lemma subst_segments_cons (k v : string) (g : segment) (gs : list segment) :
  subst_segments k v (g :: gs) = seg_subst k v g ++ subst_segments k v gs.
Proof. reflexivity. Qed.

Lemma prefix_token_lit (k : string) (c : ascii) (s : string) :
  is_brace c = false -> String.prefix (placeholder k) (String c s) = false.
Proof.
  intros H. apply not_brace_inv in H as [H _]. rewrite placeholder_unfold.
  apply prefix_cons_ne. congruence.
Qed.

(** On a well-formed text [replace] is the substitution of whole tokens. *)
Lemma replace_flatten (k v : string) (gs : list segment) :
  brace_free k = true -> well_formed gs = true ->
  PyStr.replace (placeholder k) v (flatten gs) = flatten (subst_segments k v gs).
Proof.
  intros Hk. induction gs as [|[c|n] gs IH]; intros Hwf.
  - apply replace_nil, placeholder_nonempty.
  - simpl in Hwf. apply andb_true_iff in Hwf as [Hc Hwf]. apply negb_true_iff in Hc.
    rewrite subst_segments_cons. cbn [seg_subst app flatten seg_text].
    rewrite !sapp_cons, !sapp_nil_l.
    rewrite replace_miss by now apply prefix_token_lit. now rewrite IH.
  - simpl in Hwf. apply andb_true_iff in Hwf as [Hn Hwf].
    rewrite subst_segments_cons. cbn [seg_subst flatten seg_text].
    destruct (String.eqb_spec n k) as [->|Hne].
    + rewrite replace_hit by (apply placeholder_nonempty || apply prefix_app).
      rewrite drop_app, flatten_app, flatten_lits. now rewrite IH.
    + rewrite replace_across.
      * cbn [app flatten seg_text]. now rewrite IH.
      * intros x y E Hy. apply (proj2 (tokens_clear k n Hk Hn (not_eq_sym Hne)) x y); auto.
Qed.

Lemma contains_flatten_absent (k : string) (gs : list segment) :
  brace_free k = true -> well_formed gs = true -> has_token k gs = false ->
  PyStr.contains (placeholder k) (flatten gs) = false.
Proof.
  intros Hk. induction gs as [|[c|n] gs IH]; intros Hwf Hno.
  - apply contains_empty_text, placeholder_nonempty.
  - simpl in Hwf. apply andb_true_iff in Hwf as [Hc Hwf]. apply negb_true_iff in Hc.
    cbn [flatten seg_text]. rewrite sapp_cons, sapp_nil_l, contains_cons.
    rewrite prefix_token_lit by exact Hc. now apply IH.
  - simpl in Hwf. apply andb_true_iff in Hwf as [Hn Hwf].
    simpl in Hno. apply orb_false_iff in Hno as [Hne Hno].
    apply String.eqb_neq in Hne. cbn [flatten seg_text].
    rewrite contains_across; [now apply IH|].
    intros x y E Hy. apply (proj2 (tokens_clear k n Hk Hn (not_eq_sym Hne)) x y); auto.
Qed.

Lemma well_formed_subst (k v : string) (gs : list segment) :
  brace_free v = true -> well_formed gs = true ->
  well_formed (subst_segments k v gs) = true.
Proof.
  intros Hv. induction gs as [|g gs IH]; intros Hwf; [reflexivity|].
  simpl in Hwf. apply andb_true_iff in Hwf as [Hg Hwf].
  rewrite subst_segments_cons, well_formed_app, (IH Hwf), andb_true_r.
  destruct g as [c|n]; cbn [seg_subst].
  - cbn [well_formed forallb]. now rewrite Hg.
  - destruct (String.eqb n k); [now apply well_formed_lits|].
    cbn [well_formed forallb]. now rewrite Hg.
Qed.

Lemma has_token_subst_same (k v : string) (gs : list segment) :
  has_token k (subst_segments k v gs) = false.
Proof.
  induction gs as [|g gs IH]; [reflexivity|].
  rewrite subst_segments_cons, has_token_app, IH, orb_false_r.
  destruct g as [c|n]; cbn [seg_subst]; [reflexivity|].
  destruct (String.eqb n k) eqn:E; [apply has_token_lits|].
  simpl. now rewrite E.
Qed.

Lemma has_token_subst_other (k j v : string) (gs : list segment) :
  has_token k gs = false -> has_token k (subst_segments j v gs) = false.
Proof.
  induction gs as [|g gs IH]; intros H; [reflexivity|].
  simpl in H. apply orb_false_iff in H as [Hg H].
  rewrite subst_segments_cons, has_token_app, (IH H), orb_false_r.
  destruct g as [c|n]; cbn [seg_subst]; [reflexivity|].
  destruct (String.eqb n j); [apply has_token_lits|]. simpl. now rewrite Hg.
Qed.

(** The pass on a well-formed text is the pass on its segments. *)
Lemma text_pass_flatten (data : field_map) (gs : list segment) :
  (forall k v, In (k, v) data -> brace_free k = true /\ brace_free (str_value v) = true) ->
  well_formed gs = true ->
  text_pass data (flatten gs) = flatten (seg_pass data gs) /\
  well_formed (seg_pass data gs) = true.
Proof.
  revert gs. induction data as [|[k v] rest IH]; intros gs H Hwf; [now split|].
  destruct (H k v (or_introl eq_refl)) as [Hk Hv].
  rewrite text_pass_cons, text_step_replace, replace_flatten by assumption.
  apply IH.
  - intros k' v' Hin. apply (H k' v'). now right.
  - now apply well_formed_subst.
Qed.

Lemma seg_pass_no_tokens (data : field_map) (gs : list segment) (done : list string) :
  (forall k, In k done -> has_token k gs = false) ->
  forall k, In k (done ++ List.map fst data) -> has_token k (seg_pass data gs) = false.
Proof.
  revert gs done. induction data as [|[j v] rest IH]; intros gs done Hdone k Hin.
  - rewrite app_nil_r in Hin. now apply Hdone.
  - cbn [seg_pass foldl fst snd]. apply (IH _ (done ++ [j])).
    + intros k' Hk'. apply in_app_or in Hk' as [Hk'|[<-|[]]].
      * apply has_token_subst_other. now apply Hdone.
      * apply has_token_subst_same.
    + rewrite <- app_assoc. exact Hin.
Qed.

(** After the pass over a well-formed text no key's token is left. *)
Lemma text_pass_no_tokens (data : field_map) (gs : list segment) :
  (forall k v, In (k, v) data -> brace_free k = true /\ brace_free (str_value v) = true) ->
  well_formed gs = true ->
  forall k v, In (k, v) data ->
    PyStr.contains (placeholder k) (text_pass data (flatten gs)) = false.
Proof.
  intros H Hwf k v Hin. destruct (text_pass_flatten data gs H Hwf) as [-> Hwf'].
  apply contains_flatten_absent; [now apply (H k v) | exact Hwf' |].
  apply (seg_pass_no_tokens data gs []); [intros ? []|].
  rewrite app_nil_l. change k with (fst (k, v)). now apply in_map.
Qed.

Lemma stored_values_brace_free (data : field_map) :
  (forall k v, In (k, v) data -> brace_free k = true /\ brace_free (str_value v) = true) ->
  forall k v, In (k, v) (Whole.stored_values data) ->
    brace_free k = true /\ brace_free (str_value v) = true.
Proof.
  intros H k v Hin. apply in_map_iff in Hin as ([k0 v0] & [= <- <-] & Hin).
  cbn [fst snd str_value]. rewrite brace_free_stored. now apply (H k0 v0).
Qed.

Lemma stored_values_key (data : field_map) (k : string) (v : option string) :
  In (k, v) data -> In (k, Some (stored (str_value v))) (Whole.stored_values data).
Proof.
  intros Hin. unfold Whole.stored_values.
  now apply (in_map (fun kv => (fst kv, Some (stored (str_value (snd kv))))) data (k, v)).
Qed.

(** What the pass returns on a well-formed text without carriage returns
    holds no key's token. *)
Lemma run_pass_no_tokens (data : field_map) (gs : list segment) (t' : string) :
  (forall k v, In (k, v) data -> brace_free k = true /\ brace_free (str_value v) = true) ->
  well_formed gs = true ->
  stored (flatten gs) = flatten gs ->
  run_pass data (flatten gs) = Returns t' ->
  forall k v, In (k, v) data -> PyStr.contains (placeholder k) t' = false.
Proof.
  intros H Hwf Hs Hr k v Hin.
  destruct (run_pass_stored data (flatten gs) t' Hs Hr) as [-> _].
  apply (text_pass_no_tokens (Whole.stored_values data) gs
           (stored_values_brace_free data H) Hwf k (Some (stored (str_value v)))).
  now apply stored_values_key.
Qed.

Lemma run_pass_twice_flatten (data : field_map) (gs : list segment) (t' : string) :
  (forall k v, In (k, v) data -> brace_free k = true /\ brace_free (str_value v) = true) ->
  well_formed gs = true ->
  stored (flatten gs) = flatten gs ->
  run_pass data (flatten gs) = Returns t' ->
  run_pass data t' = Returns t'.
Proof.
  intros H Hwf Hs Hr. apply run_pass_absent.
  now apply (run_pass_no_tokens data gs t').
Qed.

Lemma tok_in_lits (n v : string) : ~ In (Tok n) (lits v).
Proof. induction v as [|c v IH]; [intros []|]. intros [H|H]; [discriminate | now apply IH]. Qed.

Lemma tok_in_subst (n k v : string) (gs : list segment) :
  In (Tok n) (subst_segments k v gs) -> In (Tok n) gs.
Proof.
  induction gs as [|g gs IH]; [intros []|].
  rewrite subst_segments_cons. intros H. apply in_app_or in H as [H|H]; [|right; now apply IH].
  destruct g as [c|m]; cbn [seg_subst] in H.
  - destruct H as [H|[]]. discriminate.
  - destruct (String.eqb m k); [now apply tok_in_lits in H|].
    destruct H as [H|[]]. now left.
Qed.

Lemma tok_in_seg_pass (n : string) (data : field_map) (gs : list segment) :
  In (Tok n) (seg_pass data gs) -> In (Tok n) gs.
Proof.
  revert gs. induction data as [|[k v] rest IH]; intros gs H; [exact H|].
  cbn [seg_pass foldl fst snd] in H. apply IH in H. now apply tok_in_subst in H.
Qed.

Lemma tok_stored (n : string) (gs : list segment) :
  stored (flatten gs) = flatten gs -> In (Tok n) gs -> stored n = n.
Proof.
  induction gs as [|g gs IH]; intros Hs Hin; [destruct Hin|].
  cbn [flatten] in Hs. apply stored_app_inv in Hs as [Hg Hs].
  destruct Hin as [->|Hin]; [|now apply IH].
  cbn [seg_text] in Hg. unfold placeholder in Hg.
  apply stored_app_inv in Hg as [_ Hg]. now apply stored_app_inv in Hg as [Hg _].
Qed.

(** A well-formed text that holds no token of [k] holds none after it is
    stored, the names of its tokens being without carriage returns. *)
Lemma contains_stored_flatten_absent (k : string) (gs : list segment) :
  brace_free k = true -> well_formed gs = true -> has_token k gs = false ->
  (forall n, In (Tok n) gs -> stored n = n) ->
  PyStr.contains (placeholder k) (stored (flatten gs)) = false.
Proof.
  intros Hk. induction gs as [|[c|n] gs IH]; intros Hwf Hno Hn.
  - apply contains_empty_text, placeholder_nonempty.
  - simpl in Hwf. apply andb_true_iff in Hwf as [Hc Hwf]. apply negb_true_iff in Hc.
    cbn [flatten seg_text]. rewrite sapp_cons, sapp_nil_l. cbn [stored].
    rewrite contains_cons, prefix_token_lit by now rewrite is_brace_stored.
    apply IH; auto. intros m Hm. apply Hn. now right.
  - simpl in Hwf. apply andb_true_iff in Hwf as [Hn' Hwf].
    simpl in Hno. apply orb_false_iff in Hno as [Hne Hno].
    apply String.eqb_neq in Hne. cbn [flatten seg_text].
    rewrite stored_app, stored_placeholder, (Hn n (or_introl eq_refl)).
    rewrite contains_across.
    + apply IH; auto. intros m Hm. apply Hn. now right.
    + intros x y E Hy. apply (proj2 (tokens_clear k n Hk Hn' (not_eq_sym Hne)) x y); auto.
Qed.

(** What the keys ask for on a well-formed text without carriage returns
    holds no key's token once stored. *)
Lemma stored_text_pass_no_tokens (data : field_map) (gs : list segment) :
  (forall k v, In (k, v) data -> brace_free k = true /\ brace_free (str_value v) = true) ->
  well_formed gs = true ->
  stored (flatten gs) = flatten gs ->
  forall k v, In (k, v) data ->
    PyStr.contains (placeholder k) (stored (text_pass data (flatten gs))) = false.
Proof.
  intros H Hwf Hs k v Hin. destruct (text_pass_flatten data gs H Hwf) as [-> Hwf'].
  apply contains_stored_flatten_absent; [now apply (H k v) | exact Hwf' | |].
  - apply (seg_pass_no_tokens data gs []); [intros ? []|].
    rewrite app_nil_l. change k with (fst (k, v)). now apply in_map.
  - intros n Hn. apply (tok_stored n gs Hs). now apply (tok_in_seg_pass n data).
Qed.

End Segments.

(** ** Cells listed once, runs by position *)

Section Visits.
Import Docx Subst.

Lemma for_each_nth {A} (f : A -> outcome A) (l l' : list A) (i : nat) (a : A) :
  for_each f l = Returns l' -> nth_error l i = Some a ->
  exists a', nth_error l' i = Some a' /\ f a = Returns a'.
Proof.
  intros H. apply for_each_Forall2 in H. revert i.
  induction H as [|x x' l l' Hx _ IH]; intros i Hi; [now destruct i|].
  destruct i as [|i]; cbn [nth_error] in *.
  - injection Hi as <-. now exists x'.
  - now apply IH.
Qed.

Lemma for_runs_nth (g : string -> outcome string) (p p' : list inline) (i : nat)
      (r : string) :
  for_runs g p = Returns p' -> nth_error (runs p) i = Some r ->
  exists r', nth_error (runs p') i = Some r' /\ g r = Returns r'.
Proof.
  unfold for_runs. destruct (for_each g (runs p)) as [ts|e] eqn:E; [|discriminate].
  cbn [obind]. intros [= <-] Hi.
  rewrite runs_with_runs by now apply for_each_length in E.
  now apply (for_each_nth g (runs p)).
Qed.

(** A row that lists every cell at most once: the cells it lists are
    visited once, the others stay. *)
Lemma for_cells_once (f : list inline -> outcome (list inline)) (refs : list nat)
      (store store' : list (list (list inline))) :
  for_cells f refs store = Returns store' -> List.NoDup refs ->
  forall i c, store !! i = Some c ->
    exists c', store' !! i = Some c' /\
               (In i refs -> for_each f c = Returns c') /\
               (~ In i refs -> c' = c).
Proof.
  revert store. induction refs as [|j refs IH]; intros store H Hnd i c Hi.
  - injection H as <-. exists c. split; [exact Hi|]. split; [intros []|reflexivity].
  - apply List.NoDup_cons_iff in Hnd as [Hj Hnd]. cbn [for_cells] in H.
    destruct (store !! j) as [cj|] eqn:Ej.
    + destruct (for_each f cj) as [cj'|e] eqn:Ec; [|discriminate]. cbn [obind] in H.
      destruct (Nat.eq_dec j i) as [->|Hne].
      * assert (Hl : <[i := cj']> store !! i = Some cj').
        { apply list_lookup_insert_eq. now apply lookup_lt_Some in Hi. }
        destruct (IH _ H Hnd i cj' Hl) as (c' & Hc' & _ & Hout).
        exists c'. split; [exact Hc'|]. rewrite (Hout Hj).
        assert (cj = c) by congruence. subst cj.
        split; [intros _; exact Ec|]. intros Hn. exfalso. apply Hn. now left.
      * assert (Hl : <[j := cj']> store !! i = Some c)
          by now rewrite list_lookup_insert_ne.
        destruct (IH _ H Hnd i c Hl) as (c' & Hc' & Hin & Hout).
        exists c'. split; [exact Hc'|]. split.
        -- intros [E|Hin']; [congruence | now apply Hin].
        -- intros Hn. apply Hout. intros Hin'. apply Hn. now right.
    + destruct (IH _ H Hnd i c Hi) as (c' & Hc' & Hin & Hout).
      exists c'. split; [exact Hc'|]. split.
      * intros [E|Hin']; [congruence | now apply Hin].
      * intros Hn. apply Hout. intros Hin'. apply Hn. now right.
Qed.

Lemma for_rows_once (f : list inline -> outcome (list inline)) (rws : list (list nat))
      (store store' : list (list (list inline))) :
  for_rows f rws store = Returns store' -> List.NoDup (concat rws) ->
  forall i c, store !! i = Some c ->
    exists c', store' !! i = Some c' /\
               (In i (concat rws) -> for_each f c = Returns c') /\
               (~ In i (concat rws) -> c' = c).
Proof.
  revert store. induction rws as [|r rws IH]; intros store H Hnd i c Hi.
  - injection H as <-. exists c. split; [exact Hi|]. split; [intros []|reflexivity].
  - cbn [concat] in Hnd. cbn [for_rows] in H.
    destruct (for_cells f r store) as [s1|e] eqn:E; [|discriminate]. cbn [obind] in H.
    assert (Hr : List.NoDup r) by now apply NoDup_app_remove_r in Hnd.
    assert (Hrs : List.NoDup (concat rws)) by now apply NoDup_app_remove_l in Hnd.
    assert (Hdis : forall x, In x r -> ~ In x (concat rws)).
    { intros x Hx Hx'. revert Hnd Hx Hx'. clear. induction r as [|y r IH]; [intros _ []|].
      cbn [app]. intros Hnd. apply List.NoDup_cons_iff in Hnd as [Hy Hnd].
      intros [->|Hx] Hx'; [apply Hy, in_or_app; now right | now apply IH]. }
    destruct (for_cells_once f r store s1 E Hr i c Hi) as (c1 & Hc1 & Hin1 & Hout1).
    destruct (IH s1 H Hrs i c1 Hc1) as (c' & Hc' & Hin & Hout).
    exists c'. split; [exact Hc'|]. cbn [concat]. split.
    + intros Hi'. apply in_app_or in Hi' as [Hi'|Hi'].
      * rewrite (Hout (Hdis i Hi')). now apply Hin1.
      * destruct (in_dec Nat.eq_dec i r) as [Hir|Hir]; [now apply Hdis in Hir|].
        rewrite <- (Hout1 Hir). now apply Hin.
    + intros Hn. rewrite Hout, Hout1; [reflexivity | |];
        intros Hi'; apply Hn, in_or_app; [now left | now right].
Qed.

Lemma for_table_rows (f : list inline -> outcome (list inline)) (t t' : table) :
  for_table f t = Returns t' ->
  rows t' = rows t /\ for_rows f (rows t) (cells t) = Returns (cells t').
Proof.
  unfold for_table. destruct (for_rows f (rows t) (cells t)) as [s|e]; [|discriminate].
  cbn [obind]. intros [= <-]. now split.
Qed.

(** The text of a paragraph whose runs were rewritten holds only
    characters XML can hold when the old text and the new runs do. *)
Lemma xml_compatible_with_runs (p : list inline) (ts : list string) :
  xml_compatible (text p) = true ->
  (forall t, In t ts -> xml_compatible t = true) ->
  xml_compatible (text (with_runs p ts)) = true.
Proof.
  revert ts. induction p as [|[t|t] p IH]; intros ts Hp Hts; [reflexivity| |];
    rewrite text_cons, xml_compatible_app in Hp; apply andb_true_iff in Hp as [H1 H2];
    cbn [with_runs inline_text] in *.
  - destruct ts as [|t' ts]; rewrite text_cons, xml_compatible_app; cbn [inline_text].
    + rewrite H1. now apply IH.
    + rewrite (Hts t' (or_introl eq_refl)). apply IH; [exact H2|].
      intros x Hx. apply Hts. now right.
  - rewrite text_cons, xml_compatible_app. cbn [inline_text]. rewrite H1. now apply IH.
Qed.

End Visits.

(** ** When the engines return *)

Section Returning.
Import Docx Subst.

Lemma for_runs_run_pass_returns (data : field_map) (p : list inline) :
  (forall k v, In (k, v) data -> xml_compatible (str_value v) = true) ->
  (forall r, In r (runs p) -> xml_compatible r = true) ->
  exists p', for_runs (run_pass data) p = Returns p' /\
             forall r, In r (runs p') -> xml_compatible r = true.
Proof.
  intros Hv Hr. unfold for_runs.
  destruct (for_each_returns (run_pass data) (runs p)) as [ts Hts].
  { intros r Hin. destruct (run_pass_returns data r Hv (Hr r Hin)) as (t' & Ht & _).
    now exists t'. }
  rewrite Hts. cbn [obind]. exists (with_runs p ts). split; [reflexivity|].
  rewrite runs_with_runs by now apply for_each_length in Hts.
  intros r' Hr'. destruct (for_each_In_inv _ _ _ _ Hts Hr') as (r & Hin & Hf).
  destruct (run_pass_returns data r Hv (Hr r Hin)) as (t' & Ht & Hx). congruence.
Qed.

(** The run-local loops return on a document whose runs hold only
    characters XML can hold, for values that do. *)
Lemma substitute_returns (data : field_map) (doc : document) :
  (forall k v, In (k, v) data -> xml_compatible (str_value v) = true) ->
  (forall p r, In p (Whole.all_paragraphs doc) -> In r (runs p) -> xml_compatible r = true) ->
  exists doc', substitute data doc = Returns doc'.
Proof.
  intros Hv Hdoc. rewrite substitute_every.
  apply (every_paragraph_returns (for_runs (run_pass data))
           (fun p => forall r, In r (runs p) -> xml_compatible r = true)).
  - intros p p' Hp H. destruct (for_runs_run_pass_returns data p Hv Hp) as (q & Hq & Hx).
    rewrite Hq in H. injection H as <-. exact Hx.
  - intros p Hp. destruct (for_runs_run_pass_returns data p Hv Hp) as (q & Hq & _).
    now exists q.
  - intros p Hp r Hr. now apply (Hdoc p r).
Qed.

Lemma substitute_raises (data : field_map) (doc : document) (e : exn) :
  substitute data doc = Raises e -> e = ValueError XML_ERROR.
Proof.
  rewrite substitute_every. intros H.
  apply (every_paragraph_raises (for_runs (run_pass data)) (fun _ => True)) in H
    as (p & _ & Hp); [|trivial|trivial].
  apply for_runs_raises in Hp as (r & _ & Hr). now apply run_pass_raises in Hr.
Qed.

Lemma replace_paragraph_keeps_grounded (items : replacements) (p p' : list inline) :
  Whole.grounded p -> replace_paragraph items p = Returns p' -> Whole.grounded p'.
Proof.
  intros Hg H. apply replace_paragraph_returned in H
    as [[_ ->]|(_ & _ & r & rest & Hr & ->)]; [exact Hg|].
  intros Hn. rewrite runs_with_runs in Hn; [discriminate|].
  rewrite Hr. cbn [length]. now rewrite length_map.
Qed.

Lemma grounded_changed (items : replacements) (p : list inline) :
  (forall kv, In kv items -> fst kv <> "") ->
  Whole.grounded p -> replace_keys items (text p) <> text p ->
  exists r rest, runs p = r :: rest.
Proof.
  intros Hk Hg Hne. destruct (runs p) as [|r rest] eqn:Hr; [|now eauto].
  exfalso. apply Hne. rewrite (Hg Hr). now apply replace_keys_empty_text.
Qed.

Lemma replace_paragraph_grounded_raises (items : replacements) (p : list inline) (e : exn) :
  (forall kv, In kv items -> fst kv <> "") ->
  Whole.grounded p -> replace_paragraph items p = Raises e -> e = ValueError XML_ERROR.
Proof.
  intros Hk Hg H. apply replace_paragraph_raised in H as [Hne [[Hr _]|(_ & _ & ->)]];
    [|reflexivity].
  destruct (grounded_changed items p Hk Hg Hne) as (r & rest & Hr'). congruence.
Qed.

Lemma replace_placeholders_grounded_raises (items : replacements) (doc : document)
      (e : exn) :
  (forall kv, In kv items -> fst kv <> "") ->
  (forall p, In p (Whole.all_paragraphs doc) -> Whole.grounded p) ->
  replace_placeholders doc items = Raises e -> e = ValueError XML_ERROR.
Proof.
  intros Hk Hdoc H. rewrite replace_placeholders_every in H.
  apply (every_paragraph_raises (replace_paragraph items) Whole.grounded) in H
    as (p & Hg & Hp); [|apply replace_paragraph_keeps_grounded|exact Hdoc].
  now apply (replace_paragraph_grounded_raises items p).
Qed.

Lemma replace_paragraph_returns (items : replacements) (p : list inline) :
  (forall kv, In kv items -> fst kv <> "") ->
  (forall kv, In kv items -> xml_compatible (snd kv) = true) ->
  Whole.grounded p -> xml_compatible (text p) = true ->
  exists p', replace_paragraph items p = Returns p' /\
             Whole.grounded p' /\ xml_compatible (text p') = true.
Proof.
  intros Hk Hv Hg Hx.
  destruct (String.eqb_spec (replace_keys items (text p)) (text p)) as [E|E].
  - exists p. split; [now apply replace_paragraph_unchanged | now split].
  - destruct (grounded_changed items p Hk Hg E) as (r & rest & Hr).
    assert (Hx' : xml_compatible (replace_keys items (text p)) = true)
      by now apply xml_compatible_replace_keys.
    exists (with_runs p (stored (replace_keys items (text p))
                         :: List.map (fun _ => "") rest)).
    assert (Hret : replace_paragraph items p
                   = Returns (with_runs p (stored (replace_keys items (text p))
                                           :: List.map (fun _ => "") rest))).
    { rewrite (replace_paragraph_changed items p r rest E Hr).
      unfold set_text. now rewrite Hx'. }
    split; [exact Hret|]. split.
    + now apply (replace_paragraph_keeps_grounded items p).
    + apply xml_compatible_with_runs; [exact Hx|].
      intros t [<-|Ht]; [now rewrite xml_compatible_stored|].
      apply in_map_iff in Ht as (? & <- & _). reflexivity.
Qed.

(** [replace_placeholders] returns on a document whose texts hold only
    characters XML can hold and whose run-less paragraphs are empty, for
    non-empty keys and values XML can hold. *)
Lemma replace_placeholders_returns (items : replacements) (doc : document) :
  (forall kv, In kv items -> fst kv <> "") ->
  (forall kv, In kv items -> xml_compatible (snd kv) = true) ->
  (forall p, In p (Whole.all_paragraphs doc) ->
             Whole.grounded p /\ xml_compatible (text p) = true) ->
  exists doc', replace_placeholders doc items = Returns doc'.
Proof.
  intros Hk Hv Hdoc. rewrite replace_placeholders_every.
  apply (every_paragraph_returns (replace_paragraph items)
           (fun p => Whole.grounded p /\ xml_compatible (text p) = true)).
  - intros p p' [Hg Hx] H.
    destruct (replace_paragraph_returns items p Hk Hv Hg Hx) as (q & Hq & Hq').
    rewrite Hq in H. now injection H as <-.
  - intros p [Hg Hx].
    destruct (replace_paragraph_returns items p Hk Hv Hg Hx) as (q & Hq & _).
    now exists q.
  - exact Hdoc.
Qed.

End Returning.

(** ** The retention sweep *)

Section Sweep.
Import Api.

Lemma insert_desc_perm (x : Z * string) (l : list (Z * string)) :
  Permutation (insert_desc x l) (x :: l).
Proof.
  induction l as [|y l IH]; [reflexivity|]. simpl.
  destruct (fst x <? fst y)%Z; [|reflexivity].
  rewrite IH. apply perm_swap.
Qed.

Lemma sort_desc_perm (l : list (Z * string)) : Permutation (sort_desc l) l.
Proof.
  induction l as [|x l IH]; [reflexivity|]. simpl.
  rewrite insert_desc_perm. now constructor.
Qed.

Lemma insert_desc_sorted (x : Z * string) (l : list (Z * string)) :
  StronglySorted (fun a b => (fst b <= fst a)%Z) l ->
  StronglySorted (fun a b => (fst b <= fst a)%Z) (insert_desc x l).
Proof.
  induction l as [|y l IH]; intros Hs; simpl.
  - repeat constructor.
  - apply StronglySorted_inv in Hs as [Hs Hy].
    destruct (Z.ltb_spec (fst x) (fst y)) as [Hlt|Hge].
    + constructor; [now apply IH|].
      rewrite List.Forall_forall. intros z Hz.
      apply (Permutation_in _ (insert_desc_perm x l)) in Hz as [<-|Hz]; [lia|].
      rewrite List.Forall_forall in Hy. now apply Hy.
    + constructor; [now constructor|].
      constructor; [exact Hge|].
      rewrite List.Forall_forall in Hy |- *. intros z Hz. specialize (Hy z Hz). lia.
Qed.

Lemma sort_desc_sorted (l : list (Z * string)) :
  StronglySorted (fun a b => (fst b <= fst a)%Z) (sort_desc l).
Proof.
  induction l as [|x l IH]; simpl; [constructor | now apply insert_desc_sorted].
Qed.

(** Everything kept is at least as new as everything beyond the mark. *)
Lemma sorted_firstn_skipn (n : nat) (l : list (Z * string)) (x y : Z * string) :
  StronglySorted (fun a b => (fst b <= fst a)%Z) l ->
  In x (firstn n l) -> In y (skipn n l) -> (fst y <= fst x)%Z.
Proof.
  intros Hs Hx Hy. rewrite <- (firstn_skipn n l) in Hs.
  apply (StronglySorted_app_1_elem_of _ _ _ x y Hs); now apply list_elem_of_In.
Qed.

(** *** The file table *)

Lemma lookup_path_In {A} (p : string) (a : A) (d : list (string * A)) :
  NoDup (List.map fst d) -> In (p, a) d -> lookup_path p d = Some a.
Proof.
  induction d as [|[q b] d IH]; intros Hnd Hin; [destruct Hin|].
  simpl in Hnd. apply NoDup_cons in Hnd as [Hq Hnd]. simpl.
  destruct Hin as [[= -> ->]|Hin].
  - now rewrite String.eqb_refl.
  - destruct (String.eqb_spec p q) as [->|_]; [|now apply IH].
    exfalso. apply Hq. apply list_elem_of_In.
    change q with (fst (q, a)). now apply in_map.
Qed.

Lemma lookup_path_remove_ne {A} (p q : string) (d : list (string * A)) :
  p <> q -> lookup_path p (remove_path q d) = lookup_path p d.
Proof.
  intros Hne. induction d as [|[r a] d IH]; [reflexivity|].
  unfold remove_path in *. simpl.
  destruct (String.eqb_spec q r) as [->|Hqr]; simpl.
  - rewrite IH. destruct (String.eqb_spec p r); [congruence | reflexivity].
  - now rewrite IH.
Qed.

Lemma set_outdir_idem (d1 d2 : list (string * file)) (w : world) :
  set_outdir d2 (set_outdir d1 w) = set_outdir d2 w.
Proof. reflexivity. Qed.

Lemma set_outdir_same (w : world) : set_outdir (outdir w) w = w.
Proof. now destruct w. Qed.

Lemma f_regular_kind (f : file) : f_regular f = true -> f_kind f = Regular.
Proof. unfold f_regular. now destruct (f_kind f). Qed.

Lemma f_regular_stat (f : file) : f_regular f = true -> f_stat f = true.
Proof. unfold f_regular, f_stat. now destruct (f_kind f). Qed.

(** *** The sort keys *)

Lemma sort_keys_listing (w : world) (l : list (string * file)) :
  (forall p f, In (p, f) l -> lookup_path p (outdir w) = Some f /\ f_stat f = true) ->
  sort_keys (List.map fst l) w
  = (Returns (List.map (fun e => (f_ctime (snd e), fst e)) l), w).
Proof.
  induction l as [|[p f] l IH]; intros H; [reflexivity|].
  cbn [List.map sort_keys fst snd]. unfold bind at 1. unfold os_path_getctime.
  destruct (H p f (or_introl eq_refl)) as [-> ->]. unfold bind at 1.
  rewrite IH by (intros q g Hq; apply H; now right). reflexivity.
Qed.

(** A path that is gone makes [getctime] raise: nothing is removed. *)
Lemma sort_keys_gone (w : world) (pre : list (string * file)) (p : string)
      (post : list string) :
  (forall q f, In (q, f) pre -> lookup_path q (outdir w) = Some f /\ f_stat f = true) ->
  lookup_path p (outdir w) = None ->
  sort_keys (List.map fst pre ++ p :: post) w
  = (Raises (OSError ("No such file: " +:+ p)), w).
Proof.
  induction pre as [|[q f] pre IH]; intros H Hp.
  - cbn [List.map app sort_keys]. unfold bind, os_path_getctime. now rewrite Hp.
  - cbn [List.map app sort_keys fst]. unfold bind at 1. unfold os_path_getctime.
    destruct (H q f (or_introl eq_refl)) as [-> ->]. unfold bind at 1.
    rewrite IH; [reflexivity | | exact Hp]. intros r g Hr. apply H. now right.
Qed.

(** So does an entry that is listed but cannot be stat'ed. *)
Lemma sort_keys_dangling (w : world) (pre : list (string * file)) (p : string)
      (f : file) (post : list string) :
  (forall q g, In (q, g) pre -> lookup_path q (outdir w) = Some g /\ f_stat g = true) ->
  lookup_path p (outdir w) = Some f -> f_stat f = false ->
  sort_keys (List.map fst pre ++ p :: post) w
  = (Raises (OSError ("No such file: " +:+ p)), w).
Proof.
  induction pre as [|[q g] pre IH]; intros H Hp Hs.
  - cbn [List.map app sort_keys]. unfold bind, os_path_getctime. now rewrite Hp, Hs.
  - cbn [List.map app sort_keys fst]. unfold bind at 1. unfold os_path_getctime.
    destruct (H q g (or_introl eq_refl)) as [-> ->]. unfold bind at 1.
    rewrite IH; [reflexivity | | exact Hp | exact Hs]. intros r h Hr. apply H. now right.
Qed.

Lemma sort_keys_cons (p : string) (files : list string) (w : world) :
  sort_keys (p :: files) w
  = match lookup_path p (outdir w) with
    | Some f =>
        if f_stat f then
          match sort_keys files w with
          | (Returns ks, w') => (Returns ((f_ctime f, p) :: ks), w')
          | (Raises e, w') => (Raises e, w')
          end
        else (Raises (OSError ("No such file: " +:+ p)), w)
    | None => (Raises (OSError ("No such file: " +:+ p)), w)
    end.
Proof.
  cbn [sort_keys]. unfold bind at 1, os_path_getctime.
  destruct (lookup_path p (outdir w)) as [f|]; [|reflexivity].
  destruct (f_stat f); [|reflexivity]. unfold bind, ret.
  now destruct (sort_keys files w) as [[ks|e] w'].
Qed.

(** Reading the sort keys never changes the world; it returns a key for
    every path or raises an [OSError]. *)
Lemma sort_keys_cases (files : list string) (w : world) :
  (exists ks, sort_keys files w = (Returns ks, w) /\ List.map snd ks = files) \/
  (exists m, sort_keys files w = (Raises (OSError m), w)).
Proof.
  induction files as [|p files IH]; [left; now exists []|].
  rewrite sort_keys_cons.
  destruct (lookup_path p (outdir w)) as [f|]; [|right; now eexists].
  destruct (f_stat f); [|right; now eexists].
  destruct IH as [(ks & -> & Hmap)|(m & ->)].
  - left. exists ((f_ctime f, p) :: ks). split; [reflexivity|]. simpl. now rewrite Hmap.
  - right. now exists m.
Qed.

Lemma sort_keys_returned (w : world) (l : list (string * file))
      (ks : list (Z * string)) :
  (forall p f, In (p, f) l -> lookup_path p (outdir w) = Some f) ->
  fst (sort_keys (List.map fst l) w) = Returns ks ->
  ks = List.map (fun e => (f_ctime (snd e), fst e)) l /\
  forall p f, In (p, f) l -> f_stat f = true.
Proof.
  revert ks. induction l as [|[p f] l IH]; intros ks H Hk.
  - injection Hk as <-. split; [reflexivity | intros ? ? []].
  - cbn [List.map fst snd] in Hk. rewrite sort_keys_cons in Hk.
    rewrite (H p f (or_introl eq_refl)) in Hk.
    destruct (f_stat f) eqn:Hs; [|discriminate].
    destruct (sort_keys_cases (List.map fst l) w) as [(ks' & E & _)|(m & E)];
      rewrite E in Hk; [|discriminate].
    injection Hk as <-.
    destruct (IH ks') as [-> Hall];
      [intros q g Hq; apply H; now right | now rewrite E |].
    split; [reflexivity|]. intros q g [[= <- <-]|Hq]; [exact Hs | now apply (Hall q g)].
Qed.

(** *** The removal loop *)

Lemma remove_loop_skip (p : string) (rest : list string) (w : world) :
  match lookup_path p (outdir w) with
  | Some f => f_regular f = false
  | None => True
  end ->
  remove_loop (p :: rest) w = remove_loop rest w.
Proof.
  intros H. cbn [remove_loop]. unfold bind, os_path_isfile.
  destruct (lookup_path p (outdir w)) as [f|]; [rewrite H|]; reflexivity.
Qed.

Lemma remove_loop_remove (p : string) (rest : list string) (w : world) (f : file) :
  lookup_path p (outdir w) = Some f -> f_regular f = true -> f_locked f = false ->
  remove_loop (p :: rest) w
  = remove_loop rest (set_outdir (remove_path p (outdir w)) w).
Proof.
  intros Hl Hr Hk. cbn [remove_loop]. unfold bind, os_path_isfile.
  rewrite Hl, Hr. cbv beta iota. unfold os_remove.
  rewrite Hl, (f_regular_kind f Hr), Hk. reflexivity.
Qed.

(** A file that cannot be removed ends the loop where it stands. *)
Lemma remove_loop_locked (p : string) (rest : list string) (w : world) (f : file) :
  lookup_path p (outdir w) = Some f -> f_regular f = true -> f_locked f = true ->
  remove_loop (p :: rest) w = (Raises (OSError ("Permission denied: " +:+ p)), w).
Proof.
  intros Hl Hr Hk. cbn [remove_loop]. unfold bind, os_path_isfile.
  rewrite Hl, Hr. cbv beta iota. unfold os_remove.
  rewrite Hl, (f_regular_kind f Hr), Hk. reflexivity.
Qed.

Lemma filter_twice {A} (f g : A -> bool) (l : list A) :
  List.filter g (List.filter f l) = List.filter (fun a => f a && g a) l.
Proof.
  induction l as [|a l IH]; [reflexivity|]. simpl.
  destruct (f a); simpl; [destruct (g a)|]; now rewrite IH.
Qed.

Lemma remove_loop_all (old_files : list string) (w : world) :
  NoDup old_files ->
  (forall p, In p old_files ->
     exists f, lookup_path p (outdir w) = Some f /\
               f_regular f = true /\ f_locked f = false) ->
  remove_loop old_files w
  = (Returns tt,
     set_outdir
       (List.filter (fun e => negb (existsb (String.eqb (fst e)) old_files)) (outdir w))
       w).
Proof.
  revert w. induction old_files as [|p rest IH]; intros w Hnd H.
  - cbn [remove_loop existsb negb]. unfold ret.
    now rewrite filter_true, set_outdir_same.
  - apply NoDup_cons in Hnd as [Hp Hnd].
    destruct (H p (or_introl eq_refl)) as (f & Hl & Hr & Hk).
    rewrite (remove_loop_remove _ _ _ _ Hl Hr Hk), IH; [|exact Hnd|].
    + rewrite set_outdir_idem. f_equal. f_equal. cbn [outdir set_outdir].
      unfold remove_path. rewrite filter_twice. apply filter_ext. intros [q g].
      cbn [fst existsb]. rewrite negb_orb, (String.eqb_sym p q). reflexivity.
    + intros q Hq. destruct (H q (or_intror Hq)) as (g & Hg & Hgr & Hgk).
      exists g. split; [|now split]. cbn [outdir set_outdir].
      rewrite lookup_path_remove_ne; [exact Hg|].
      intros ->. apply Hp. now apply list_elem_of_In.
Qed.

End Sweep.

Section Retention.
Import Api.

Lemma Permutation_filter {A} (g : A -> bool) (l l' : list A) :
  Permutation l l' -> Permutation (List.filter g l) (List.filter g l').
Proof.
  induction 1 as [|a l l' _ IH|a b l|l l' l'' _ IH1 _ IH2]; simpl.
  - constructor.
  - destruct (g a); [now constructor | exact IH].
  - destruct (g a), (g b); try reflexivity. apply perm_swap.
  - now transitivity (List.filter g l').
Qed.

Lemma map_fst_filter {A} (g : string -> bool) (d : list (string * A)) :
  List.map fst (List.filter (fun e => g (fst e)) d) = List.filter g (List.map fst d).
Proof.
  induction d as [|[p a] d IH]; [reflexivity|]. simpl.
  destruct (g p); simpl; now rewrite IH.
Qed.

Lemma existsb_eqb_In (q : string) (l : list string) :
  existsb (String.eqb q) l = true <-> In q l.
Proof.
  rewrite existsb_exists. split.
  - intros (x & Hx & E). apply String.eqb_eq in E. now subst.
  - intros H. exists q. split; [exact H | apply String.eqb_refl].
Qed.

Lemma filter_all {A} (g : A -> bool) (l : list A) :
  (forall a, In a l -> g a = true) -> List.filter g l = l.
Proof.
  intros H. apply forallb_filter_id. apply forallb_forall. exact H.
Qed.

Lemma filter_none {A} (g : A -> bool) (l : list A) :
  (forall a, In a l -> g a = false) -> List.filter g l = [].
Proof.
  induction l as [|a l IH]; intros H; [reflexivity|]. simpl.
  rewrite (H a (or_introl eq_refl)). apply IH. intros b Hb. apply H. now right.
Qed.

Lemma filter_firstn (g : string -> bool) (n : nat) (sorted : list string) :
  (forall q, In q (firstn n sorted) -> g q = true) ->
  (forall q, In q (skipn n sorted) -> g q = false) ->
  List.filter g sorted = firstn n sorted.
Proof.
  intros Hin Hout. rewrite <- (firstn_skipn n sorted) at 1.
  rewrite List.filter_app, (filter_all _ _ Hin), (filter_none _ _ Hout).
  now rewrite app_nil_r.
Qed.

(** Removing the paths beyond the mark leaves the paths before it. *)
Lemma filter_keeps_firstn (n : nat) (paths sorted : list string) :
  NoDup sorted -> Permutation sorted paths ->
  Permutation
    (List.filter (fun q => negb (existsb (String.eqb q) (skipn n sorted))) paths)
    (firstn n sorted).
Proof.
  intros Hnd Hperm.
  rewrite <- (Permutation_filter _ _ _ Hperm).
  rewrite (filter_firstn _ n); [reflexivity| |].
  - intros q Hq. apply negb_true_iff.
    destruct (existsb (String.eqb q) (skipn n sorted)) eqn:E; [|reflexivity].
    apply existsb_eqb_In in E. exfalso.
    rewrite <- (firstn_skipn n sorted) in Hnd.
    apply NoDup_app in Hnd as (_ & Hdisj & _).
    apply (Hdisj q); now apply list_elem_of_In.
  - intros q Hq. apply negb_false_iff. now apply existsb_eqb_In.
Qed.

End Retention.

Lemma delete_old_files_returns (w : world) :
  exists w', Api.delete_old_files w = (Returns tt, w').
Proof.
  unfold Api.delete_old_files, try_except.
  destruct (Api.sweep w) as [[[]|e] w1]; [now eexists|].
  unfold logger_error. now eexists.
Qed.

(** ** Conversion failures *)

Section Conversion.
Import Api.

Lemma lookup_path_written {A} (p : string) (a : A) (d : list (string * A)) :
  lookup_path p (remove_path p d ++ [(p, a)]) = Some a.
Proof.
  induction d as [|[q b] d IH]; simpl.
  - now rewrite String.eqb_refl.
  - unfold remove_path in *. simpl.
    destruct (String.eqb_spec p q) as [->|Hne]; simpl; [exact IH|].
    destruct (String.eqb_spec p q); [congruence | exact IH].
Qed.

(** The letter endpoints: a failing converter leaves the .docx, drops the
    PDF link and adds the warning. *)
Lemma letter_conversion_failure_tolerated
      (pf : platform) (template_name : string) (data : Subst.field_map)
      (output_prefix what msg : string) (w : world) (d d' : Docx.document) (m : string) :
  let docx_filename := output_prefix +:+ "_" +:+ uuid8 pf +:+ ".docx" in
  let pdf_filename := output_prefix +:+ "_" +:+ uuid8 pf +:+ ".pdf" in
  templates w (path_join TEMPLATES_DIR template_name) = Some (Template d) ->
  Subst.substitute data d = Returns d' ->
  save_raises pf (path_join OUTPUT_DIR docx_filename) = None ->
  convert_raises pf (path_join OUTPUT_DIR docx_filename)
                 (path_join OUTPUT_DIR pdf_filename) = Some m ->
  exists w',
    letter_endpoint pf template_name data output_prefix what msg w
    = (Returns (Response true msg ("/download/" +:+ docx_filename) None
                         (Some "PDF conversion failed, only DOCX is available"),
                [DeleteOldFiles]), w') /\
    lookup_path (path_join OUTPUT_DIR docx_filename) (outdir w')
    = Some (File (Some (DocxBody d')) (clock w) Regular false).
Proof.
  intros docx_filename pdf_filename Ht Hd Hs Hc.
  unfold letter_endpoint, try_except, bind at 1, generate_document, bind at 1.
  unfold template_exists. rewrite Ht. cbv beta iota. cbn [negb].
  unfold try_except at 1, bind at 1, load_document. rewrite Ht. cbv beta iota.
  unfold bind at 1, lift. rewrite Hd. cbv beta iota.
  unfold bind at 1, doc_save. fold docx_filename. rewrite Hs. cbv beta iota.
  unfold try_except at 1, bind at 1, convert. fold pdf_filename. rewrite Hc.
  cbv beta iota. unfold bind at 1, logger_error. cbv beta iota.
  unfold ret. cbn [docx_filename pdf_filename warning truthy]. cbv beta iota.
  eexists. split; [reflexivity|].
  cbn [outdir write_out]. apply lookup_path_written.
Qed.

End Conversion.

(** * The properties of the specification *)

(** ** C1: Cascading across keys *)

(** C1 (as stated) fails: with the field map [{A: "{{B}}", B: "X"}] in
    that order, the paragraph ["{{A}}{{B}}"] is rendered as ["XX"], not
    ["{{B}}X"], by both run-local loops and by the paragraph-level loop. *)
Lemma cascade_counterexample :
  Subst.body_paragraph [("A", Some "{{B}}"); ("B", Some "X")] [Docx.Run "{{A}}{{B}}"]
  = Returns [Docx.Run "XX"] /\
  Subst.cell_paragraph [("A", Some "{{B}}"); ("B", Some "X")] [Docx.Run "{{A}}{{B}}"]
  = Returns [Docx.Run "XX"] /\
  Subst.replace_paragraph [("{{A}}", "{{B}}"); ("{{B}}", "X")] [Docx.Run "{{A}}{{B}}"]
  = Returns [Docx.Run "XX"] /\
  Subst.body_paragraph [("A", Some "{{B}}"); ("B", Some "X")] [Docx.Run "{{A}}{{B}}"]
  <> Returns [Docx.Run "{{B}}X"] /\
  Subst.replace_paragraph [("{{A}}", "{{B}}"); ("{{B}}", "X")] [Docx.Run "{{A}}{{B}}"]
  <> Returns [Docx.Run "{{B}}X"].
Proof. repeat split; try reflexivity; vm_compute; discriminate. Qed.

(** C1 (amended): substitution is cumulative in the field map's order.
    Each key is matched against the text the keys before it have left and
    its value is then only seen by the keys after it; so [{A: "{{B}}",
    B: "X"}] renders ["{{A}}{{B}}"] as ["XX"] in both engines, and the same
    map with [B] first renders it as ["{{B}}X"]. *)
Theorem substitution_is_cumulative :
  (forall pre k v post t,
     Subst.run_pass (pre ++ (k, v) :: post) t
     = let? t1 := Subst.run_pass pre t in
       let? t2 := Subst.run_step k v t1 in
       Subst.run_pass post t2) /\
  (forall data p,
     Subst.body_paragraph data p = Subst.for_runs (Subst.run_pass data) p /\
     Subst.cell_paragraph data p = Subst.for_runs (Subst.run_pass data) p) /\
  (forall pre k v post t,
     Subst.replace_keys (pre ++ (k, v) :: post) t
     = Subst.replace_keys post (PyStr.replace k v (Subst.replace_keys pre t))) /\
  Subst.body_paragraph [("A", Some "{{B}}"); ("B", Some "X")] [Docx.Run "{{A}}{{B}}"]
  = Returns [Docx.Run "XX"] /\
  Subst.cell_paragraph [("A", Some "{{B}}"); ("B", Some "X")] [Docx.Run "{{A}}{{B}}"]
  = Returns [Docx.Run "XX"] /\
  Subst.replace_paragraph [("{{A}}", "{{B}}"); ("{{B}}", "X")] [Docx.Run "{{A}}{{B}}"]
  = Returns [Docx.Run "XX"] /\
  Subst.body_paragraph [("B", Some "X"); ("A", Some "{{B}}")] [Docx.Run "{{A}}{{B}}"]
  = Returns [Docx.Run "{{B}}X"] /\
  Subst.cell_paragraph [("B", Some "X"); ("A", Some "{{B}}")] [Docx.Run "{{A}}{{B}}"]
  = Returns [Docx.Run "{{B}}X"] /\
  Subst.replace_paragraph [("{{B}}", "X"); ("{{A}}", "{{B}}")] [Docx.Run "{{A}}{{B}}"]
  = Returns [Docx.Run "{{B}}X"].
Proof.
  split; [|split; [|split]].
  - intros pre k v post t. apply run_pass_turn.
  - intros data p. split; [apply body_paragraph_runs | apply cell_paragraph_runs].
  - intros pre k v post t. now rewrite replace_keys_app, replace_keys_cons.
  - repeat split; reflexivity.
Qed.

(** ** C2: Conversion failure *)

(** C2 (the certificate path): when the converter raises,
    [generate_certificate] has no handler around [convert]; the exception
    reaches the endpoint, which answers with a 500 carrying the converter's
    message: no .docx artifact is written and no warning is returned.  (When
    a value makes [replace_placeholders] raise before the conversion, the
    answer is a 500 with that exception's message.) *)
Theorem certificate_conversion_failure_is_an_error :
  forall (pf : platform) (data : Api.CertificateData) (w : world)
         (d : Docx.document) (m : string),
    templates w (Api.path_join Api.TEMPLATES_DIR "Certificate_Template.docx")
    = Some (Template d) ->
    save_raises pf (tmp_name pf) = None ->
    convert_raises pf (tmp_name pf)
      (Api.path_join Api.OUTPUT_DIR ("certificate_" +:+ uuid8 pf +:+ ".pdf"))
    = Some m ->
    let replacements :=
      [("{{NAME}}", Api.c_NAME data); ("{{POSITION}}", Api.c_POSITION data);
       ("{{DURATION}}", Api.c_DURATION data)] in
    exists w' detail,
      Api.generate_certificate_endpoint pf data w
      = (Raises (HTTPException 500 detail), w') /\
      outdir w' = outdir w /\
      errors w' = errors w ++ ["Error generating certificate: " +:+ detail] /\
      (forall d', Subst.replace_placeholders d replacements = Returns d' -> detail = m) /\
      (forall e, Subst.replace_placeholders d replacements = Raises e ->
                 detail = str_exn e).
Proof.
  intros pf data w d m Ht Hs Hc replacements.
  unfold Api.generate_certificate_endpoint, try_except, bind at 1.
  unfold Api.generate_certificate, bind at 1, Api.load_document at 1.
  rewrite Ht. cbv beta iota.
  unfold bind at 1, Api.lift at 1. fold replacements.
  destruct (Subst.replace_placeholders d replacements) as [d'|e] eqn:Hd; cbv beta iota.
  - unfold bind at 1, Api.doc_save_tmp. rewrite Hs. cbv beta iota.
    unfold bind at 1, Api.convert. rewrite Hc. cbv beta iota.
    unfold bind at 1, logger_error, raise. cbn [str_exn].
    exists (World (templates w) (outdir w)
                  (remove_path (tmp_name pf) (tmpdir w) ++ [(tmp_name pf, d')])
                  (clock w) (errors w ++ ["Error generating certificate: " +:+ m])), m.
    split; [reflexivity|]. split; [reflexivity|]. split; [reflexivity|].
    split; [reflexivity | discriminate].
  - unfold bind at 1, logger_error, raise.
    exists (World (templates w) (outdir w) (tmpdir w) (clock w)
                  (errors w ++ ["Error generating certificate: " +:+ str_exn e])),
           (str_exn e).
    split; [reflexivity|]. split; [reflexivity|]. split; [reflexivity|].
    split; [discriminate | now intros e' [= <-]].
Qed.

Lemma certificate_conversion_failure_is_an_error_witness :
  exists w' detail,
    Api.generate_certificate_endpoint Scenario.no_converter
      (Api.Build_CertificateData "Bob" "Intern" "3 months") Scenario.template_world
    = (Raises (HTTPException 500 detail), w') /\
    outdir w' = [] /\
    errors w' = [] ++ ["Error generating certificate: " +:+ detail] /\
    (forall d',
       Subst.replace_placeholders Scenario.certificate_template
         [("{{NAME}}", "Bob"); ("{{POSITION}}", "Intern"); ("{{DURATION}}", "3 months")]
       = Returns d' -> detail = "Word is not installed") /\
    (forall e,
       Subst.replace_placeholders Scenario.certificate_template
         [("{{NAME}}", "Bob"); ("{{POSITION}}", "Intern"); ("{{DURATION}}", "3 months")]
       = Raises e -> detail = str_exn e).
Proof.
  apply (certificate_conversion_failure_is_an_error
           Scenario.no_converter (Api.Build_CertificateData "Bob" "Intern" "3 months")
           Scenario.template_world Scenario.certificate_template
           "Word is not installed"); reflexivity.
Defined.

Example certificate_conversion_failure_scenario :
  exists w',
    Api.generate_certificate_endpoint Scenario.no_converter
      (Api.Build_CertificateData "Bob" "Intern" "3 months") Scenario.template_world
    = (Raises (HTTPException 500 "Word is not installed"), w') /\
    outdir w' = [] /\
    errors w' = ["Error generating certificate: Word is not installed"].
Proof. eexists. vm_compute. repeat split. Qed.

Example letter_conversion_failure_scenario :
  exists w',
    Api.serve (Api.generate_offer_letter Scenario.no_converter
                 (Api.Build_OfferLetterData "R1" "2024-01-01" "Bob" "" "" "" "" "Intern"
                                            "" "" "" ""))
              Scenario.template_world
    = (Returns (Api.Response true "Offer letter generated successfully"
                  "/download/offer_letter_1a2b3c4d.docx" None
                  (Some "PDF conversion failed, only DOCX is available")), w') /\
    List.map fst (outdir w') = ["generated_docs\offer_letter_1a2b3c4d.docx"].
Proof. eexists. vm_compute. split; reflexivity. Qed.

(** ** C3: Failures during the sweep *)

(** C3 (as stated) fails: of 42 files the two oldest are beyond the mark;
    the newer of the two is locked, its removal raises, the handler logs
    the failure and the sweep ends there: the oldest file, which is regular
    and removable, is still in the directory. *)
Lemma sweep_failure_counterexample :
  let w := Scenario.world_with (Scenario.directory 42 (Some 1)) in
  let w' := snd (Api.delete_old_files w) in
  fst (Api.delete_old_files w) = Returns tt /\
  errors w'
  = ["Cleanup failed: Permission denied: " +:+ Scenario.artifact_path 1] /\
  lookup_path (Scenario.artifact_path 0) (outdir w')
  = Some (File None 0 Regular false) /\
  outdir w' = outdir w.
Proof. vm_compute. repeat split. Qed.

(** C3 (amended): a deletion failure during the sweep is caught by the
    handler around the whole sweep, logged, and never reaches the caller:
    [delete_old_files] and the background tasks always return.  The failure
    ends the sweep: the failing file and every file after it in the listing
    are left as they are.  A file that is gone, or is not a regular file,
    when its turn in the removal loop comes is skipped and the loop goes on;
    one that is gone, or cannot be stat'ed, when the sort reads its
    creation time makes the sort raise, before any removal. *)
Theorem sweep_failure_is_contained :
  (forall w, exists w', Api.delete_old_files w = (Returns tt, w')) /\
  (forall ts w, exists w', Api.run_tasks ts w = (Returns tt, w')) /\
  (forall w e w1,
     Api.sweep w = (Raises e, w1) ->
     Api.delete_old_files w
     = (Returns tt,
        World (templates w1) (outdir w1) (tmpdir w1) (clock w1)
              (errors w1 ++ ["Cleanup failed: " +:+ str_exn e]))) /\
  (forall p rest w f,
     lookup_path p (outdir w) = Some f -> f_regular f = true -> f_locked f = true ->
     Api.remove_loop (p :: rest) w
     = (Raises (OSError ("Permission denied: " +:+ p)), w)) /\
  (forall p rest w,
     match lookup_path p (outdir w) with
     | Some f => f_regular f = false
     | None => True
     end ->
     Api.remove_loop (p :: rest) w = Api.remove_loop rest w) /\
  (forall w (pre : list (string * file)) p post,
     (forall q f, In (q, f) pre ->
        lookup_path q (outdir w) = Some f /\ f_stat f = true) ->
     match lookup_path p (outdir w) with
     | Some f => f_stat f = false
     | None => True
     end ->
     Api.sort_keys (List.map fst pre ++ p :: post) w
     = (Raises (OSError ("No such file: " +:+ p)), w)).
Proof.
  split; [exact delete_old_files_returns|]. split; [|split; [|split; [|split]]].
  - intros ts. induction ts as [|[] ts IH]; intros w.
    + now eexists.
    + cbn [Api.run_tasks Api.run_task]. unfold bind at 1.
      destruct (delete_old_files_returns w) as [w1 ->]. apply IH.
  - intros w e w1 H. unfold Api.delete_old_files, try_except. now rewrite H.
  - intros p rest w f. apply remove_loop_locked.
  - intros p rest w. apply remove_loop_skip.
  - intros w pre p post Hpre Hp.
    destruct (lookup_path p (outdir w)) as [f|] eqn:E.
    + now apply (sort_keys_dangling w pre p f).
    + now apply sort_keys_gone.
Qed.

Lemma sweep_failure_is_contained_witness :
  Api.remove_loop [Scenario.artifact_path 1; Scenario.artifact_path 0]
    (Scenario.world_with (Scenario.directory 2 (Some 1)))
  = (Raises (OSError ("Permission denied: " +:+ Scenario.artifact_path 1)),
     Scenario.world_with (Scenario.directory 2 (Some 1))) /\
  Api.remove_loop [Scenario.artifact_path 7; Scenario.artifact_path 0]
    (Scenario.world_with (Scenario.directory 2 None))
  = Api.remove_loop [Scenario.artifact_path 0]
      (Scenario.world_with (Scenario.directory 2 None)) /\
  errors (snd (Api.delete_old_files
                 (Scenario.world_with (Scenario.directory 42 (Some 1)))))
  = ["Cleanup failed: Permission denied: " +:+ Scenario.artifact_path 1] /\
  Api.sort_keys
    (List.map fst [(Scenario.artifact_path 0, File None 0 Regular false)]
     ++ Scenario.artifact_path 7 :: [Scenario.artifact_path 1])
    (Scenario.world_with (Scenario.directory 2 None))
  = (Raises (OSError ("No such file: " +:+ Scenario.artifact_path 7)),
     Scenario.world_with (Scenario.directory 2 None)) /\
  Api.sort_keys
    (List.map fst [(Scenario.artifact_path 0, File None 0 Regular false)]
     ++ "generated_docs\link" :: [Scenario.artifact_path 1])
    (Scenario.world_with
       (Scenario.directory 2 None ++ [("generated_docs\link", File None 5 Dangling false)]))
  = (Raises (OSError "No such file: generated_docs\link"),
     Scenario.world_with
       (Scenario.directory 2 None ++ [("generated_docs\link", File None 5 Dangling false)])).
Proof.
  destruct sweep_failure_is_contained as (_ & _ & Hlog & Hlocked & Hskip & Hgone).
  split; [|split; [|split; [|split]]].
  - apply (Hlocked _ _ _ (File None 1 Regular true)); reflexivity.
  - apply Hskip. vm_compute. exact I.
  - rewrite (Hlog (Scenario.world_with (Scenario.directory 42 (Some 1)))
               (OSError ("Permission denied: " +:+ Scenario.artifact_path 1))
               (Scenario.world_with (Scenario.directory 42 (Some 1)))).
    + reflexivity.
    + vm_compute. reflexivity.
  - apply Hgone; [|vm_compute; exact I].
    intros q f [[= <- <-]|[]]. split; reflexivity.
  - apply Hgone; [|vm_compute; reflexivity].
    intros q f [[= <- <-]|[]]. split; reflexivity.
Defined.

(** ** C4: Retention *)

Example sort_is_stable_newest_first :
  Api.sort_desc [(1, "a"); (2, "b"); (1, "c"); (3, "d"); (2, "e")]%Z
  = [(3, "d"); (2, "b"); (2, "e"); (1, "a"); (1, "c")]%Z.
Proof. reflexivity. Qed.

(** C4: the sweep orders the files of the artifact directory by creation
    time, newest first, keeps the first 40 and removes every file beyond
    that position; every file that stays is at least as new as every file
    removed, and of 46 files exactly 6 are removed and 40 remain. *)
Theorem retention_keeps_forty_newest :
  forall (w : world),
    NoDup (List.map fst (outdir w)) ->
    (forall p f, In (p, f) (outdir w) -> f_regular f = true /\ f_locked f = false) ->
    let keyed := List.map (fun e => (f_ctime (snd e), fst e)) (outdir w) in
    let sorted := Api.sort_desc keyed in
    let kept := firstn 40 sorted in
    let deleted := skipn 40 sorted in
    Permutation sorted keyed /\
    StronglySorted (fun a b => (fst b <= fst a)%Z) sorted /\
    (forall x y, In x kept -> In y deleted -> (fst y <= fst x)%Z) /\
    exists w',
      Api.delete_old_files w = (Returns tt, w') /\
      errors w' = errors w /\
      outdir w'
      = List.filter
          (fun e => negb (existsb (String.eqb (fst e)) (List.map snd deleted)))
          (outdir w) /\
      Permutation (List.map fst (outdir w')) (List.map snd kept) /\
      (length (outdir w) = 46 -> length deleted = 6 /\ length (outdir w') = 40).
Proof.
  intros w Hnd Hfiles keyed sorted kept deleted.
  assert (Hperm : Permutation sorted keyed) by apply sort_desc_perm.
  assert (Hsorted : StronglySorted (fun a b => (fst b <= fst a)%Z) sorted)
    by apply sort_desc_sorted.
  assert (Hpaths : Permutation (List.map snd sorted) (List.map fst (outdir w))).
  { rewrite Hperm. unfold keyed. rewrite map_map. reflexivity. }
  assert (Hnd_sorted : NoDup (List.map snd sorted)) by now rewrite Hpaths.
  split; [exact Hperm|]. split; [exact Hsorted|].
  split; [intros x y; now apply sorted_firstn_skipn|].
  set (w' := set_outdir
               (List.filter
                  (fun e => negb (existsb (String.eqb (fst e)) (List.map snd deleted)))
                  (outdir w)) w).
  assert (Hkept : Permutation (List.map fst (outdir w')) (List.map snd kept)).
  { unfold w', kept, deleted. cbn [outdir set_outdir].
    rewrite (map_fst_filter
               (fun q => negb (existsb (String.eqb q) (List.map snd (skipn 40 sorted))))).
    rewrite <- skipn_map, <- firstn_map.
    now apply filter_keeps_firstn. }
  exists w'. split; [|split; [reflexivity|split; [reflexivity|split; [exact Hkept|]]]].
  - unfold Api.delete_old_files, try_except, Api.sweep, bind at 1, Api.listdir_joined.
    unfold bind at 1.
    rewrite (sort_keys_listing w (outdir w))
      by (intros p f Hin; split;
          [now apply lookup_path_In | apply f_regular_stat; now apply (Hfiles p f)]).
    fold keyed. fold sorted. rewrite skipn_map. fold deleted.
    rewrite remove_loop_all; [reflexivity| |].
    + unfold deleted. rewrite <- skipn_map.
      rewrite <- (firstn_skipn 40 (List.map snd sorted)) in Hnd_sorted.
      now apply NoDup_app in Hnd_sorted as (_ & _ & ?).
    + intros p Hp.
      assert (Hin : In p (List.map fst (outdir w))).
      { apply (Permutation_in _ Hpaths). unfold deleted in Hp.
        rewrite <- skipn_map in Hp.
        rewrite <- (firstn_skipn 40 (List.map snd sorted)). apply in_or_app. now right. }
      apply in_map_iff in Hin as ([q f] & <- & Hin).
      exists f. split; [now apply lookup_path_In | now apply (Hfiles q f)].
  - intros Hlen.
    assert (Hls : length sorted = 46).
    { rewrite (Permutation_length Hperm). unfold keyed. now rewrite length_map. }
    assert (Hd : length deleted = 6) by (unfold deleted; rewrite length_skipn; lia).
    split; [exact Hd|].
    rewrite <- (length_map fst), (Permutation_length Hkept), length_map.
    unfold kept. rewrite length_firstn. lia.
Qed.

Lemma retention_keeps_forty_newest_witness :
  exists w',
    Api.delete_old_files (Scenario.world_with (Scenario.directory 46 None))
    = (Returns tt, w') /\
    List.map fst (outdir w') = List.map Scenario.artifact_path (seq 6 40) /\
    length (outdir w') = 40.
Proof.
  destruct (retention_keeps_forty_newest
              (Scenario.world_with (Scenario.directory 46 None)))
    as (_ & _ & _ & w' & Hrun & _ & Hout & _ & Hlen).
  - apply (bool_decide_unpack _). vm_compute. exact I.
  - intros p f Hin. apply in_map_iff in Hin as (i & [= <- <-] & _). now split.
  - exists w'. split; [exact Hrun|]. split.
    + rewrite Hout. vm_compute. reflexivity.
    + apply Hlen. reflexivity.
Defined.

(** ** C5: Run-local substitution *)

(** A table cell spanning two grid columns is listed twice by [row.cells]
    and its paragraphs are rendered twice: the value of [A] meets the key
    [B] on the second visit. *)
Example merged_cell_is_rendered_twice :
  Subst.substitute [("B", Some "X"); ("A", Some "{{B}}")]
    (Docx.Document [[Docx.Run "{{A}}"]] [Docx.Table [[[Docx.Run "{{A}}"]]] [[0; 0]]])
  = Returns (Docx.Document [[Docx.Run "{{B}}"]] [Docx.Table [[[Docx.Run "X"]]] [[0; 0]]]).
Proof. reflexivity. Qed.

(** C5 (as stated) fails: the token of the key [X}}{{X] lies within the
    run ["{{X}}{{X}}"], yet it is not replaced, the key [X] before it
    having rewritten the text; and with a value XML cannot hold the token
    [{{NAME}}] within a run is not replaced either: the assignment raises. *)
Lemma run_local_counterexample :
  PyStr.contains (Subst.placeholder "X}}{{X") "{{X}}{{X}}" = true /\
  Subst.body_paragraph [("X", Some "v"); ("X}}{{X", Some "w")] [Docx.Run "{{X}}{{X}}"]
  = Returns [Docx.Run "vv"] /\
  Subst.cell_paragraph [("X", Some "v"); ("X}}{{X", Some "w")] [Docx.Run "{{X}}{{X}}"]
  = Returns [Docx.Run "vv"] /\
  PyStr.contains (Subst.placeholder "NAME") "Dear {{NAME}}" = true /\
  Subst.body_paragraph [("NAME", Some Scenario.with_nul)] [Docx.Run "Dear {{NAME}}"]
  = Raises (ValueError Docx.XML_ERROR) /\
  Subst.cell_paragraph [("NAME", Some Scenario.with_nul)] [Docx.Run "Dear {{NAME}}"]
  = Raises (ValueError Docx.XML_ERROR) /\
  Subst.substitute [("NAME", Some Scenario.with_nul)]
    (Docx.Document [[Docx.Run "Dear {{NAME}}"]] [])
  = Raises (ValueError Docx.XML_ERROR).
Proof. repeat split; reflexivity. Qed.

(** C5 (amended): under the run-local strategy every run of every
    paragraph, at top level and in table cells, is rendered from its own
    text alone, key by key.  When a key's turn comes its token is replaced
    exactly when it is a literal substring of the text the run then reads:
    the run is assigned the text with every occurrence found by the
    left-to-right scan replaced by the value, which it stores with carriage
    returns as line feeds, or the assignment raises [ValueError] when that
    text holds a character XML cannot hold.  A token lying in the run of
    the template is still there at its key's turn, names being free of
    braces and of carriage returns.  A run that holds no whole token (the
    pieces of a token split across runs) comes out unchanged, and a
    paragraph none of whose runs holds one is returned as it is; the loops
    return for values and runs that hold only characters XML can hold. *)
Theorem run_local_token_within_one_run :
  (forall data doc,
     Subst.substitute data doc
     = Whole.every_paragraph (Subst.for_runs (Subst.run_pass data)) doc) /\
  (forall data p,
     Subst.body_paragraph data p = Subst.for_runs (Subst.run_pass data) p /\
     Subst.cell_paragraph data p = Subst.for_runs (Subst.run_pass data) p) /\
  (forall pre k v post t,
     Subst.run_pass (pre ++ (k, v) :: post) t
     = let? t1 := Subst.run_pass pre t in
       let? t2 := Subst.run_step k v t1 in
       Subst.run_pass post t2) /\
  (forall k v t,
     ((exists a b, t = a +:+ Subst.placeholder k +:+ b) /\
      Subst.run_step k v t
      = Docx.set_text (PyStr.replace (Subst.placeholder k) (Subst.str_value v) t)) \/
     (~ (exists a b, t = a +:+ Subst.placeholder k +:+ b) /\
      Subst.run_step k v t = Returns t)) /\
  (forall k v t i,
     PyStr.find (Subst.placeholder k) t = Some i ->
     PyStr.replace (Subst.placeholder k) v t
     = PyStr.take i t +:+ v +:+
       PyStr.replace (Subst.placeholder k) v
         (PyStr.drop (i + String.length (Subst.placeholder k)) t)) /\
  (forall k v t,
     PyStr.find (Subst.placeholder k) t = None ->
     PyStr.replace (Subst.placeholder k) v t = t) /\
  (forall s,
     (Docx.xml_compatible s = true /\ Docx.set_text s = Returns (Docx.stored s)) \/
     (Docx.xml_compatible s = false /\
      Docx.set_text s = Raises (ValueError Docx.XML_ERROR))) /\
  (forall pre k v post t t1,
     Tokens.brace_free k = true -> Docx.stored k = k ->
     (forall k' v', In (k', v') pre -> Tokens.brace_free k' = true /\ k' <> k) ->
     PyStr.contains (Subst.placeholder k) t = true ->
     Subst.run_pass pre t = Returns t1 ->
     PyStr.contains (Subst.placeholder k) t1 = true /\
     Subst.run_pass (pre ++ (k, v) :: post) t
     = let? t2 := Docx.set_text
                    (PyStr.replace (Subst.placeholder k) (Subst.str_value v) t1) in
       Subst.run_pass post t2) /\
  (forall data (p p' : list Docx.inline) i r,
     nth_error (Docx.runs p) i = Some r ->
     (forall k v, In (k, v) data -> PyStr.contains (Subst.placeholder k) r = false) ->
     Subst.body_paragraph data p = Returns p' \/ Subst.cell_paragraph data p = Returns p' ->
     nth_error (Docx.runs p') i = Some r) /\
  (forall data (p : list Docx.inline),
     (forall r k v, In r (Docx.runs p) -> In (k, v) data ->
                    PyStr.contains (Subst.placeholder k) r = false) ->
     Subst.body_paragraph data p = Returns p /\ Subst.cell_paragraph data p = Returns p) /\
  (forall data doc,
     (forall k v, In (k, v) data -> Docx.xml_compatible (Subst.str_value v) = true) ->
     (forall p r, In p (Whole.all_paragraphs doc) -> In r (Docx.runs p) ->
                  Docx.xml_compatible r = true) ->
     exists doc', Subst.substitute data doc = Returns doc') /\
  Subst.substitute [("NAME", Some "Bob")]
    (Docx.Document [[Docx.Run "Dear {{NAME}},"; Docx.Run "{{NA"; Docx.Run "ME}}"]]
                   [Docx.Table [[[Docx.Run "{{NAME}} and {{NAME}}"]]] [[0]]])
  = Returns
      (Docx.Document [[Docx.Run "Dear Bob,"; Docx.Run "{{NA"; Docx.Run "ME}}"]]
                     [Docx.Table [[[Docx.Run "Bob and Bob"]]] [[0]]]).
Proof.
  split; [exact substitute_every|].
  split; [intros data p; split; [apply body_paragraph_runs | apply cell_paragraph_runs]|].
  split; [intros pre k v post t; apply run_pass_turn|].
  split.
  { intros k v t. unfold Subst.run_step.
    destruct (PyStr.contains (Subst.placeholder k) t) eqn:E.
    - left. split; [now apply contains_true_inv | reflexivity].
    - right. split; [|reflexivity]. intros H.
      apply contains_true_iff in H. congruence. }
  split.
  { intros k v t i Hf. apply replace_at_find; [apply placeholder_nonempty | exact Hf]. }
  split.
  { intros k v t Hf. apply replace_absent. now apply find_none_iff. }
  split.
  { intros s. unfold Docx.set_text. destruct (Docx.xml_compatible s); [left | right];
      now split. }
  split.
  { intros pre k v post t t1 Hk Hs Hpre Hc Hr.
    assert (Hc1 : PyStr.contains (Subst.placeholder k) t1 = true)
      by now apply (run_pass_keeps_token pre k t t1).
    split; [exact Hc1|].
    rewrite run_pass_turn, Hr. cbn [obind]. now rewrite run_step_present. }
  split.
  { intros data p p' i r Hi Hno H.
    rewrite body_paragraph_runs, cell_paragraph_runs in H.
    assert (H' : Subst.for_runs (Subst.run_pass data) p = Returns p') by now destruct H.
    destruct (for_runs_nth _ p p' i r H' Hi) as (r' & Hr' & Hp).
    rewrite run_pass_absent in Hp by exact Hno. now injection Hp as <-. }
  split.
  { intros data p H. rewrite body_paragraph_runs, cell_paragraph_runs.
    assert (E : Subst.for_runs (Subst.run_pass data) p = Returns p).
    { apply for_runs_id. intros r Hr. apply run_pass_absent.
      intros k v Hkv. now apply (H r k v). }
    now split. }
  split; [exact substitute_returns | reflexivity].
Qed.

(** The token [{{NAME}}] split over two runs is in the paragraph text and
    is left alone; within one run it is replaced when its turn comes. *)
Lemma run_local_token_within_one_run_witness :
  PyStr.contains (Subst.placeholder "NAME")
                 (Docx.text [Docx.Run "Dear {{NA"; Docx.Run "ME}},"]) = true /\
  Subst.body_paragraph [("NAME", Some "Bob")] [Docx.Run "Dear {{NA"; Docx.Run "ME}},"]
  = Returns [Docx.Run "Dear {{NA"; Docx.Run "ME}},"] /\
  Subst.cell_paragraph [("NAME", Some "Bob")] [Docx.Run "Dear {{NA"; Docx.Run "ME}},"]
  = Returns [Docx.Run "Dear {{NA"; Docx.Run "ME}},"] /\
  nth_error (Docx.runs [Docx.Run "Bob {{NA"; Docx.Run "ME}}"]) 1 = Some "ME}}" /\
  PyStr.replace (Subst.placeholder "NAME") "Bob" "Dear {{NAME}}, {{NAME}}"
  = PyStr.take 5 "Dear {{NAME}}, {{NAME}}" +:+ "Bob" +:+
    PyStr.replace (Subst.placeholder "NAME") "Bob"
      (PyStr.drop (5 + String.length (Subst.placeholder "NAME"))
                  "Dear {{NAME}}, {{NAME}}") /\
  (PyStr.contains (Subst.placeholder "NAME") "{{{{NAME}}" = true /\
   Subst.run_pass ([("A", Some "{{")] ++ ("NAME", Some "Bob") :: []) "{{A}}{{NAME}}"
   = let? t2 := Docx.set_text
                  (PyStr.replace (Subst.placeholder "NAME")
                                 (Subst.str_value (Some "Bob")) "{{{{NAME}}") in
     Subst.run_pass [] t2) /\
  exists doc',
    Subst.substitute [("NAME", Some "Bob")]
      (Docx.Document [[Docx.Run "{{NAME}}"]] []) = Returns doc'.
Proof.
  split; [reflexivity|].
  destruct run_local_token_within_one_run
    as (_ & _ & _ & _ & Hhit & _ & _ & Hkept & Hrun & Hsplit & Hret & _).
  split; [|split; [|split; [|split; [|split]]]].
  - apply Hsplit. intros r k v [<-|[<-|[]]] [[= <- <-]|[]]; reflexivity.
  - apply Hsplit. intros r k v [<-|[<-|[]]] [[= <- <-]|[]]; reflexivity.
  - apply (Hrun [("NAME", Some "Bob")] [Docx.Run "{{NAME}} {{NA"; Docx.Run "ME}}"]
                [Docx.Run "Bob {{NA"; Docx.Run "ME}}"] 1 "ME}}"); [reflexivity| |].
    + intros k v [[= <- <-]|[]]. reflexivity.
    + left. reflexivity.
  - apply (Hhit "NAME" "Bob" "Dear {{NAME}}, {{NAME}}" 5). reflexivity.
  - apply (Hkept [("A", Some "{{")] "NAME" (Some "Bob") [] "{{A}}{{NAME}}" "{{{{NAME}}");
      try reflexivity.
    intros k' v' [[= <- <-]|[]]. split; [reflexivity | discriminate].
  - apply (Hret [("NAME", Some "Bob")] (Docx.Document [[Docx.Run "{{NAME}}"]] [])).
    + intros k v [[= <- <-]|[]]. reflexivity.
    + intros p r [<-|[]] [<-|[]]. reflexivity.
Defined.

(** ** C6: Paragraph-level substitution *)

(** C6 (as stated) fails, with the keys the certificate passes: a value
    with a carriage return is stored with a line feed, so the text of the
    collapsed paragraph is not the substituted string; a value XML cannot
    hold makes the assignment to the first run raise; and a paragraph whose
    token lies in a hyperlink, with no run to carry the text, makes
    [para.runs[0]] raise. *)
Lemma collapse_counterexample :
  Subst.replace_paragraph [("{{NAME}}", Scenario.two_lines_cr)] [Docx.Run "Dear {{NAME}}"]
  = Returns [Docx.Run ("Dear " +:+ Scenario.two_lines_lf)] /\
  Docx.text [Docx.Run ("Dear " +:+ Scenario.two_lines_lf)]
  <> Subst.replace_keys [("{{NAME}}", Scenario.two_lines_cr)]
                        (Docx.text [Docx.Run "Dear {{NAME}}"]) /\
  Subst.replace_paragraph [("{{NAME}}", Scenario.with_nul)]
                          [Docx.Run "Dear "; Docx.Run "{{NAME}}"]
  = Raises (ValueError Docx.XML_ERROR) /\
  Subst.replace_keys [("{{NAME}}", "Bob")] (Docx.text [Docx.Hyperlink "{{NAME}}"])
  <> Docx.text [Docx.Hyperlink "{{NAME}}"] /\
  Subst.replace_paragraph [("{{NAME}}", "Bob")] [Docx.Hyperlink "{{NAME}}"]
  = Raises (IndexError "list index out of range") /\
  Subst.replace_placeholders
    (Docx.Document [] [Docx.Table [[[Docx.Run "{{NAME}}"]]] [[0]]])
    [("{{NAME}}", Scenario.with_nul)]
  = Raises (ValueError Docx.XML_ERROR).
Proof. repeat split; try reflexivity; vm_compute; discriminate. Qed.

(** C6 (amended): in [replace_placeholders], a paragraph (top-level or in
    a table cell) whose concatenated text is left unchanged by all the
    replacements is returned as it was.  One whose text changes and that
    has at least one run has every run emptied and the first run assigned
    the substituted text: when that text holds only characters XML can
    hold, the first run reads it with carriage returns as line feeds, every
    other run reads empty and the hyperlinks stay, so that the text of a
    paragraph without hyperlinks is the stored substituted text (the
    substituted string itself when it has no carriage return); otherwise
    the assignment raises [ValueError].  One whose text changes and that
    has no run raises [IndexError]; with non-empty keys the text of a
    paragraph without runs and without text does not change.  A cell that
    the rows of its table list once has each paragraph treated so once. *)
Theorem paragraph_level_untouched_or_collapsed :
  forall (items : Subst.replacements),
    (forall para : list Docx.inline,
       let t' := Subst.replace_keys items (Docx.text para) in
       (t' = Docx.text para -> Subst.replace_paragraph items para = Returns para) /\
       (t' <> Docx.text para ->
        forall r rest, Docx.runs para = r :: rest ->
          let para' :=
            Docx.with_runs para (Docx.stored t' :: List.map (fun _ => "") rest) in
          (Docx.xml_compatible t' = true ->
             Subst.replace_paragraph items para = Returns para' /\
             Docx.runs para' = Docx.stored t' :: List.map (fun _ => "") rest /\
             Whole.layout para' = Whole.layout para /\
             (Whole.plain para -> Docx.text para' = Docx.stored t') /\
             (Whole.plain para -> Docx.stored t' = t' -> Docx.text para' = t')) /\
          (Docx.xml_compatible t' = false ->
             Subst.replace_paragraph items para = Raises (ValueError Docx.XML_ERROR))) /\
       (t' <> Docx.text para -> Docx.runs para = [] ->
        Subst.replace_paragraph items para
        = Raises (IndexError "list index out of range"))) /\
    ((forall kv, In kv items -> fst kv <> "") ->
     forall para, Docx.runs para = [] -> Docx.text para = "" ->
       Subst.replace_keys items (Docx.text para) = Docx.text para /\
       Subst.replace_paragraph items para = Returns para) /\
    (forall doc doc',
       Subst.replace_placeholders doc items = Returns doc' ->
       Forall2 (fun p p' => Subst.replace_paragraph items p = Returns p')
               (Docx.paragraphs doc) (Docx.paragraphs doc') /\
       Forall2 (fun t t' =>
                  Docx.rows t' = Docx.rows t /\
                  Docx.for_rows (Subst.replace_paragraph items) (Docx.rows t) (Docx.cells t)
                  = Returns (Docx.cells t') /\
                  (List.NoDup (concat (Docx.rows t)) ->
                   forall i c, Docx.cells t !! i = Some c ->
                     exists c', Docx.cells t' !! i = Some c' /\
                       (In i (concat (Docx.rows t)) ->
                        Forall2 (fun p p' => Subst.replace_paragraph items p = Returns p')
                                c c') /\
                       (~ In i (concat (Docx.rows t)) -> c' = c)))
               (Docx.tables doc) (Docx.tables doc')).
Proof.
  intros items. split; [|split].
  - intros para t'. split; [|split].
    + intros H. now apply replace_paragraph_unchanged.
    + intros H r rest Hr para'. split.
      * intros Hx.
        assert (Hlen : length (Docx.stored t' :: List.map (fun _ : string => "") rest)
                       = length (Docx.runs para)).
        { rewrite Hr. cbn [length]. now rewrite length_map. }
        split; [|split; [|split; [|split]]].
        -- rewrite (replace_paragraph_changed items para r rest H Hr).
           fold t'. unfold Docx.set_text. now rewrite Hx.
        -- now apply runs_with_runs.
        -- apply layout_with_runs.
        -- intros Hp. now apply (text_collapsed para (Docx.stored t') r rest).
        -- intros Hp Hs. unfold para'. rewrite Hs.
           now apply (text_collapsed para t' r rest).
      * intros Hx. rewrite (replace_paragraph_changed items para r rest H Hr).
        fold t'. unfold Docx.set_text. now rewrite Hx.
    + intros H Hr. now apply replace_paragraph_no_first_run.
  - intros Hk para Hr Ht.
    assert (E : Subst.replace_keys items (Docx.text para) = Docx.text para)
      by (rewrite Ht; now apply replace_keys_empty_text).
    split; [exact E | now apply replace_paragraph_unchanged].
  - intros doc doc' H. rewrite replace_placeholders_every in H.
    apply every_paragraph_Forall2 in H as [Hp Ht]. split; [exact Hp|].
    eapply Forall2_impl; [exact Ht|]. intros t t' Htt.
    apply for_table_rows in Htt as [Hrows Hcells].
    split; [exact Hrows|]. split; [exact Hcells|].
    intros Hnd i c Hi.
    destruct (for_rows_once _ _ _ _ Hcells Hnd i c Hi) as (c' & Hc' & Hin & Hout).
    exists c'. split; [exact Hc'|]. split; [|exact Hout].
    intros Hi'. apply for_each_Forall2. now apply Hin.
Qed.

(** A token split over three runs is substituted and the runs collapse; a
    paragraph without a token keeps its runs. *)
Lemma paragraph_level_untouched_or_collapsed_witness :
  Subst.replace_paragraph [("{{NAME}}", "Bob")] [Docx.Run "plain "; Docx.Run "text"]
  = Returns [Docx.Run "plain "; Docx.Run "text"] /\
  (Subst.replace_paragraph [("{{NAME}}", "Bob")]
     [Docx.Run "Dear {{"; Docx.Run "NAME"; Docx.Run "}},"]
   = Returns [Docx.Run "Dear Bob,"; Docx.Run ""; Docx.Run ""] /\
   Docx.text [Docx.Run "Dear Bob,"; Docx.Run ""; Docx.Run ""] = "Dear Bob,") /\
  Subst.replace_paragraph [("{{NAME}}", Scenario.with_nul)]
     [Docx.Run "Dear {{"; Docx.Run "NAME"; Docx.Run "}},"]
  = Raises (ValueError Docx.XML_ERROR) /\
  Subst.replace_paragraph [("{{NAME}}", "Bob")] [] = Returns [] /\
  Forall2 (fun p p' => Subst.replace_paragraph [("{{NAME}}", "Bob")] p = Returns p')
          [[Docx.Run "{{NAME}}"]] [[Docx.Run "Bob"]].
Proof.
  destruct (paragraph_level_untouched_or_collapsed [("{{NAME}}", "Bob")])
    as (Hp & Hnil & Hd).
  destruct (paragraph_level_untouched_or_collapsed [("{{NAME}}", Scenario.with_nul)])
    as (Hp' & _ & _).
  split; [|split; [|split; [|split]]].
  - apply (Hp [Docx.Run "plain "; Docx.Run "text"]). reflexivity.
  - destruct (Hp [Docx.Run "Dear {{"; Docx.Run "NAME"; Docx.Run "}},"]) as (_ & H & _).
    destruct (H ltac:(vm_compute; discriminate) "Dear {{" ["NAME"; "}},"] eq_refl)
      as [Hok _].
    destruct (Hok eq_refl) as (Hret & _ & _ & _ & Htext).
    split; [exact Hret | apply Htext; reflexivity].
  - destruct (Hp' [Docx.Run "Dear {{"; Docx.Run "NAME"; Docx.Run "}},"]) as (_ & H & _).
    destruct (H ltac:(vm_compute; discriminate) "Dear {{" ["NAME"; "}},"] eq_refl)
      as [_ Hbad].
    apply Hbad. reflexivity.
  - apply (Hnil ltac:(intros kv [<-|[]]; discriminate) []); reflexivity.
  - apply (Hd (Docx.Document [[Docx.Run "{{NAME}}"]] [])
              (Docx.Document [[Docx.Run "Bob"]] [])).
    reflexivity.
Defined.

(** ** C7: Keys without a token, tokens without a key *)

(** C7 (as stated) fails on a cascade: the token of [B] occurs nowhere in
    the template ["{{A}}"], yet with [{A: "{{B}}", B: v}] the output is [v],
    so it depends on the value of [B]; and with a key whose name holds
    braces, the tokens [{{A}}] and [{{B}}] of the template, absent from the
    map, are not left in the output. *)
Lemma absent_key_counterexample :
  PyStr.contains (Subst.placeholder "B") (Docx.text [Docx.Run "{{A}}"]) = false /\
  Subst.body_paragraph [("A", Some "{{B}}"); ("B", Some "X")] [Docx.Run "{{A}}"]
  = Returns [Docx.Run "X"] /\
  Subst.body_paragraph [("A", Some "{{B}}"); ("B", Some "Y")] [Docx.Run "{{A}}"]
  = Returns [Docx.Run "Y"] /\
  Subst.replace_paragraph [("{{A}}", "{{B}}"); ("{{B}}", "X")] [Docx.Run "{{A}}"]
  = Returns [Docx.Run "X"] /\
  Subst.replace_paragraph [("{{A}}", "{{B}}"); ("{{B}}", "Y")] [Docx.Run "{{A}}"]
  = Returns [Docx.Run "Y"] /\
  Subst.body_paragraph [("A}}{{B", Some "x")] [Docx.Run "{{A}}{{B}}"]
  = Returns [Docx.Run "x"].
Proof. repeat split; reflexivity. Qed.

(** A token whose name holds a carriage return does not come back as it
    was from a run that another key rewrites. *)
Example carriage_return_in_a_token :
  Subst.body_paragraph [("X", Some "w")]
    [Docx.Run (Subst.placeholder (String Docx.CR "") +:+ "{{X}}")]
  = Returns [Docx.Run (Subst.placeholder (String Docx.LF "") +:+ "w")] /\
  PyStr.contains (Subst.placeholder (String Docx.CR ""))
                 (Subst.placeholder (String Docx.LF "") +:+ "w") = false.
Proof. split; reflexivity. Qed.

(** C7 (amended): under both engines a key whose token is not in the text
    when the key's turn comes (not in the template and not produced by the
    keys before it) changes nothing and raises nothing: the outcome is the
    one of the map without that key, whatever its value.  A token [{{K}}]
    lying in a run (run-local engine) or in a paragraph's text
    (paragraph-level engine), whose name is not a key of the map, is still
    there in what the engine returns, names being free of braces and [K] of
    carriage returns; and the engines return when the texts they assign
    hold only characters XML can hold (and, for the paragraph-level engine,
    the paragraph has a run). *)
Theorem absent_keys_and_absent_tokens :
  (forall pre k v post (p : list Docx.inline),
     (forall r t, In r (Docx.runs p) -> Subst.run_pass pre r = Returns t ->
        PyStr.contains (Subst.placeholder k) t = false) ->
     Subst.body_paragraph (pre ++ (k, v) :: post) p = Subst.body_paragraph (pre ++ post) p /\
     Subst.cell_paragraph (pre ++ (k, v) :: post) p = Subst.cell_paragraph (pre ++ post) p) /\
  (forall pre k v post (para : list Docx.inline),
     PyStr.contains k (Subst.replace_keys pre (Docx.text para)) = false ->
     Subst.replace_paragraph (pre ++ (k, v) :: post) para
     = Subst.replace_paragraph (pre ++ post) para) /\
  (forall data K (p p' : list Docx.inline) i r,
     Tokens.brace_free K = true -> Docx.stored K = K ->
     (forall k v, In (k, v) data -> Tokens.brace_free k = true /\ k <> K) ->
     nth_error (Docx.runs p) i = Some r ->
     PyStr.contains (Subst.placeholder K) r = true ->
     Subst.body_paragraph data p = Returns p' \/ Subst.cell_paragraph data p = Returns p' ->
     exists r',
       nth_error (Docx.runs p') i = Some r' /\
       PyStr.contains (Subst.placeholder K) r' = true) /\
  (forall items K (para para' : list Docx.inline),
     Tokens.brace_free K = true -> Docx.stored K = K ->
     (forall key value, In (key, value) items ->
        exists J, key = Subst.placeholder J /\ Tokens.brace_free J = true /\ J <> K) ->
     PyStr.contains (Subst.placeholder K) (Docx.text para) = true ->
     Subst.replace_paragraph items para = Returns para' ->
     PyStr.contains (Subst.placeholder K) (Docx.text para') = true) /\
  (forall data (p : list Docx.inline),
     (forall k v, In (k, v) data -> Docx.xml_compatible (Subst.str_value v) = true) ->
     (forall r, In r (Docx.runs p) -> Docx.xml_compatible r = true) ->
     exists p',
       Subst.body_paragraph data p = Returns p' /\
       Subst.cell_paragraph data p = Returns p') /\
  (forall items (para : list Docx.inline),
     Docx.runs para <> [] ->
     Docx.xml_compatible (Subst.replace_keys items (Docx.text para)) = true ->
     exists para', Subst.replace_paragraph items para = Returns para').
Proof.
  split; [|split; [|split; [|split; [|split]]]].
  - intros pre k v post p H. rewrite !body_paragraph_runs, !cell_paragraph_runs.
    assert (E : Subst.for_runs (Subst.run_pass (pre ++ (k, v) :: post)) p
                = Subst.for_runs (Subst.run_pass (pre ++ post)) p).
    { apply for_runs_ext. intros r Hr. apply run_pass_skip_key.
      intros t Ht. now apply (H r t). }
    now rewrite E.
  - intros pre k v post para H. unfold Subst.replace_paragraph.
    now rewrite (replace_keys_skip_key pre post k v _ H).
  - intros data K p p' i r HK Hs Hkeys Hi Hc H.
    rewrite body_paragraph_runs, cell_paragraph_runs in H.
    assert (H' : Subst.for_runs (Subst.run_pass data) p = Returns p') by now destruct H.
    destruct (for_runs_nth _ p p' i r H' Hi) as (r' & Hr' & Hp).
    exists r'. split; [exact Hr'|]. now apply (run_pass_keeps_token data K r r').
  - intros items K para para' HK Hs Hkeys Hc H.
    assert (Hc' : PyStr.contains (Subst.placeholder K)
                    (Subst.replace_keys items (Docx.text para)) = true)
      by now apply replace_keys_keeps_token.
    apply replace_paragraph_returned in H
      as [[_ ->]|(_ & _ & r & rest & Hr & ->)]; [exact Hc|].
    apply (contains_run_text _ _ (Docx.stored (Subst.replace_keys items (Docx.text para)))).
    + rewrite runs_with_runs; [now left|].
      rewrite Hr. cbn [length]. now rewrite length_map.
    + rewrite <- Hs at 1. rewrite <- stored_placeholder. now apply contains_stored.
  - intros data p Hv Hr. rewrite body_paragraph_runs, cell_paragraph_runs.
    destruct (for_runs_run_pass_returns data p Hv Hr) as (p' & Hp' & _).
    now exists p'.
  - intros items para Hr Hx.
    destruct (String.eqb_spec (Subst.replace_keys items (Docx.text para)) (Docx.text para))
      as [E|E].
    + exists para. now apply replace_paragraph_unchanged.
    + destruct (Docx.runs para) as [|r rest] eqn:Hr'; [congruence|].
      eexists. rewrite (replace_paragraph_changed items para r rest E Hr').
      unfold Docx.set_text. rewrite Hx. reflexivity.
Qed.

Lemma absent_keys_and_absent_tokens_witness :
  Subst.body_paragraph ([("A", Some "x")] ++ ("B", Some "unused") :: [("C", None)])
                       [Docx.Run "{{A}} and "; Docx.Run "{{C}}"]
  = Subst.body_paragraph ([("A", Some "x")] ++ [("C", None)])
                         [Docx.Run "{{A}} and "; Docx.Run "{{C}}"] /\
  Subst.replace_paragraph ([] ++ ("{{B}}", "unused") :: [("{{A}}", "x")])
                          [Docx.Run "{{A"; Docx.Run "}}"]
  = Subst.replace_paragraph ([] ++ [("{{A}}", "x")]) [Docx.Run "{{A"; Docx.Run "}}"] /\
  (exists r',
     nth_error (Docx.runs [Docx.Run "Dear {{"; Docx.Run "}} {{REF}} {{"]) 1 = Some r' /\
     PyStr.contains (Subst.placeholder "REF") r' = true) /\
  PyStr.contains (Subst.placeholder "REF")
                 (Docx.text [Docx.Run "Bob {{REF}}"; Docx.Run ""]) = true /\
  (exists p',
     Subst.body_paragraph [("NAME", Some "Bob")] [Docx.Run "{{NAME}}"] = Returns p' /\
     Subst.cell_paragraph [("NAME", Some "Bob")] [Docx.Run "{{NAME}}"] = Returns p') /\
  (exists para',
     Subst.replace_paragraph [("{{NAME}}", "Bob")] [Docx.Run "{{NA"; Docx.Run "ME}}"]
     = Returns para').
Proof.
  destruct absent_keys_and_absent_tokens as (H1 & H2 & H3 & H4 & H5 & H6).
  split; [|split; [|split; [|split; [|split]]]].
  - apply (H1 [("A", Some "x")] "B" (Some "unused") [("C", None)]).
    intros r t [<-|[<-|[]]] [= <-]; reflexivity.
  - apply (H2 [] "{{B}}" "unused" [("{{A}}", "x")]). reflexivity.
  - apply (H3 [("NAME", Some "{{"); ("DATE", Some "}}")] "REF"
              [Docx.Run "Dear {{NAME}}"; Docx.Run "{{DATE}} {{REF}} {{NAME}}"]
              [Docx.Run "Dear {{"; Docx.Run "}} {{REF}} {{"] 1
              "{{DATE}} {{REF}} {{NAME}}"); try reflexivity.
    + intros k v [[= <- <-]|[[= <- <-]|[]]]; (split; [reflexivity | discriminate]).
    + left. reflexivity.
  - apply (H4 [("{{NAME}}", "Bob")] "REF" [Docx.Run "{{NAME}} {{R"; Docx.Run "EF}}"]
              [Docx.Run "Bob {{REF}}"; Docx.Run ""]); try reflexivity.
    intros key value [[= <- <-]|[]]. exists "NAME".
    split; [reflexivity|]. split; [reflexivity | discriminate].
  - apply (H5 [("NAME", Some "Bob")] [Docx.Run "{{NAME}}"]).
    + intros k v [[= <- <-]|[]]. reflexivity.
    + intros r [<-|[]]. reflexivity.
  - apply (H6 [("{{NAME}}", "Bob")] [Docx.Run "{{NA"; Docx.Run "ME}}"]);
      [discriminate | reflexivity].
Defined.

(** ** C8: Rendering twice *)

(** C8 (as stated) fails: the value [""] holds nothing placeholder-shaped,
    yet the run ["{{{{A}}A}}"] is rendered as ["{{A}}"], which a second
    rendering turns into [""]; the same for the paragraph-level engine. *)
Lemma idempotence_counterexample :
  Subst.body_paragraph [("A", Some "")] [Docx.Run "{{{{A}}A}}"]
  = Returns [Docx.Run "{{A}}"] /\
  Subst.body_paragraph [("A", Some "")] [Docx.Run "{{A}}"] = Returns [Docx.Run ""] /\
  Subst.cell_paragraph [("A", Some "")] [Docx.Run "{{{{A}}A}}"]
  = Returns [Docx.Run "{{A}}"] /\
  Subst.cell_paragraph [("A", Some "")] [Docx.Run "{{A}}"] = Returns [Docx.Run ""] /\
  Subst.replace_paragraph [("{{A}}", "")] [Docx.Run "{{{{A}}A}}"]
  = Returns [Docx.Run "{{A}}"] /\
  Subst.replace_paragraph [("{{A}}", "")] [Docx.Run "{{A}}"] = Returns [Docx.Run ""].
Proof. repeat split; reflexivity. Qed.

(** A carriage return in the template becomes a line feed when its run is
    rewritten, and then completes the token of a key that did not match
    before; a hyperlink keeps its text, which the collapsed first run
    repeats. *)
Example second_rendering_differs :
  Subst.body_paragraph [(String Docx.LF "", Some "v"); ("X", Some "w")]
    [Docx.Run (Subst.placeholder (String Docx.CR "") +:+ "{{X}}")]
  = Returns [Docx.Run (Subst.placeholder (String Docx.LF "") +:+ "w")] /\
  Subst.body_paragraph [(String Docx.LF "", Some "v"); ("X", Some "w")]
    [Docx.Run (Subst.placeholder (String Docx.LF "") +:+ "w")]
  = Returns [Docx.Run "vw"] /\
  Subst.replace_paragraph [("{{A}}", "y")] [Docx.Run "{{A}} "; Docx.Hyperlink "{{A}}"]
  = Returns [Docx.Run "y y"; Docx.Hyperlink "{{A}}"] /\
  Subst.replace_paragraph [("{{A}}", "y")] [Docx.Run "y y"; Docx.Hyperlink "{{A}}"]
  = Returns [Docx.Run "y yy"; Docx.Hyperlink "{{A}}"].
Proof. repeat split; reflexivity. Qed.

(** C8 (amended): rendering is idempotent whenever the first rendering
    leaves no key's token in what it produced: in no run for the run-local
    engine, in the paragraph's text for the paragraph-level engine.  That is
    the case when key names and values are free of braces and every brace
    of the text (of each run, resp. of a paragraph without hyperlinks)
    belongs to a whole token [{{NAME}}] with a brace-free name, the text
    holding no carriage return; and both renderings return when the values
    and the text hold only characters XML can hold (and, for the
    paragraph-level engine, the paragraph has a run). *)
Theorem rendering_twice :
  (forall data (p p' : list Docx.inline),
     Subst.body_paragraph data p = Returns p' \/ Subst.cell_paragraph data p = Returns p' ->
     (forall r k v, In r (Docx.runs p') -> In (k, v) data ->
        PyStr.contains (Subst.placeholder k) r = false) ->
     Subst.body_paragraph data p' = Returns p' /\
     Subst.cell_paragraph data p' = Returns p') /\
  (forall items (para para' : list Docx.inline),
     Subst.replace_paragraph items para = Returns para' ->
     (forall k v, In (k, v) items -> PyStr.contains k (Docx.text para') = false) ->
     Subst.replace_paragraph items para' = Returns para') /\
  (forall data (gss : list (list Tokens.segment)) (p p' : list Docx.inline),
     (forall k v, In (k, v) data ->
        Tokens.brace_free k = true /\ Tokens.brace_free (Subst.str_value v) = true) ->
     (forall gs, In gs gss ->
        Tokens.well_formed gs = true /\
        Docx.stored (Tokens.flatten gs) = Tokens.flatten gs) ->
     Docx.runs p = List.map Tokens.flatten gss ->
     Subst.body_paragraph data p = Returns p' \/ Subst.cell_paragraph data p = Returns p' ->
     Subst.body_paragraph data p' = Returns p' /\
     Subst.cell_paragraph data p' = Returns p') /\
  (forall data gs (para para' : list Docx.inline),
     (forall k v, In (k, v) data ->
        Tokens.brace_free k = true /\ Tokens.brace_free (Subst.str_value v) = true) ->
     Tokens.well_formed gs = true ->
     Docx.stored (Tokens.flatten gs) = Tokens.flatten gs ->
     Whole.plain para ->
     Docx.text para = Tokens.flatten gs ->
     let items :=
       List.map (fun kv => (Subst.placeholder (fst kv), Subst.str_value (snd kv))) data in
     Subst.replace_paragraph items para = Returns para' ->
     Subst.replace_paragraph items para' = Returns para') /\
  (forall data (para : list Docx.inline),
     (forall k v, In (k, v) data -> Docx.xml_compatible (Subst.str_value v) = true) ->
     Docx.runs para <> [] ->
     Docx.xml_compatible (Docx.text para) = true ->
     let items :=
       List.map (fun kv => (Subst.placeholder (fst kv), Subst.str_value (snd kv))) data in
     (exists p', Subst.body_paragraph data para = Returns p') /\
     (exists para', Subst.replace_paragraph items para = Returns para')).
Proof.
  assert (Hidem : forall data (p' : list Docx.inline),
            (forall r k v, In r (Docx.runs p') -> In (k, v) data ->
               PyStr.contains (Subst.placeholder k) r = false) ->
            Subst.body_paragraph data p' = Returns p' /\
            Subst.cell_paragraph data p' = Returns p').
  { intros data p' H. rewrite body_paragraph_runs, cell_paragraph_runs.
    assert (E : Subst.for_runs (Subst.run_pass data) p' = Returns p').
    { apply for_runs_id. intros r Hr. apply run_pass_absent.
      intros k v Hkv. now apply (H r k v). }
    now split. }
  split; [|split; [|split; [|split]]].
  - intros data p p' _ H. now apply Hidem.
  - intros items para para' Hret Hno.
    apply replace_paragraph_unchanged. now apply replace_keys_absent.
  - intros data gss p p' Hdata Hwf Hruns H. apply Hidem.
    rewrite body_paragraph_runs, cell_paragraph_runs in H.
    assert (H' : Subst.for_runs (Subst.run_pass data) p = Returns p') by now destruct H.
    apply for_runs_returns in H' as [HF _]. rewrite Hruns in HF.
    intros r' k v Hr' Hkv.
    assert (Hsrc : exists gs, In gs gss /\
                     Subst.run_pass data (Tokens.flatten gs) = Returns r').
    { clear -HF Hr'. remember (List.map Tokens.flatten gss) as l eqn:El.
      revert gss El. induction HF as [|x x' l l' Hx _ IH]; intros gss El; [destruct Hr'|].
      destruct gss as [|gs gss]; [discriminate|]. cbn [List.map] in El.
      injection El as -> ->. destruct Hr' as [<-|Hr'].
      - exists gs. split; [now left | exact Hx].
      - destruct (IH Hr' gss eq_refl) as (g & Hg & Hp). exists g. split; [now right | exact Hp]. }
    destruct Hsrc as (gs & Hgs & Hp). destruct (Hwf gs Hgs) as [Hw Hs].
    now apply (run_pass_no_tokens data gs r' Hdata Hw Hs Hp k v).
  - intros data gs para para' Hdata Hwf Hs Hplain Htext items H.
    fold (Whole.braced data) in items.
    apply replace_paragraph_returned in H
      as [[E ->]|(_ & _ & r & rest & Hr & ->)]; [now apply replace_paragraph_unchanged|].
    apply replace_paragraph_unchanged.
    rewrite (text_collapsed para _ r rest Hplain Hr).
    apply replace_keys_absent. intros k v Hin.
    apply in_map_iff in Hin as ([k0 v0] & [= <- <-] & Hin). cbn [fst snd].
    unfold items. rewrite replace_keys_named, Htext.
    now apply (stored_text_pass_no_tokens data gs Hdata Hwf Hs k0 v0).
  - intros data para Hv Hr Hx items. split.
    + rewrite body_paragraph_runs.
      destruct (for_runs_run_pass_returns data para Hv) as (p' & Hp' & _); [|now exists p'].
      intros r Hin. now apply (xml_compatible_run para).
    + fold (Whole.braced data) in items.
      destruct (String.eqb_spec (Subst.replace_keys items (Docx.text para)) (Docx.text para))
        as [E|E].
      * exists para. now apply replace_paragraph_unchanged.
      * destruct (Docx.runs para) as [|r rest] eqn:Hr'; [congruence|].
        eexists. rewrite (replace_paragraph_changed items para r rest E Hr').
        unfold items at 1. rewrite replace_keys_named.
        unfold Docx.set_text. rewrite xml_compatible_text_pass by assumption.
        reflexivity.
Qed.

Lemma rendering_twice_witness :
  (Subst.body_paragraph [("NAME", Some "Bob")] [Docx.Run "Bob, {{NA"; Docx.Run "ME}}"]
   = Returns [Docx.Run "Bob, {{NA"; Docx.Run "ME}}"] /\
   Subst.cell_paragraph [("NAME", Some "Bob")] [Docx.Run "Bob, {{NA"; Docx.Run "ME}}"]
   = Returns [Docx.Run "Bob, {{NA"; Docx.Run "ME}}"]) /\
  Subst.replace_paragraph [("{{NAME}}", "Bob")] [Docx.Run "Bob"] = Returns [Docx.Run "Bob"] /\
  (Subst.body_paragraph [("NAME", Some "Bob"); ("DATE", None)]
     [Docx.Run "Bob {{REF}}"; Docx.Hyperlink "x"; Docx.Run ""]
   = Returns [Docx.Run "Bob {{REF}}"; Docx.Hyperlink "x"; Docx.Run ""] /\
   Subst.cell_paragraph [("NAME", Some "Bob"); ("DATE", None)]
     [Docx.Run "Bob {{REF}}"; Docx.Hyperlink "x"; Docx.Run ""]
   = Returns [Docx.Run "Bob {{REF}}"; Docx.Hyperlink "x"; Docx.Run ""]) /\
  Subst.replace_paragraph
    (List.map (fun kv => (Subst.placeholder (fst kv), Subst.str_value (snd kv)))
              [("NAME", Some Scenario.two_lines_cr)])
    [Docx.Run (Scenario.two_lines_lf +:+ "!"); Docx.Run ""]
  = Returns [Docx.Run (Scenario.two_lines_lf +:+ "!"); Docx.Run ""] /\
  (exists para',
     Subst.replace_paragraph
       (List.map (fun kv => (Subst.placeholder (fst kv), Subst.str_value (snd kv)))
                 [("NAME", Some "Bob")])
       [Docx.Run "{{NA"; Docx.Run "ME}}!"] = Returns para').
Proof.
  destruct rendering_twice as (H1 & H2 & H3 & H4 & H5).
  split; [|split; [|split; [|split]]].
  - apply (H1 [("NAME", Some "Bob")] [Docx.Run "{{NAME}}, {{NA"; Docx.Run "ME}}"]).
    + left. reflexivity.
    + intros r k v [<-|[<-|[]]] [[= <- <-]|[]]; reflexivity.
  - apply (H2 [("{{NAME}}", "Bob")] [Docx.Run "{{NAME}}"] [Docx.Run "Bob"]); [reflexivity|].
    intros k v [[= <- <-]|[]]. reflexivity.
  - apply (H3 [("NAME", Some "Bob"); ("DATE", None)]
              [[Tokens.Tok "NAME"; Tokens.Lit " "; Tokens.Tok "REF"]; [Tokens.Tok "DATE"]]
              [Docx.Run "{{NAME}} {{REF}}"; Docx.Hyperlink "x"; Docx.Run "{{DATE}}"]).
    + intros k v [[= <- <-]|[[= <- <-]|[]]]; split; reflexivity.
    + intros gs [<-|[<-|[]]]; split; reflexivity.
    + reflexivity.
    + left. reflexivity.
  - apply (H4 [("NAME", Some Scenario.two_lines_cr)]
              [Tokens.Tok "NAME"; Tokens.Lit "!"]
              [Docx.Run "{{NA"; Docx.Run "ME}}!"]); try reflexivity.
    intros k v [[= <- <-]|[]]; split; reflexivity.
  - apply (H5 [("NAME", Some "Bob")] [Docx.Run "{{NA"; Docx.Run "ME}}!"]);
      try reflexivity.
    + intros k v [[= <- <-]|[]]. reflexivity.
    + discriminate.
Defined.

(** ** C9: Raw keys of the paragraph-level engine *)




(** ** C10: Paragraphs without runs *)

(** C10 (as stated) fails: a paragraph whose only content is a hyperlink
    has no run, yet its text holds the token of the hyperlink; the text
    changes and [para.runs[0]] raises, with the keys of the certificate. *)
Lemma run_less_counterexample :
  Docx.runs [Docx.Hyperlink "{{NAME}}"] = [] /\
  Docx.text [Docx.Hyperlink "{{NAME}}"] = "{{NAME}}" /\
  Subst.replace_keys
    [("{{NAME}}", "Bob"); ("{{POSITION}}", "Intern"); ("{{DURATION}}", "3 months")]
    (Docx.text [Docx.Hyperlink "{{NAME}}"]) = "Bob" /\
  Subst.replace_placeholders (Docx.Document [[Docx.Hyperlink "{{NAME}}"]] [])
    [("{{NAME}}", "Bob"); ("{{POSITION}}", "Intern"); ("{{DURATION}}", "3 months")]
  = Raises (IndexError "list index out of range").
Proof. repeat split; reflexivity. Qed.

(** C10 (amended): with a replacement map whose keys are all non-empty,
    [replace_placeholders] never reaches [para.runs[0]] on a paragraph
    without runs whose text is empty: no non-empty key changes the empty
    text.  [IndexError] is raised exactly on a paragraph without runs
    whose text changes, that is one whose text lies in hyperlinks; on a
    document without such paragraphs the call raises nothing but the
    [ValueError] of a text XML cannot hold, and returns when the texts and
    the values hold only characters XML can hold. *)
Theorem no_first_run_access_without_runs :
  forall (items : Subst.replacements),
    (forall kv, In kv items -> fst kv <> "") ->
    (forall para, Docx.runs para = [] -> Docx.text para = "" ->
       Subst.replace_keys items (Docx.text para) = Docx.text para /\
       Subst.replace_paragraph items para = Returns para) /\
    (forall para,
       Whole.grounded para ->
       Subst.replace_keys items (Docx.text para) <> Docx.text para ->
       exists r rest, Docx.runs para = r :: rest) /\
    (forall para e,
       Subst.replace_paragraph items para = Raises e ->
       (Docx.runs para = [] /\ Docx.text para <> "" /\
        e = IndexError "list index out of range") \/
       (Docx.runs para <> [] /\ e = ValueError Docx.XML_ERROR)) /\
    (forall doc e,
       (forall p, In p (Whole.all_paragraphs doc) -> Whole.grounded p) ->
       Subst.replace_placeholders doc items = Raises e ->
       e = ValueError Docx.XML_ERROR) /\
    (forall doc,
       (forall kv, In kv items -> Docx.xml_compatible (snd kv) = true) ->
       (forall p, In p (Whole.all_paragraphs doc) ->
          Whole.grounded p /\ Docx.xml_compatible (Docx.text p) = true) ->
       exists doc', Subst.replace_placeholders doc items = Returns doc').
Proof.
  intros items Hk. split; [|split; [|split; [|split]]].
  - intros para Hr Ht.
    assert (E : Subst.replace_keys items (Docx.text para) = Docx.text para)
      by (rewrite Ht; now apply replace_keys_empty_text).
    split; [exact E | now apply replace_paragraph_unchanged].
  - intros para. now apply grounded_changed.
  - intros para e H. apply replace_paragraph_raised in H as [Hne [[Hr ->]|(Hr & _ & ->)]].
    + left. split; [exact Hr|]. split; [|reflexivity].
      intros Ht. apply Hne. rewrite Ht. now apply replace_keys_empty_text.
    + right. now split.
  - intros doc e. now apply replace_placeholders_grounded_raises.
  - intros doc Hv Hdoc. now apply replace_placeholders_returns.
Qed.

Lemma no_first_run_access_without_runs_witness :
  Subst.replace_paragraph
    [("{{NAME}}", "Bob"); ("{{POSITION}}", "Intern"); ("{{DURATION}}", "3 months")] []
  = Returns [] /\
  (exists r rest, Docx.runs [Docx.Hyperlink "to "; Docx.Run "{{NAME}}"] = r :: rest) /\
  exists doc',
    Subst.replace_placeholders
      (Docx.Document [[]; [Docx.Run "{{NAME}}"]]
         [Docx.Table [[[]; [Docx.Run "{{"; Docx.Hyperlink "x"; Docx.Run "POSITION}}"]]]
                     [[0; 0]]])
      [("{{NAME}}", "Bob"); ("{{POSITION}}", "Intern"); ("{{DURATION}}", "3 months")]
    = Returns doc'.
Proof.
  assert (Hk : forall kv : string * string,
             In kv [("{{NAME}}", "Bob"); ("{{POSITION}}", "Intern");
                    ("{{DURATION}}", "3 months")] -> fst kv <> "").
  { intros kv [<-|[<-|[<-|[]]]]; discriminate. }
  destruct (no_first_run_access_without_runs _ Hk) as (H0 & Hrun & _ & _ & Hdoc).
  split; [|split].
  - apply (H0 []); reflexivity.
  - apply Hrun; [discriminate | vm_compute; discriminate].
  - apply Hdoc.
    + intros kv [<-|[<-|[<-|[]]]]; reflexivity.
    + intros p [<-|[<-|[<-|[<-|[]]]]]; (split; [|reflexivity]);
        intros Hr; try reflexivity; discriminate.
Defined.

(** * Further properties of the code *)

(** ** Whole documents *)

(** X1: neither engine changes the layout of a document it returns: the
    paragraphs, the tables with their cells and the cells their rows list,
    the places of the runs and the hyperlinks of every paragraph are the
    same after [generate_document]'s loops and after
    [replace_placeholders]. *)
Theorem layout_is_preserved :
  (forall data doc doc',
     Subst.substitute data doc = Returns doc' -> Whole.shape doc' = Whole.shape doc) /\
  (forall items doc doc',
     Subst.replace_placeholders doc items = Returns doc' ->
     Whole.shape doc' = Whole.shape doc).
Proof.
  split.
  - intros data doc doc' H. rewrite substitute_every in H.
    apply (every_paragraph_shape (Subst.for_runs (Subst.run_pass data))); [|exact H].
    intros p p'. apply for_runs_layout.
  - intros items doc doc' H. rewrite replace_placeholders_every in H.
    apply (every_paragraph_shape (Subst.replace_paragraph items)); [|exact H].
    intros p p'. apply replace_paragraph_layout.
Qed.

Lemma layout_is_preserved_witness :
  Whole.shape (Docx.Document [[Docx.Run "Bob"; Docx.Hyperlink "x"; Docx.Run ""; Docx.Run ""]]
                             [Docx.Table [[[Docx.Run "x"]; []]] [[0; 0]]])
  = Whole.shape (Docx.Document
                   [[Docx.Run "{{NA"; Docx.Hyperlink "x"; Docx.Run "ME"; Docx.Run "}}"]]
                   [Docx.Table [[[Docx.Run "x"]; []]] [[0; 0]]]).
Proof.
  apply (proj2 layout_is_preserved [("{{NA", "Bob"); ("xME}}", "")]). reflexivity.
Defined.

(** X2: a document in which no key's token occurs comes back as it is: from
    the run-local loops when no run holds a token, from
    [replace_placeholders], which then cannot raise, when no paragraph's
    text holds a key; so an empty field map changes nothing in either. *)
Theorem unmentioned_document_is_unchanged :
  (forall data doc,
     (forall p r k v, In p (Whole.all_paragraphs doc) -> In r (Docx.runs p) ->
                      In (k, v) data ->
                      PyStr.contains (Subst.placeholder k) r = false) ->
     Subst.substitute data doc = Returns doc) /\
  (forall items doc,
     (forall p k v, In p (Whole.all_paragraphs doc) -> In (k, v) items ->
                    PyStr.contains k (Docx.text p) = false) ->
     Subst.replace_placeholders doc items = Returns doc) /\
  (forall doc,
     Subst.substitute [] doc = Returns doc /\
     Subst.replace_placeholders doc [] = Returns doc).
Proof.
  assert (H1 : forall data doc,
     (forall p r k v, In p (Whole.all_paragraphs doc) -> In r (Docx.runs p) ->
                      In (k, v) data ->
                      PyStr.contains (Subst.placeholder k) r = false) ->
     Subst.substitute data doc = Returns doc).
  { intros data doc H. rewrite substitute_every. apply every_paragraph_id.
    intros p Hp. apply for_runs_id. intros r Hr. apply run_pass_absent.
    intros k v Hkv. now apply (H p r k v). }
  assert (H2 : forall items doc,
     (forall p k v, In p (Whole.all_paragraphs doc) -> In (k, v) items ->
                    PyStr.contains k (Docx.text p) = false) ->
     Subst.replace_placeholders doc items = Returns doc).
  { intros items doc H. rewrite replace_placeholders_every. apply every_paragraph_id.
    intros p Hp. apply replace_paragraph_unchanged, replace_keys_absent.
    intros k v Hkv. now apply (H p k v). }
  split; [exact H1|]. split; [exact H2|].
  intros doc. split; [apply H1 | apply H2]; intros; contradiction.
Qed.

Lemma unmentioned_document_is_unchanged_witness :
  Subst.substitute [("NAME", Some "Bob")]
    (Docx.Document [[Docx.Run "{{NA"; Docx.Run "ME}}"]]
                   [Docx.Table [[[Docx.Hyperlink "{{NAME}}"]]] [[0]]])
  = Returns (Docx.Document [[Docx.Run "{{NA"; Docx.Run "ME}}"]]
                           [Docx.Table [[[Docx.Hyperlink "{{NAME}}"]]] [[0]]]) /\
  Subst.replace_placeholders
    (Docx.Document [[]; [Docx.Run "Dear {{N}}"]] [Docx.Table [[[Docx.Run "x"]]] [[0]]])
    [("{{NAME}}", "Bob")]
  = Returns (Docx.Document [[]; [Docx.Run "Dear {{N}}"]]
                           [Docx.Table [[[Docx.Run "x"]]] [[0]]]).
Proof.
  destruct unmentioned_document_is_unchanged as (H1 & H2 & _). split.
  - apply H1. intros p r k v [<-|[<-|[]]]; intros Hr [[= <- <-]|[]];
      repeat (destruct Hr as [<-|Hr]; [reflexivity|]); destruct Hr.
  - apply H2. intros p k v [<-|[<-|[<-|[]]]]; intros [[= <- <-]|[]]; reflexivity.
Defined.

(** X3: on names and values in braces the paragraph-level engine computes
    what the run-local pass computes on the paragraph's text taken as one
    run, for texts and values that a run stores as they are (no character
    XML cannot hold, no carriage return): the two engines agree on every
    paragraph of one run, the per-run pass returns the text of the
    paragraph [replace_placeholders] returns for a paragraph without
    hyperlinks, and the paragraph-level engine returns for a paragraph with
    a run. *)
Theorem engines_agree_on_merged_text :
  forall data,
    (forall k v, In (k, v) data -> Whole.clean (Subst.str_value v)) ->
    (forall r,
       Whole.clean r ->
       Subst.replace_paragraph (Whole.braced data) [Docx.Run r]
       = Subst.body_paragraph data [Docx.Run r] /\
       Subst.body_paragraph data [Docx.Run r]
       = Returns [Docx.Run (Tokens.text_pass data r)]) /\
    (forall para para',
       Whole.plain para -> Whole.clean (Docx.text para) ->
       Subst.replace_paragraph (Whole.braced data) para = Returns para' ->
       Subst.run_pass data (Docx.text para) = Returns (Docx.text para')) /\
    (forall para,
       Docx.runs para <> [] -> Whole.clean (Docx.text para) ->
       exists para', Subst.replace_paragraph (Whole.braced data) para = Returns para').
Proof.
  intros data Hv. split; [|split].
  - intros r Hr. destruct (run_pass_clean data r Hv Hr) as [Hpass [Hx Hs]].
    assert (Hb : Subst.body_paragraph data [Docx.Run r]
                 = Returns [Docx.Run (Tokens.text_pass data r)]).
    { rewrite body_paragraph_runs. unfold Subst.for_runs. cbn [Docx.runs for_each].
      rewrite Hpass. reflexivity. }
    split; [|exact Hb]. rewrite Hb.
    assert (Et : Docx.text [Docx.Run r] = r)
      by (rewrite text_cons, text_nil; apply sapp_nil_r).
    destruct (String.eqb_spec (Tokens.text_pass data r) r) as [E|E].
    + rewrite replace_paragraph_unchanged; [now rewrite E|].
      now rewrite replace_keys_named, Et.
    + rewrite (replace_paragraph_changed _ [Docx.Run r] r []);
        [|now rewrite replace_keys_named, Et | reflexivity].
      rewrite replace_keys_named, Et. unfold Docx.set_text. rewrite Hx, Hs. reflexivity.
  - intros para para' Hplain Hc H.
    destruct (run_pass_clean data (Docx.text para) Hv Hc) as [Hpass [Hx Hs]].
    rewrite Hpass. f_equal.
    apply replace_paragraph_returned in H
      as [[E ->]|(_ & _ & r & rest & Hr & ->)]; rewrite replace_keys_named in *.
    + exact E.
    + rewrite (text_collapsed para _ r rest Hplain Hr). now rewrite Hs.
  - intros para Hr Hc.
    destruct (run_pass_clean data (Docx.text para) Hv Hc) as [_ [Hx _]].
    destruct (String.eqb_spec (Subst.replace_keys (Whole.braced data) (Docx.text para))
                              (Docx.text para)) as [E|E].
    + exists para. now apply replace_paragraph_unchanged.
    + destruct (Docx.runs para) as [|r rest] eqn:Hr'; [congruence|].
      eexists. rewrite (replace_paragraph_changed _ para r rest E Hr').
      rewrite replace_keys_named. unfold Docx.set_text. rewrite Hx. reflexivity.
Qed.

Lemma engines_agree_on_merged_text_witness :
  Subst.run_pass [("NAME", Some "Bob")]
                 (Docx.text [Docx.Run "Dear {{"; Docx.Run "NAME"; Docx.Run "}},"])
  = Returns (Docx.text [Docx.Run "Dear Bob,"; Docx.Run ""; Docx.Run ""]).
Proof.
  assert (Hv : forall k v, In (k, v) [("NAME", Some "Bob")] ->
                           Whole.clean (Subst.str_value v)).
  { intros k v [[= <- <-]|[]]. split; reflexivity. }
  apply (proj1 (proj2 (engines_agree_on_merged_text [("NAME", Some "Bob")] Hv))
           [Docx.Run "Dear {{"; Docx.Run "NAME"; Docx.Run "}},"]).
  - reflexivity.
  - split; reflexivity.
  - reflexivity.
Defined.

(** ** More on the retention sweep *)

Section SweepEffects.
Import Api.

Lemma filter_key_insert_desc (k : Z) (x : Z * string) (l : list (Z * string)) :
  List.filter (fun y => (fst y =? k)%Z) (insert_desc x l)
  = if (fst x =? k)%Z then x :: List.filter (fun y => (fst y =? k)%Z) l
    else List.filter (fun y => (fst y =? k)%Z) l.
Proof.
  induction l as [|y l IH]; [reflexivity|]. cbn [insert_desc].
  destruct (Z.ltb_spec (fst x) (fst y)) as [Hlt|Hge]; [|reflexivity].
  cbn [List.filter]. rewrite IH.
  destruct (Z.eqb_spec (fst y) k) as [Ey|Ey], (Z.eqb_spec (fst x) k) as [Ex|Ex];
    try reflexivity. lia.
Qed.

Lemma lookup_path_in_fst {A} (p : string) (d : list (string * A)) :
  In p (List.map fst d) -> exists a, lookup_path p d = Some a.
Proof.
  induction d as [|[q a] d IH]; intros H; [destruct H|]. simpl.
  destruct (String.eqb_spec p q) as [->|Hne]; [now eexists|].
  destruct H as [H|H]; [simpl in H; congruence | now apply IH].
Qed.

Lemma lookup_path_remove_same {A} (p : string) (d : list (string * A)) :
  lookup_path p (remove_path p d) = None.
Proof.
  induction d as [|[q a] d IH]; [reflexivity|]. unfold remove_path in *. simpl.
  destruct (String.eqb_spec p q) as [->|Hne]; simpl; [exact IH|].
  destruct (String.eqb_spec p q); [congruence | exact IH].
Qed.

(** What the removal loop can do to a path: nothing, or remove it when it
    is listed and is a removable regular file. *)
Lemma remove_loop_effect (old_files : list string) (w : world) :
  let w' := snd (remove_loop old_files w) in
  templates w' = templates w /\ tmpdir w' = tmpdir w /\ clock w' = clock w /\
  errors w' = errors w /\
  forall p,
    lookup_path p (outdir w') = lookup_path p (outdir w) \/
    (In p old_files /\ lookup_path p (outdir w') = None /\
     exists f, lookup_path p (outdir w) = Some f /\
               f_regular f = true /\ f_locked f = false).
Proof.
  revert w. induction old_files as [|q rest IH]; intros w w'.
  - subst w'. simpl. repeat split; auto.
  - subst w'. destruct (lookup_path q (outdir w)) as [f|] eqn:Hq.
    + destruct (f_regular f) eqn:Hr.
      * destruct (f_locked f) eqn:Hk.
        -- rewrite (remove_loop_locked q rest w f Hq Hr Hk). simpl. repeat split; auto.
        -- rewrite (remove_loop_remove q rest w f Hq Hr Hk).
           destruct (IH (set_outdir (remove_path q (outdir w)) w))
             as (H1 & H2 & H3 & H4 & H5).
           cbn [templates tmpdir clock errors outdir set_outdir] in H1, H2, H3, H4, H5.
           repeat split; auto. intros p.
           destruct (String.eqb_spec p q) as [->|Hne].
           ++ right. split; [now left|].
              destruct (H5 q) as [E|(_ & _ & g & Hg & _)].
              ** rewrite lookup_path_remove_same in E. split; [exact E|]. now exists f.
              ** rewrite lookup_path_remove_same in Hg. discriminate.
           ++ destruct (H5 p) as [E|(Hin & E & g & Hg & Hgr)].
              ** left. now rewrite E, lookup_path_remove_ne.
              ** right. split; [now right|]. split; [exact E|].
                 exists g. now rewrite lookup_path_remove_ne in Hg.
      * rewrite remove_loop_skip by now rewrite Hq.
        destruct (IH w) as (H1 & H2 & H3 & H4 & H5). repeat split; auto.
        intros p. destruct (H5 p) as [E|(Hin & E)]; [now left|].
        right. split; [now right | exact E].
    + rewrite remove_loop_skip by now rewrite Hq.
      destruct (IH w) as (H1 & H2 & H3 & H4 & H5). repeat split; auto.
      intros p. destruct (H5 p) as [E|(Hin & E)]; [now left|].
      right. split; [now right | exact E].
Qed.

(** The task when the sort returns, and when it raises. *)
Lemma delete_old_files_sorted (w : world) (keyed : list (Z * string)) :
  sort_keys (List.map fst (outdir w)) w = (Returns keyed, w) ->
  delete_old_files w
  = let (o, w1) := remove_loop (List.skipn 40 (List.map snd (sort_desc keyed))) w in
    match o with
    | Returns a => (Returns a, w1)
    | Raises e => logger_error ("Cleanup failed: " +:+ str_exn e) w1
    end.
Proof.
  intros Hk. unfold delete_old_files, try_except, sweep, bind at 1, listdir_joined.
  unfold bind at 1. now rewrite Hk.
Qed.

Lemma delete_old_files_unsorted (w : world) (m : string) :
  sort_keys (List.map fst (outdir w)) w = (Raises (OSError m), w) ->
  delete_old_files w
  = (Returns tt, World (templates w) (outdir w) (tmpdir w) (clock w)
                       (errors w ++ ["Cleanup failed: " +:+ m])).
Proof.
  intros Hk. unfold delete_old_files, try_except, sweep, bind at 1, listdir_joined.
  unfold bind at 1. now rewrite Hk.
Qed.

(** The same for the whole task, whatever fails in it. *)
Lemma delete_old_files_effect (w : world) :
  let w' := snd (delete_old_files w) in
  templates w' = templates w /\ tmpdir w' = tmpdir w /\ clock w' = clock w /\
  forall p,
    lookup_path p (outdir w') = lookup_path p (outdir w) \/
    (exists keyed,
       fst (sort_keys (List.map fst (outdir w)) w) = Returns keyed /\
       In p (List.skipn 40 (List.map snd (sort_desc keyed))) /\
       lookup_path p (outdir w') = None /\
       exists f, lookup_path p (outdir w) = Some f /\
                 f_regular f = true /\ f_locked f = false).
Proof.
  destruct (sort_keys_cases (List.map fst (outdir w)) w) as [(keyed & Hk & Hmap)|(m & Hk)].
  - rewrite (delete_old_files_sorted w keyed Hk).
    pose proof (remove_loop_effect (List.skipn 40 (List.map snd (sort_desc keyed))) w) as H.
    destruct (remove_loop (List.skipn 40 (List.map snd (sort_desc keyed))) w)
      as [[[]|e] w1]; cbn [snd] in H |- *.
    + destruct H as (H1 & H2 & H3 & _ & H5). repeat split; auto.
      intros p. destruct (H5 p) as [E|(Hin & E & Hf)]; [now left|].
      right. exists keyed. rewrite Hk. now repeat split.
    + destruct H as (H1 & H2 & H3 & _ & H5). unfold logger_error.
      cbn [snd templates tmpdir clock outdir]. repeat split; auto.
      intros p. destruct (H5 p) as [E|(Hin & E & Hf)]; [now left|].
      right. exists keyed. rewrite Hk. now repeat split.
  - rewrite (delete_old_files_unsorted w m Hk). cbn [snd templates tmpdir clock outdir].
    repeat split; auto.
Qed.


(** Without failures: what is left is the part of the listing before the mark. *)
Lemma sweep_clean (w : world) :
  NoDup (List.map fst (outdir w)) ->
  (forall p f, In (p, f) (outdir w) -> f_regular f = true /\ f_locked f = false) ->
  exists w',
    delete_old_files w = (Returns tt, w') /\
    templates w' = templates w /\ tmpdir w' = tmpdir w /\ clock w' = clock w /\
    errors w' = errors w /\
    (exists g, outdir w' = List.filter g (outdir w)) /\
    length (outdir w') = Nat.min 40 (length (outdir w)).
Proof.
  intros Hnd Hfiles.
  set (keyed := List.map (fun e => (f_ctime (snd e), fst e)) (outdir w)).
  set (sorted := sort_desc keyed).
  assert (Hperm : Permutation sorted keyed) by apply sort_desc_perm.
  assert (Hpaths : Permutation (List.map snd sorted) (List.map fst (outdir w))).
  { rewrite Hperm. unfold keyed. rewrite map_map. reflexivity. }
  assert (Hnd_sorted : NoDup (List.map snd sorted)) by now rewrite Hpaths.
  set (g := fun e : string * file =>
              negb (existsb (String.eqb (fst e)) (List.skipn 40 (List.map snd sorted)))).
  exists (set_outdir (List.filter g (outdir w)) w).
  split; [|repeat split; try reflexivity].
  - unfold delete_old_files, try_except, sweep, bind at 1, listdir_joined.
    unfold bind at 1.
    rewrite (sort_keys_listing w (outdir w))
      by (intros p f Hin; split;
          [now apply lookup_path_In | apply f_regular_stat; now apply (Hfiles p f)]).
    fold keyed. fold sorted.
    rewrite remove_loop_all; [reflexivity| |].
    + rewrite <- (firstn_skipn 40 (List.map snd sorted)) in Hnd_sorted.
      now apply NoDup_app in Hnd_sorted as (_ & _ & ?).
    + intros p Hp.
      assert (Hin : In p (List.map fst (outdir w))).
      { apply (Permutation_in _ Hpaths).
        rewrite <- (firstn_skipn 40 (List.map snd sorted)). apply in_or_app. now right. }
      apply in_map_iff in Hin as ([q f] & <- & Hin).
      exists f. split; [now apply lookup_path_In | now apply (Hfiles q f)].
  - now exists g.
  - cbn [outdir set_outdir]. subst g.
    rewrite <- (length_map fst (List.filter _ _)).
    rewrite (map_fst_filter
               (fun q => negb (existsb (String.eqb q) (List.skipn 40 (List.map snd sorted))))).
    rewrite (Permutation_length (filter_keeps_firstn 40 _ _ Hnd_sorted Hpaths)).
    rewrite length_firstn, length_map, (Permutation_length Hperm).
    unfold keyed. now rewrite length_map.
Qed.


End SweepEffects.

(** The sort of the sweep is stable: files with the same creation time
    keep the order of the directory listing. *)
Lemma sort_desc_is_stable :
  forall (l : list (Z * string)) (k : Z),
    List.filter (fun x => (fst x =? k)%Z) (Api.sort_desc l)
    = List.filter (fun x => (fst x =? k)%Z) l.
Proof.
  intros l k. induction l as [|x l IH]; [reflexivity|].
  cbn [Api.sort_desc]. rewrite filter_key_insert_desc, IH. reflexivity.
Qed.



(** A link whose target is gone, among three entries: the sort raises and
    the handler logs it. *)
Example sweep_meets_a_dangling_link :
  Api.delete_old_files
    (Scenario.world_with
       (Scenario.directory 2 None ++ [("generated_docs\link", File None 5 Dangling false)]))
  = (Returns tt,
     World (fun _ => None)
           (Scenario.directory 2 None ++ [("generated_docs\link", File None 5 Dangling false)])
           [] 100 ["Cleanup failed: No such file: generated_docs\link"]).
Proof. vm_compute. reflexivity. Qed.

Section SweepCounting.
Import Api.

Lemma NoDup_map_same {A B} (f : A -> B) (l : list A) (x y : A) :
  NoDup (List.map f l) -> In x l -> In y l -> f x = f y -> x = y.
Proof.
  induction l as [|a l IH]; intros Hnd Hx Hy E; [destruct Hx|].
  simpl in Hnd. apply NoDup_cons in Hnd as [Ha Hnd].
  destruct Hx as [->|Hx], Hy as [->|Hy]; auto.
  - exfalso. apply Ha. apply list_elem_of_In. rewrite E. now apply in_map.
  - exfalso. apply Ha. apply list_elem_of_In. rewrite <- E. now apply in_map.
Qed.

Lemma filter_length_In {A} (g : A -> bool) (l : list A) (x : A) :
  In x l -> g x = true -> 1 <= length (List.filter g l).
Proof.
  intros Hx Hg. assert (H : In x (List.filter g l)) by now apply filter_In.
  destruct (List.filter g l); [destruct H | simpl; lia].
Qed.

(** A path beyond the mark has at least [n] other entries at least as new. *)
Lemma beyond_mark_count (l : list (Z * string)) (x : Z * string) (n : nat) :
  NoDup (List.map snd l) -> In x l ->
  In (snd x) (List.skipn n (List.map snd (sort_desc l))) ->
  n < length (List.filter (fun y => (fst x <=? fst y)%Z) l).
Proof.
  intros Hnd Hx Hin.
  pose proof (sort_desc_perm l) as Hperm.
  pose proof (sort_desc_sorted l) as Hsorted.
  rewrite <- (Permutation_length (Permutation_filter _ _ _ Hperm)).
  rewrite skipn_map in Hin. apply in_map_iff in Hin as (y & Ey & Hy).
  assert (Hyl : In y l).
  { apply (Permutation_in _ Hperm).
    rewrite <- (firstn_skipn n (sort_desc l)). apply in_or_app. now right. }
  assert (y = x) by (apply (NoDup_map_same snd l); auto). subst y.
  assert (Hlen : n < length (sort_desc l)).
  { destruct (Nat.lt_ge_cases n (length (sort_desc l))) as [H|H]; [exact H|].
    rewrite skipn_all2 in Hy by exact H. destruct Hy. }
  rewrite <- (firstn_skipn n (sort_desc l)) at 1.
  rewrite List.filter_app, length_app.
  rewrite filter_all.
  - rewrite length_firstn.
    pose proof (filter_length_In (fun y => (fst x <=? fst y)%Z)
                  (List.skipn n (sort_desc l)) x Hy (Z.leb_refl _)).
    lia.
  - intros z Hz. apply Z.leb_le. now apply (sorted_firstn_skipn n (sort_desc l) z x).
Qed.

(** A file with at most [40] entries at least as new as itself is before
    the mark, so the loop never reaches it. *)
Lemma delete_old_files_keeps (w : world) (p : string) (f : file) :
  NoDup (List.map fst (outdir w)) ->
  In (p, f) (outdir w) ->
  length (List.filter (fun e => (f_ctime f <=? f_ctime (snd e))%Z) (outdir w)) <= 40 ->
  lookup_path p (outdir (snd (delete_old_files w))) = Some f.
Proof.
  intros Hnd Hin Hcount.
  destruct (delete_old_files_effect w) as (_ & _ & _ & H5).
  destruct (H5 p) as [E|(keyed & Hk & Hbeyond & _)].
  - rewrite E. now apply lookup_path_In.
  - exfalso.
    apply (sort_keys_returned w (outdir w)) in Hk as [-> _];
      [|intros q g Hq; now apply lookup_path_In].
    pose proof (beyond_mark_count
                  (List.map (fun e => (f_ctime (snd e), fst e)) (outdir w))
                  (f_ctime f, p) 40) as Hc.
    rewrite map_map in Hc. cbn [fst snd] in Hc.
    specialize (Hc Hnd).
    assert (Hx : In (f_ctime f, p)
                    (List.map (fun e => (f_ctime (snd e), fst e)) (outdir w))).
    { apply in_map_iff. now exists (p, f). }
    specialize (Hc Hx Hbeyond).
    rewrite filter_map_swap, length_map in Hc. cbn [fst] in Hc. lia.
Qed.

End SweepCounting.

(** X5: whatever fails in it, the sweep touches nothing but the output
    directory, creates or alters no file there, and never removes a
    directory or a locked file. *)
Theorem sweep_only_removes_removable_files :
  forall w p,
    let w' := snd (Api.delete_old_files w) in
    templates w' = templates w /\ tmpdir w' = tmpdir w /\ clock w' = clock w /\
    (forall f, lookup_path p (outdir w') = Some f -> lookup_path p (outdir w) = Some f) /\
    (forall f, lookup_path p (outdir w) = Some f ->
               f_regular f = false \/ f_locked f = true ->
               lookup_path p (outdir w') = Some f).
Proof.
  intros w p. destruct (delete_old_files_effect w) as (H1 & H2 & H3 & H5).
  cbv zeta. repeat split; auto.
  - intros f Hf. destruct (H5 p) as [E|(_ & _ & _ & E & _)]; congruence.
  - intros f Hf Hbad.
    destruct (H5 p) as [E|(_ & _ & _ & _ & g & Hg & Hr & Hk)]; [congruence|].
    rewrite Hf in Hg. injection Hg as <-. destruct Hbad; congruence.
Qed.

Lemma sweep_only_removes_removable_files_witness :
  lookup_path (Scenario.artifact_path 1)
    (outdir (snd (Api.delete_old_files
                    (Scenario.world_with (Scenario.directory 43 (Some 1))))))
  = Some (File None 1 Regular true).
Proof.
  destruct (sweep_only_removes_removable_files
              (Scenario.world_with (Scenario.directory 43 (Some 1)))
              (Scenario.artifact_path 1)) as (_ & _ & _ & _ & H).
  apply H; [reflexivity | now right].
Defined.

(** X6: whatever fails in it, the sweep never removes a file that has
    fewer than 40 other files at least as new as itself in a directory of
    distinct paths. *)
Theorem sweep_keeps_recent_files :
  forall w p f,
    NoDup (List.map fst (outdir w)) ->
    In (p, f) (outdir w) ->
    length (List.filter (fun e => (f_ctime f <=? f_ctime (snd e))%Z) (outdir w)) <= 40 ->
    lookup_path p (outdir (snd (Api.delete_old_files w))) = Some f.
Proof.
  intros w p f. apply delete_old_files_keeps.
Qed.

Lemma sweep_keeps_recent_files_witness :
  lookup_path (Scenario.artifact_path 45)
    (outdir (snd (Api.delete_old_files
                    (Scenario.world_with (Scenario.directory 46 (Some 2))))))
  = Some (File None 45 Regular false).
Proof.
  apply sweep_keeps_recent_files.
  - apply (bool_decide_unpack _). vm_compute. exact I.
  - apply in_map_iff. exists 45. split; [reflexivity|]. apply in_seq. lia.
  - vm_compute. lia.
Defined.



(** ** Artifact names and paths *)

Section Paths.
Import Api.

Lemma sapp_inj_l (a x y : string) : a +:+ x = a +:+ y -> x = y.
Proof.
  induction a as [|c a IH]; [easy|]. rewrite !sapp_cons. intros [= E]. now apply IH.
Qed.

Lemma sapp_inj_r (x y s : string) : x +:+ s = y +:+ s -> x = y.
Proof.
  intros E.
  assert (Hlen : String.length x = String.length y).
  { apply (f_equal String.length) in E. rewrite !slength_app in E. lia. }
  revert y E Hlen. induction x as [|c x IH]; intros [|d y] E Hlen; try discriminate.
  - reflexivity.
  - rewrite !sapp_cons in E. injection E as -> E. f_equal. apply IH; auto.
Qed.

Lemma drop_drop (k j : nat) (s : string) :
  PyStr.drop j (PyStr.drop k s) = PyStr.drop (k + j) s.
Proof.
  revert s. induction k as [|k IH]; intros s; [reflexivity|].
  destruct s as [|c s]; [now destruct j|]. cbn [PyStr.drop Nat.add]. apply IH.
Qed.

Lemma find_sep_sep (s : string) (i : nat) :
  find_sep s = Some i -> starts_with_sep (PyStr.drop i s) = true.
Proof.
  revert i. induction s as [|c s IH]; intros i; [discriminate|].
  cbn [find_sep]. destruct (is_sep c) eqn:E.
  - intros [= <-]. exact E.
  - destruct (find_sep s) as [j|]; [|discriminate]. intros [= <-]. now apply IH.
Qed.

Lemma find_sep_from_sep (k : nat) (s : string) (i : nat) :
  find_sep_from k s = Some i -> starts_with_sep (PyStr.drop i s) = true.
Proof.
  unfold find_sep_from. destruct (find_sep (PyStr.drop k s)) as [j|] eqn:E; [|discriminate].
  intros [= <-]. rewrite <- drop_drop. now apply find_sep_sep.
Qed.

(** A path is split in two; a drive ends with a colon or is followed by
    a separator or by nothing; a path with a drive starts with two
    separators or has a colon in second place. *)
Lemma splitdrive_spec (p pd pp : string) :
  splitdrive p = (pd, pp) ->
  pd +:+ pp = p /\
  (nonempty pd = true ->
   (pp = "" \/ starts_with_sep pp = true \/ last_char pd = Some ":"%char) /\
   (starts_with_sep p = true \/ exists c s, p = String c (String ":" s))).
Proof.
  unfold splitdrive. destruct p as [|a [|b s]]; try (intros [= <- <-]; now split).
  destruct (is_sep a && is_sep b) eqn:Hsep.
  - assert (Hp : starts_with_sep (String a (String b s)) = true).
    { cbn [starts_with_sep]. now apply andb_true_iff in Hsep as [-> _]. }
    set (p := String a (String b s)) in *.
    destruct (find_sep_from (if is_unc_prefix p then 8 else 2) p) as [index|];
      [|intros [= <- <-]; split; [apply sapp_nil_r | intros _; split; auto]].
    destruct (find_sep_from (index + 1) p) as [index2|] eqn:E2;
      [|intros [= <- <-]; split; [apply sapp_nil_r | intros _; split; auto]].
    intros [= <- <-]. split; [apply take_drop|]. intros _. split; [|now left].
    right. left. now apply (find_sep_from_sep (index + 1)).
  - destruct (Ascii.eqb b ":") eqn:Hc.
    + apply Ascii.eqb_eq in Hc. subst b. intros [= <- <-].
      split; [reflexivity|]. intros _. split; [now right; right|].
      right. now exists a, s.
    + intros [= <- <-]. split; [reflexivity | discriminate].
Qed.

Lemma nonempty_false (s : string) : nonempty s = false -> s = "".
Proof. now destruct s. Qed.

(** Joining a name to the output directory: a name with a drive or a
    root replaces the directory, any other is put under it. *)
Lemma path_join_output (p : string) :
  (path_join OUTPUT_DIR p = p /\
   (starts_with_sep p = true \/ exists c s, p = String c (String ":" s))) \/
  path_join OUTPUT_DIR p = OUTPUT_DIR +:+ "\" +:+ p.
Proof.
  unfold path_join. change (splitdrive OUTPUT_DIR) with ("", "generated_docs").
  destruct (splitdrive p) as [pd pp] eqn:E.
  destruct (splitdrive_spec p pd pp E) as [Hp Hd].
  destruct (nonempty pd) eqn:Npd.
  - destruct (Hd eq_refl) as [Hshape Hroot]. left. split; [|exact Hroot].
    destruct (starts_with_sep pp) eqn:Spp.
    + cbn [orb]. rewrite Spp. cbn [negb]. rewrite andb_false_r. cbn [andb]. exact Hp.
    + assert (Hne : String.eqb pd "" = false) by now destruct pd.
      assert (Hlo : String.eqb (PyStr.lower pd) (PyStr.lower "") = false)
        by now destruct pd.
      rewrite Hne, Hlo. cbn [andb negb]. rewrite Spp, Npd. cbn [negb andb].
      destruct Hshape as [->|[Hs|Hl]].
      * cbn [nonempty andb]. exact Hp.
      * congruence.
      * rewrite Hl, Ascii.eqb_refl. cbn [negb]. rewrite !andb_false_r. exact Hp.
  - apply nonempty_false in Npd. subst pd. rewrite sapp_nil_l in Hp. subst pp.
    destruct (starts_with_sep p) eqn:Sp.
    + left. cbn [nonempty orb negb andb]. rewrite !andb_false_r.
      split; [reflexivity | now left].
    + right. cbn [nonempty andb negb String.eqb]. rewrite !andb_false_r. reflexivity.
Qed.

(** Different names give different paths under the output directory. *)
Lemma path_join_output_inj (a b : string) :
  path_join OUTPUT_DIR a = path_join OUTPUT_DIR b -> a = b.
Proof.
  assert (Hmix : forall x y,
            (starts_with_sep x = true \/ exists c s, x = String c (String ":" s)) ->
            x = OUTPUT_DIR +:+ "\" +:+ y -> False).
  { intros x y [Hs|(c & s & Hx)] E; rewrite E in *; [discriminate|].
    rewrite !sapp_cons in Hx. discriminate. }
  destruct (path_join_output a) as [[-> Ha]| ->], (path_join_output b) as [[-> Hb]| ->].
  - easy.
  - intros E. exfalso. now apply (Hmix a b).
  - intros E. exfalso. now apply (Hmix b a).
  - intros E. now do 2 apply sapp_inj_l in E.
Qed.

Lemma docx_pdf_paths_differ (output_prefix unique_id : string) :
  path_join OUTPUT_DIR (output_prefix +:+ "_" +:+ unique_id +:+ ".docx")
  <> path_join OUTPUT_DIR (output_prefix +:+ "_" +:+ unique_id +:+ ".pdf").
Proof.
  intros E. apply path_join_output_inj in E.
  do 3 apply sapp_inj_l in E. discriminate.
Qed.

(** What [ntpath.join] gives on the paths of the service and on the
    shapes that replace or keep the first component. *)
Example path_join_examples :
  path_join OUTPUT_DIR "offer_letter_1a2b3c4d.docx"
  = "generated_docs\offer_letter_1a2b3c4d.docx" /\
  path_join OUTPUT_DIR "\secret.docx" = "\secret.docx" /\
  path_join OUTPUT_DIR "D:x.docx" = "D:x.docx" /\
  path_join OUTPUT_DIR "..\api.py" = "generated_docs\..\api.py" /\
  path_join "C:\t" "offer_template.docx" = "C:\t\offer_template.docx" /\
  path_join "C:\t" "\x.docx" = "C:\x.docx" /\
  path_join "C:\t" "c:x.docx" = "c:\t\x.docx" /\
  path_join "C:\t" "D:x.docx" = "D:x.docx" /\
  path_join "C:\t" "C:\t\x.docx" = "C:\t\x.docx" /\
  path_join "C:\t" "\\srv\share\x" = "\\srv\share\x" /\
  path_join TEMPLATES_DIR (TEMPLATES_DIR +:+ "\Experince_AI_Template.docx")
  = TEMPLATES_DIR +:+ "\Experince_AI_Template.docx".
Proof. repeat split; vm_compute; reflexivity. Qed.

Lemma lookup_path_app {A} (p : string) (d1 d2 : list (string * A)) :
  lookup_path p (d1 ++ d2)
  = match lookup_path p d1 with
    | Some a => Some a
    | None => lookup_path p d2
    end.
Proof.
  induction d1 as [|[q a] d1 IH]; [reflexivity|]. simpl.
  destruct (String.eqb p q); [reflexivity | exact IH].
Qed.

(** Writing one path leaves the others as they are. *)
Lemma lookup_path_write_other (p q : string) (b : body) (w : world) :
  p <> q ->
  lookup_path p (outdir (write_out q b w)) = lookup_path p (outdir w).
Proof.
  intros Hne. cbn [outdir write_out]. rewrite lookup_path_app, lookup_path_remove_ne by exact Hne.
  destruct (lookup_path p (outdir w)); [reflexivity|].
  simpl. destruct (String.eqb_spec p q); [congruence | reflexivity].
Qed.

Lemma lookup_path_write_same (q : string) (b : body) (w : world) :
  lookup_path q (outdir (write_out q b w)) = Some (File (Some b) (clock w) Regular false).
Proof. cbn [outdir write_out]. apply lookup_path_written. Qed.

End Paths.

(** ** [generate_document] and the letter endpoints *)

Section Generation.
Import Api.

Lemma truthy_name (output_prefix rest : string) :
  truthy (Some (output_prefix +:+ "_" +:+ rest)) = true.
Proof. destruct output_prefix; reflexivity. Qed.

(** X8: [generate_document] is all-or-nothing for the .docx, whatever the
    host does: when it raises, the exception is an [HTTPException] with
    status 500, nothing was written and the failure was logged; when it
    returns, the template was loaded and the substitution returned, the
    .docx named after the prefix and the id holds the substituted template,
    and the result carries the warning exactly when it has no PDF. *)
Theorem generate_document_outcomes (pf : platform) (template_name : string)
      (data : Subst.field_map) (output_prefix : string) (w : world) :
  let docx_filename := output_prefix +:+ "_" +:+ uuid8 pf +:+ ".docx" in
  let dp := path_join OUTPUT_DIR docx_filename in
  let tp := path_join TEMPLATES_DIR template_name in
  (forall e w', generate_document pf template_name data output_prefix w = (Raises e, w') ->
     (exists detail, e = HTTPException 500 detail) /\
     outdir w' = outdir w /\ tmpdir w' = tmpdir w /\ clock w' = clock w /\
     exists msg, errors w' = errors w ++ [msg]) /\
  (forall r w', generate_document pf template_name data output_prefix w = (Returns r, w') ->
     exists d d',
       templates w tp = Some (Template d) /\
       Subst.substitute data d = Returns d' /\
       Api.docx_filename r = docx_filename /\ Api.docx_path r = dp /\
       (exists f, lookup_path dp (outdir w') = Some f /\
                  f_body f = Some (DocxBody d')) /\
       (Api.pdf_filename r = None <-> Api.warning r <> None)).
Proof.
  intros docx_filename dp tp.
  unfold generate_document.
  fold docx_filename. fold dp. fold tp.
  set (pdf_filename := output_prefix +:+ "_" +:+ uuid8 pf +:+ ".pdf").
  set (pp := path_join OUTPUT_DIR pdf_filename).
  assert (Hne : dp <> pp) by apply docx_pdf_paths_differ.
  cbv [bind try_except template_exists load_document lift doc_save convert
       logger_error raise ret].
  destruct (templates w tp) as [[d|m]|] eqn:Ht; cbn [negb]; rewrite ?Ht.
  - destruct (Subst.substitute data d) as [d'|e0] eqn:Hd.
    + destruct (save_raises pf dp) as [m|] eqn:Hs.
      * split; intros ? ? [= <- <-]. cbn. repeat split; eauto.
      * destruct (convert_raises pf dp pp) as [m|] eqn:Hc.
        -- split; intros ? ? [= <- <-]. exists d, d'.
           cbn [Api.docx_filename Api.docx_path Api.pdf_filename Api.warning].
           repeat split; try easy.
           eexists. split; [apply lookup_path_write_same | reflexivity].
        -- destruct (read_docx dp (write_out dp (DocxBody d') w))
             as [d2|]; split; intros ? ? [= <- <-]; exists d, d';
             cbn [Api.docx_filename Api.docx_path Api.pdf_filename Api.warning];
             repeat split; try easy.
           ++ exists (File (Some (DocxBody d')) (clock w) Regular false).
              split; [|reflexivity].
              rewrite lookup_path_write_other by exact Hne. apply lookup_path_write_same.
           ++ eexists. split; [apply lookup_path_write_same | reflexivity].
    + split; intros ? ? [= <- <-]. cbn. repeat split; eauto.
  - split; intros ? ? [= <- <-]. cbn. repeat split; eauto.
  - split; intros ? ? [= <- <-]. cbn. repeat split; eauto.
Qed.

Lemma generate_document_outcomes_witness :
  (exists detail,
     HTTPException 500 "Template file not found: missing.docx" = HTTPException 500 detail) /\
  (exists detail,
     HTTPException 500 ("Document generation failed: " +:+ Docx.XML_ERROR)
     = HTTPException 500 detail) /\
  exists d d',
    templates Scenario.template_world (path_join TEMPLATES_DIR "offer_template.docx")
    = Some (Template d) /\
    Subst.substitute [("NAME", Some "Bob")] d = Returns d' /\
    exists f,
      lookup_path (path_join OUTPUT_DIR "offer_letter_1a2b3c4d.docx")
        (outdir (snd (generate_document Scenario.no_converter "offer_template.docx"
                        [("NAME", Some "Bob")] "offer_letter" Scenario.template_world)))
      = Some f /\
      f_body f = Some (DocxBody d').
Proof.
  split; [|split].
  - destruct (generate_document_outcomes Hosts.working "missing.docx" [] "offer_letter"
                Scenario.template_world) as [H _].
    apply (H (HTTPException 500 "Template file not found: missing.docx")
             (World (templates Scenario.template_world) [] [] 100
                    ["Template file not found: " +:+ path_join TEMPLATES_DIR "missing.docx"])).
    reflexivity.
  - destruct (generate_document_outcomes Hosts.working "offer_template.docx"
                [("NAME", Some Scenario.with_nul)] "offer_letter"
                Scenario.template_world) as [H _].
    apply (H (HTTPException 500 ("Document generation failed: " +:+ Docx.XML_ERROR))
             (World (templates Scenario.template_world) [] [] 100
                    ["Document generation failed: " +:+ Docx.XML_ERROR])).
    reflexivity.
  - destruct (generate_document_outcomes Scenario.no_converter "offer_template.docx"
                [("NAME", Some "Bob")] "offer_letter" Scenario.template_world) as [_ H].
    destruct (generate_document Scenario.no_converter "offer_template.docx"
                [("NAME", Some "Bob")] "offer_letter" Scenario.template_world)
      as [[r|e] w'] eqn:E; [|vm_compute in E; discriminate].
    destruct (H r w' eq_refl) as (d & d' & Ht & Hd & _ & _ & Hl & _).
    exists d, d'. split; [exact Ht|]. split; [exact Hd | exact Hl].
Defined.

End Generation.

Section GenerationCases.
Import Api.

Lemma generate_document_success (pf : platform) (template_name : string)
      (data : Subst.field_map) (output_prefix : string) (w : world)
      (d d' : Docx.document) :
  let docx_filename := output_prefix +:+ "_" +:+ uuid8 pf +:+ ".docx" in
  let pdf_filename := output_prefix +:+ "_" +:+ uuid8 pf +:+ ".pdf" in
  let dp := path_join OUTPUT_DIR docx_filename in
  let pp := path_join OUTPUT_DIR pdf_filename in
  templates w (path_join TEMPLATES_DIR template_name) = Some (Template d) ->
  Subst.substitute data d = Returns d' ->
  save_raises pf dp = None ->
  convert_raises pf dp pp = None ->
  lookup_path dp (tmpdir w) = None ->
  generate_document pf template_name data output_prefix w
  = (Returns (GenResult dp (Some pp) docx_filename (Some pdf_filename) None),
     write_out pp (PdfBody d') (write_out dp (DocxBody d') w)).
Proof.
  intros docx_filename pdf_filename dp pp Ht Hd Hs Hc Htmp.
  unfold generate_document.
  fold docx_filename. fold pdf_filename. fold dp. fold pp.
  cbv [bind try_except template_exists load_document lift doc_save convert
       logger_error raise ret].
  rewrite Ht. cbn [negb]. rewrite ?Ht, Hd. cbv beta iota. rewrite ?Hs, ?Hc.
  assert (Hr : read_docx dp (write_out dp (DocxBody d') w) = Some d').
  { unfold read_docx. cbn [tmpdir write_out]. rewrite Htmp.
    now rewrite lookup_path_write_same. }
  now rewrite Hr.
Qed.

Lemma generate_document_no_pdf (pf : platform) (template_name : string)
      (data : Subst.field_map) (output_prefix : string) (w : world)
      (d d' : Docx.document) (m : string) :
  let docx_filename := output_prefix +:+ "_" +:+ uuid8 pf +:+ ".docx" in
  let pdf_filename := output_prefix +:+ "_" +:+ uuid8 pf +:+ ".pdf" in
  let dp := path_join OUTPUT_DIR docx_filename in
  let pp := path_join OUTPUT_DIR pdf_filename in
  templates w (path_join TEMPLATES_DIR template_name) = Some (Template d) ->
  Subst.substitute data d = Returns d' ->
  save_raises pf dp = None ->
  convert_raises pf dp pp = Some m ->
  generate_document pf template_name data output_prefix w
  = (Returns (GenResult dp None docx_filename None
                        (Some "PDF conversion failed, only DOCX is available")),
     World (templates w)
           (outdir (write_out dp (DocxBody d') w))
           (tmpdir w) (clock w + 1)%Z
           (errors w ++ ["PDF conversion failed: " +:+ m])).
Proof.
  intros docx_filename pdf_filename dp pp Ht Hd Hs Hc.
  unfold generate_document.
  fold docx_filename. fold pdf_filename. fold dp. fold pp.
  cbv [bind try_except template_exists load_document lift doc_save convert
       logger_error raise ret].
  rewrite Ht. cbn [negb]. rewrite ?Ht, Hd. cbv beta iota. rewrite ?Hs, ?Hc. reflexivity.
Qed.

(** A value XML cannot hold: the substitution raises, nothing is written. *)
Lemma generate_document_substitution_raises (pf : platform) (template_name : string)
      (data : Subst.field_map) (output_prefix : string) (w : world)
      (d : Docx.document) (e : exn) :
  templates w (path_join TEMPLATES_DIR template_name) = Some (Template d) ->
  Subst.substitute data d = Raises e ->
  generate_document pf template_name data output_prefix w
  = (Raises (HTTPException 500 ("Document generation failed: " +:+ Docx.XML_ERROR)),
     World (templates w) (outdir w) (tmpdir w) (clock w)
           (errors w ++ ["Document generation failed: " +:+ Docx.XML_ERROR])).
Proof.
  intros Ht Hd. pose proof (substitute_raises data d e Hd) as ->.
  unfold generate_document.
  cbv [bind try_except template_exists load_document lift doc_save convert
       logger_error raise ret].
  rewrite Ht. cbn [negb]. rewrite ?Ht, Hd. reflexivity.
Qed.

End GenerationCases.

(** X9: with the template readable, the substitution returning, saving
    and converting at work and the two names not yet taken, a letter
    endpoint answers with both links and no warning, schedules the sweep
    once, and leaves in the output directory the .docx holding the
    substituted template and the PDF converted from that same document,
    created one after the other. *)
Theorem letter_success_writes_both_artifacts :
  forall (pf : platform) (template_name : string) (data : Subst.field_map)
         (output_prefix what msg : string) (w : world) (d d' : Docx.document),
    let docx_filename := output_prefix +:+ "_" +:+ uuid8 pf +:+ ".docx" in
    let pdf_filename := output_prefix +:+ "_" +:+ uuid8 pf +:+ ".pdf" in
    let dp := Api.path_join Api.OUTPUT_DIR docx_filename in
    let pp := Api.path_join Api.OUTPUT_DIR pdf_filename in
    templates w (Api.path_join Api.TEMPLATES_DIR template_name) = Some (Template d) ->
    Subst.substitute data d = Returns d' ->
    save_raises pf dp = None ->
    convert_raises pf dp pp = None ->
    lookup_path dp (tmpdir w) = None ->
    lookup_path dp (outdir w) = None ->
    lookup_path pp (outdir w) = None ->
    exists w',
      Api.letter_endpoint pf template_name data output_prefix what msg w
      = (Returns (Api.Response true msg ("/download/" +:+ docx_filename)
                               (Some ("/download/" +:+ pdf_filename)) None,
                  [Api.DeleteOldFiles]), w') /\
      lookup_path dp (outdir w')
      = Some (File (Some (DocxBody d')) (clock w) Regular false) /\
      lookup_path pp (outdir w')
      = Some (File (Some (PdfBody d')) (clock w + 1) Regular false) /\
      errors w' = errors w /\
      forall q, q <> dp -> q <> pp -> lookup_path q (outdir w') = lookup_path q (outdir w).
Proof.
  intros pf template_name data output_prefix what msg w d d'
         docx_filename pdf_filename dp pp Ht Hd Hs Hc Htmp _ _.
  assert (Hne : dp <> pp) by apply docx_pdf_paths_differ.
  eexists. split; [|split; [|split; [|split]]].
  - unfold Api.letter_endpoint, try_except, bind at 1.
    rewrite (generate_document_success pf template_name data output_prefix w d d'
               Ht Hd Hs Hc Htmp).
    unfold ret. cbn [Api.docx_filename Api.pdf_filename Api.warning].
    rewrite truthy_name. reflexivity.
  - rewrite lookup_path_write_other by exact Hne. apply lookup_path_write_same.
  - apply lookup_path_write_same.
  - reflexivity.
  - intros q Hq Hp. now rewrite !lookup_path_write_other.
Qed.

Lemma letter_success_writes_both_artifacts_witness :
  exists w',
    Api.generate_offer_letter Hosts.working
      (Api.Build_OfferLetterData "R1" "2024-01-01" "Bob" "" "" "" "" "Intern" "" "" "" "")
      Scenario.template_world
    = (Returns (Api.Response true "Offer letter generated successfully"
                  ("/download/" +:+ ("offer_letter" +:+ "_" +:+ "1a2b3c4d" +:+ ".docx"))
                  (Some ("/download/" +:+ ("offer_letter" +:+ "_" +:+ "1a2b3c4d" +:+ ".pdf")))
                  None, [Api.DeleteOldFiles]), w') /\
    List.map fst (outdir w')
    = ["generated_docs\offer_letter_1a2b3c4d.docx"; "generated_docs\offer_letter_1a2b3c4d.pdf"].
Proof.
  destruct (letter_success_writes_both_artifacts Hosts.working "offer_template.docx"
              [("REF", Api.or_blank "R1"); ("DATE", Api.or_blank "2024-01-01");
               ("NAME", Api.or_blank "Bob"); ("DURATION", Api.or_blank "");
               ("STARTDATE", Api.or_blank ""); ("SUPNAME", Api.or_blank "");
               ("TASKS", Api.or_blank ""); ("POSITION", Api.or_blank "Intern");
               ("DEPARTMENT", Api.or_blank ""); ("FROMANDTODATE", Api.or_blank "");
               ("TYPE", Api.or_blank ""); ("RESPONSEDATE", Api.or_blank "")]
              "offer_letter" "offer letter" "Offer letter generated successfully"
              Scenario.template_world Scenario.certificate_template
              (Docx.Document
                 [[Docx.Run "This certifies that Bob worked as Intern"];
                  [Docx.Run "for "; Docx.Run "{{DURA"; Docx.Run "TION}}."]] []))
    as (w' & Hrun & _); try reflexivity.
  exists w'. split; [exact Hrun|].
  unfold Api.generate_offer_letter in Hrun. cbn [Api.ol_REF] in Hrun.
  vm_compute in Hrun. injection Hrun as <-. reflexivity.
Defined.

(** X10: when the converter raises after the .docx was saved,
    [generate_document] logs the failure and returns the .docx alone with
    the warning; no PDF file is written and nothing else in the directory
    changes. *)
Theorem conversion_failure_leaves_docx_only :
  forall (pf : platform) (template_name : string) (data : Subst.field_map)
         (output_prefix : string) (w : world) (d d' : Docx.document) (m : string),
    let docx_filename := output_prefix +:+ "_" +:+ uuid8 pf +:+ ".docx" in
    let pdf_filename := output_prefix +:+ "_" +:+ uuid8 pf +:+ ".pdf" in
    let dp := Api.path_join Api.OUTPUT_DIR docx_filename in
    let pp := Api.path_join Api.OUTPUT_DIR pdf_filename in
    templates w (Api.path_join Api.TEMPLATES_DIR template_name) = Some (Template d) ->
    Subst.substitute data d = Returns d' ->
    save_raises pf dp = None ->
    convert_raises pf dp pp = Some m ->
    exists w',
      Api.generate_document pf template_name data output_prefix w
      = (Returns (Api.GenResult dp None docx_filename None
                    (Some "PDF conversion failed, only DOCX is available")), w') /\
      (exists f, lookup_path dp (outdir w') = Some f /\
                 f_body f = Some (DocxBody d')) /\
      (forall q, q <> dp -> lookup_path q (outdir w') = lookup_path q (outdir w)) /\
      errors w' = errors w ++ ["PDF conversion failed: " +:+ m].
Proof.
  intros pf template_name data output_prefix w d d' m
         docx_filename pdf_filename dp pp Ht Hd Hs Hc.
  eexists. split; [|split; [|split]].
  - apply (generate_document_no_pdf pf template_name data output_prefix w d d' m
             Ht Hd Hs Hc).
  - cbn [outdir]. eexists. split; [apply lookup_path_write_same | reflexivity].
  - intros q Hq. cbn [outdir]. now apply lookup_path_write_other.
  - reflexivity.
Qed.

Lemma conversion_failure_leaves_docx_only_witness :
  exists w',
    Api.generate_document Scenario.no_converter "offer_template.docx"
      [("NAME", Some "Bob")] "offer_letter" Scenario.template_world
    = (Returns (Api.GenResult
                  (Api.path_join Api.OUTPUT_DIR ("offer_letter" +:+ "_" +:+ "1a2b3c4d" +:+ ".docx"))
                  None ("offer_letter" +:+ "_" +:+ "1a2b3c4d" +:+ ".docx") None
                  (Some "PDF conversion failed, only DOCX is available")), w') /\
    lookup_path "generated_docs\offer_letter_1a2b3c4d.pdf" (outdir w') = None.
Proof.
  destruct (conversion_failure_leaves_docx_only Scenario.no_converter "offer_template.docx"
              [("NAME", Some "Bob")] "offer_letter" Scenario.template_world
              Scenario.certificate_template
              (Docx.Document
                 [[Docx.Run "This certifies that Bob worked as {{POSITION}}"];
                  [Docx.Run "for "; Docx.Run "{{DURA"; Docx.Run "TION}}."]] [])
              "Word is not installed")
    as (w' & Hrun & _ & Hother & _); try reflexivity.
  exists w'. split; [exact Hrun|].
  rewrite Hother; [reflexivity | vm_compute; discriminate].
Defined.

(** X11: artifact paths do not collide: for one prefix, files of different
    ids and the same extension have different paths, and for any prefix and
    id the .docx and the PDF have different paths. *)
Theorem artifact_paths_are_distinct :
  (forall output_prefix id1 id2 ext,
     output_prefix <> "" ->
     Api.path_join Api.OUTPUT_DIR (output_prefix +:+ "_" +:+ id1 +:+ ext)
     = Api.path_join Api.OUTPUT_DIR (output_prefix +:+ "_" +:+ id2 +:+ ext) ->
     id1 = id2) /\
  (forall output_prefix unique_id,
     Api.path_join Api.OUTPUT_DIR (output_prefix +:+ "_" +:+ unique_id +:+ ".docx")
     <> Api.path_join Api.OUTPUT_DIR (output_prefix +:+ "_" +:+ unique_id +:+ ".pdf")).
Proof.
  split; [|intros; apply docx_pdf_paths_differ].
  intros output_prefix id1 id2 ext _ E. apply path_join_output_inj in E.
  do 2 apply sapp_inj_l in E. now apply sapp_inj_r in E.
Qed.

Lemma artifact_paths_are_distinct_witness :
  "1a2b3c4d" = "1a2b3c4d".
Proof.
  apply (proj1 artifact_paths_are_distinct "offer_letter" "1a2b3c4d" "1a2b3c4d" ".docx");
    [discriminate | reflexivity].
Defined.

(** ** [generate_certificate] and its endpoint *)

Section Certificates.
Import Api.

Lemma remove_path_written {A} (p : string) (a : A) (d : list (string * A)) :
  remove_path p (remove_path p d ++ [(p, a)]) = remove_path p d.
Proof.
  unfold remove_path. rewrite List.filter_app, filter_twice. simpl.
  rewrite String.eqb_refl. simpl. rewrite app_nil_r.
  apply filter_ext. intros e. now destruct (negb _).
Qed.

(** [generate_certificate] with saving and converting at work. *)
Lemma generate_certificate_success (pf : platform)
      (template_path output_pdf name position duration : string)
      (w : world) (d d' : Docx.document) :
  templates w template_path = Some (Template d) ->
  Subst.replace_placeholders d
    [("{{NAME}}", name); ("{{POSITION}}", position); ("{{DURATION}}", duration)]
  = Returns d' ->
  save_raises pf (tmp_name pf) = None ->
  convert_raises pf (tmp_name pf) output_pdf = None ->
  generate_certificate pf template_path output_pdf name position duration w
  = (Returns output_pdf,
     set_tmpdir (remove_path (tmp_name pf) (tmpdir w))
                (write_out output_pdf (PdfBody d') w)).
Proof.
  intros Ht Hd Hs Hc.
  unfold generate_certificate.
  cbv [bind lift load_document doc_save_tmp convert os_remove_tmp ret].
  rewrite Ht, Hd, Hs, Hc.
  unfold read_docx. cbn [tmpdir set_tmpdir write_out].
  rewrite lookup_path_written. cbn [tmpdir set_tmpdir write_out].
  rewrite lookup_path_written, remove_path_written. reflexivity.
Qed.

End Certificates.

(** X12: with the template readable, the replacements returning, saving
    and converting at work and the two names not yet taken, the certificate
    endpoint answers with both links, schedules the sweep once and leaves a
    PDF and a .docx that hold the same substituted document, the PDF created
    first; the temporary .docx is gone. *)
Theorem certificate_success_writes_both_artifacts :
  forall (pf : platform) (data : Api.CertificateData) (w : world) (d d' : Docx.document),
    let docx_filename := "certificate_" +:+ uuid8 pf +:+ ".docx" in
    let pdf_filename := "certificate_" +:+ uuid8 pf +:+ ".pdf" in
    let dp := Api.path_join Api.OUTPUT_DIR docx_filename in
    let pp := Api.path_join Api.OUTPUT_DIR pdf_filename in
    templates w (Api.path_join Api.TEMPLATES_DIR "Certificate_Template.docx")
    = Some (Template d) ->
    Subst.replace_placeholders d
      [("{{NAME}}", Api.c_NAME data); ("{{POSITION}}", Api.c_POSITION data);
       ("{{DURATION}}", Api.c_DURATION data)] = Returns d' ->
    save_raises pf (tmp_name pf) = None ->
    convert_raises pf (tmp_name pf) pp = None ->
    save_raises pf dp = None ->
    lookup_path dp (outdir w) = None ->
    lookup_path pp (outdir w) = None ->
    exists w',
      Api.generate_certificate_endpoint pf data w
      = (Returns (Api.Response true "Experience certificate generated successfully"
                    ("/download/" +:+ docx_filename)
                    (Some ("/download/" +:+ pdf_filename)) None,
                  [Api.DeleteOldFiles]), w') /\
      lookup_path pp (outdir w') = Some (File (Some (PdfBody d')) (clock w) Regular false) /\
      lookup_path dp (outdir w')
      = Some (File (Some (DocxBody d')) (clock w + 1) Regular false) /\
      lookup_path (tmp_name pf) (tmpdir w') = None.
Proof.
  intros pf data w d d' docx_filename pdf_filename dp pp Ht Hd Hst Hc Hsd _ _.
  assert (Hne : dp <> pp).
  { apply (docx_pdf_paths_differ "certificate" (uuid8 pf)). }
  eexists. split; [|split; [|split]].
  - unfold Api.generate_certificate_endpoint, try_except, bind at 1.
    fold docx_filename. fold pdf_filename. fold dp. fold pp.
    rewrite (generate_certificate_success pf _ pp _ _ _ w d d' Ht Hd Hst Hc).
    cbv [bind Api.lift Api.load_document Api.doc_save ret].
    cbn [templates set_tmpdir Api.write_out]. rewrite Ht, Hd, Hsd. reflexivity.
  - cbn [set_tmpdir outdir].
    rewrite lookup_path_write_other by (intros E; now apply Hne).
    apply lookup_path_write_same.
  - cbn [set_tmpdir outdir]. apply lookup_path_write_same.
  - cbn [tmpdir Api.write_out set_tmpdir]. apply lookup_path_remove_same.
Qed.

Lemma certificate_success_writes_both_artifacts_witness :
  exists w',
    Api.generate_certificate_endpoint Hosts.working
      (Api.Build_CertificateData "Bob" "Intern" "3 months") Scenario.template_world
    = (Returns (Api.Response true "Experience certificate generated successfully"
                  ("/download/" +:+ ("certificate_" +:+ "1a2b3c4d" +:+ ".docx"))
                  (Some ("/download/" +:+ ("certificate_" +:+ "1a2b3c4d" +:+ ".pdf"))) None,
                [Api.DeleteOldFiles]), w') /\
    lookup_path "generated_docs\certificate_1a2b3c4d.pdf" (outdir w')
    = Some (File (Some (PdfBody
                          (Docx.Document
                             [[Docx.Run "This certifies that Bob worked as Intern"];
                              [Docx.Run "for 3 months."; Docx.Run ""; Docx.Run ""]] [])))
                 100 Regular false).
Proof.
  destruct (certificate_success_writes_both_artifacts Hosts.working
              (Api.Build_CertificateData "Bob" "Intern" "3 months")
              Scenario.template_world Scenario.certificate_template
              (Docx.Document
                 [[Docx.Run "This certifies that Bob worked as Intern"];
                  [Docx.Run "for 3 months."; Docx.Run ""; Docx.Run ""]] []))
    as (w' & Hrun & Hp & _); try reflexivity.
  exists w'. split; [exact Hrun | exact Hp].
Defined.

(** X13: when the converter raises, [generate_certificate] never reaches
    [os.remove(temp_docx)]: the endpoint answers 500 and the temporary
    .docx, holding the substituted document, is left behind. *)
Theorem certificate_conversion_failure_leaves_temp_file :
  forall (pf : platform) (data : Api.CertificateData) (w : world)
         (d d' : Docx.document) (m : string),
    templates w (Api.path_join Api.TEMPLATES_DIR "Certificate_Template.docx")
    = Some (Template d) ->
    Subst.replace_placeholders d
      [("{{NAME}}", Api.c_NAME data); ("{{POSITION}}", Api.c_POSITION data);
       ("{{DURATION}}", Api.c_DURATION data)] = Returns d' ->
    save_raises pf (tmp_name pf) = None ->
    convert_raises pf (tmp_name pf)
      (Api.path_join Api.OUTPUT_DIR ("certificate_" +:+ uuid8 pf +:+ ".pdf")) = Some m ->
    exists w',
      Api.generate_certificate_endpoint pf data w = (Raises (HTTPException 500 m), w') /\
      lookup_path (tmp_name pf) (tmpdir w') = Some d'.
Proof.
  intros pf data w d d' m Ht Hd Hs Hc.
  eexists. split.
  - unfold Api.generate_certificate_endpoint, try_except, bind at 1.
    unfold Api.generate_certificate.
    cbv [bind Api.lift Api.load_document Api.doc_save_tmp Api.convert logger_error raise].
    rewrite Ht, Hd, Hs, Hc. cbn [str_exn]. reflexivity.
  - cbn [tmpdir set_tmpdir]. apply lookup_path_written.
Qed.

Lemma certificate_conversion_failure_leaves_temp_file_witness :
  exists w',
    Api.generate_certificate_endpoint Scenario.no_converter
      (Api.Build_CertificateData "Bob" "Intern" "3 months") Scenario.template_world
    = (Raises (HTTPException 500 "Word is not installed"), w') /\
    lookup_path "tmpabcd.docx" (tmpdir w')
    = Some (Docx.Document
              [[Docx.Run "This certifies that Bob worked as Intern"];
               [Docx.Run "for 3 months."; Docx.Run ""; Docx.Run ""]] []).
Proof.
  apply (certificate_conversion_failure_leaves_temp_file Scenario.no_converter
           (Api.Build_CertificateData "Bob" "Intern" "3 months")
           Scenario.template_world Scenario.certificate_template);
    reflexivity.
Defined.

(** X14: when the PDF was produced and saving the .docx then fails, the
    certificate endpoint answers 500 although the PDF stays in the output
    directory; no .docx is written and no sweep is scheduled. *)
Theorem certificate_docx_failure_leaves_pdf :
  forall (pf : platform) (data : Api.CertificateData) (w : world)
         (d d' : Docx.document) (m : string),
    let dp := Api.path_join Api.OUTPUT_DIR ("certificate_" +:+ uuid8 pf +:+ ".docx") in
    let pp := Api.path_join Api.OUTPUT_DIR ("certificate_" +:+ uuid8 pf +:+ ".pdf") in
    templates w (Api.path_join Api.TEMPLATES_DIR "Certificate_Template.docx")
    = Some (Template d) ->
    Subst.replace_placeholders d
      [("{{NAME}}", Api.c_NAME data); ("{{POSITION}}", Api.c_POSITION data);
       ("{{DURATION}}", Api.c_DURATION data)] = Returns d' ->
    save_raises pf (tmp_name pf) = None ->
    convert_raises pf (tmp_name pf) pp = None ->
    save_raises pf dp = Some m ->
    exists w',
      Api.generate_certificate_endpoint pf data w = (Raises (HTTPException 500 m), w') /\
      (exists f, lookup_path pp (outdir w') = Some f /\ f_body f = Some (PdfBody d')) /\
      lookup_path dp (outdir w') = lookup_path dp (outdir w).
Proof.
  intros pf data w d d' m dp pp Ht Hd Hst Hc Hsd.
  assert (Hne : dp <> pp).
  { apply (docx_pdf_paths_differ "certificate" (uuid8 pf)). }
  eexists. split; [|split].
  - unfold Api.generate_certificate_endpoint, try_except, bind at 1.
    fold dp. fold pp.
    rewrite (generate_certificate_success pf _ pp _ _ _ w d d' Ht Hd Hst Hc).
    cbv [bind Api.lift Api.load_document Api.doc_save ret logger_error raise].
    cbn [templates set_tmpdir Api.write_out]. rewrite Ht, Hd, Hsd. cbn [str_exn].
    reflexivity.
  - cbn [set_tmpdir outdir]. eexists. split; [apply lookup_path_write_same | reflexivity].
  - cbn [set_tmpdir outdir]. now apply lookup_path_write_other.
Qed.

Lemma certificate_docx_failure_leaves_pdf_witness :
  exists w',
    Api.generate_certificate_endpoint Hosts.output_read_only
      (Api.Build_CertificateData "Bob" "Intern" "3 months") Scenario.template_world
    = (Raises (HTTPException 500 "Permission denied"), w') /\
    exists f,
      lookup_path "generated_docs\certificate_1a2b3c4d.pdf" (outdir w') = Some f /\
      f_body f
      = Some (PdfBody
                (Docx.Document
                   [[Docx.Run "This certifies that Bob worked as Intern"];
                    [Docx.Run "for 3 months."; Docx.Run ""; Docx.Run ""]] [])).
Proof.
  destruct (certificate_docx_failure_leaves_pdf Hosts.output_read_only
              (Api.Build_CertificateData "Bob" "Intern" "3 months")
              Scenario.template_world Scenario.certificate_template
              (Docx.Document
                 [[Docx.Run "This certifies that Bob worked as Intern"];
                  [Docx.Run "for 3 months."; Docx.Run ""; Docx.Run ""]] [])
              "Permission denied")
    as (w' & Hrun & Hp & _); try reflexivity.
  exists w'. split; [exact Hrun | exact Hp].
Defined.

(** A name XML cannot hold: the certificate endpoint answers 500 with the
    message of the [ValueError], before anything is saved or converted. *)
Example certificate_value_error_scenario :
  Api.generate_certificate_endpoint Hosts.working
    (Api.Build_CertificateData Scenario.with_nul "Intern" "3 months")
    Scenario.template_world
  = (Raises (HTTPException 500 Docx.XML_ERROR),
     World (templates Scenario.template_world) [] [] 100
           ["Error generating certificate: " +:+ Docx.XML_ERROR]).
Proof. vm_compute. reflexivity. Qed.

(** ** [download_file] *)

Section Downloads.
Import Api Delivery.

(** [s.endswith(suffix)] holds exactly of the strings [stem + suffix]. *)
Lemma endswith_iff (s suffix : string) :
  endswith s suffix = true <-> exists stem, s = stem +:+ suffix.
Proof.
  unfold endswith. split.
  - intros H. apply String.eqb_eq in H.
    exists (PyStr.take (String.length s - String.length suffix) s).
    rewrite <- H at 2. symmetry. apply take_drop.
  - intros [stem ->]. rewrite slength_app.
    replace (String.length stem + String.length suffix - String.length suffix)
      with (String.length stem) by lia.
    rewrite drop_app. apply String.eqb_refl.
Qed.

Lemma last_char_eq (a b : string) (c c' : ascii) :
  a +:+ String c "" = b +:+ String c' "" -> c = c'.
Proof.
  revert b. induction a as [|x a IH]; intros [|y b]; rewrite ?sapp_cons, ?sapp_nil_l.
  - now intros [= ->].
  - destruct b; rewrite ?sapp_cons, ?sapp_nil_l; discriminate.
  - destruct a; rewrite ?sapp_cons, ?sapp_nil_l; discriminate.
  - intros [= _ E]. exact (IH b E).
Qed.

Lemma docx_name_endswith (stem : string) : endswith (stem +:+ ".docx") ".docx" = true.
Proof. apply endswith_iff. now exists stem. Qed.

Lemma pdf_name_endswith (stem : string) : endswith (stem +:+ ".pdf") ".docx" = false.
Proof.
  apply not_true_is_false. intros H. apply endswith_iff in H as [stem' E].
  assert (E' : (stem +:+ ".pd") +:+ "f" = (stem' +:+ ".doc") +:+ "x")
    by (rewrite !sapp_assoc; exact E).
  apply last_char_eq in E'. discriminate.
Qed.

(** A path found in the output directory is served, with the world as it was. *)
Lemma download_file_found (filename : string) (w : world) (f : file) :
  lookup_path (path_join OUTPUT_DIR filename) (outdir w) = Some f ->
  f_stat f = true ->
  download_file filename w
  = (Returns (Build_FileResponse (path_join OUTPUT_DIR filename) filename
                (if endswith filename ".docx" then DOCX_MEDIA_TYPE
                 else "application/pdf")), w).
Proof.
  intros H Hs. unfold download_file, bind, os_path_exists. now rewrite H, Hs.
Qed.

Lemma lookup_path_absent {A} (p : string) (d : list (string * A)) :
  lookup_path p d = None -> ~ In p (List.map fst d).
Proof.
  intros H Hin. apply lookup_path_in_fst in Hin as [a Ha]. congruence.
Qed.

Lemma remove_path_absent {A} (p : string) (d : list (string * A)) :
  lookup_path p d = None -> remove_path p d = d.
Proof.
  induction d as [|[q a] d IH]; intros H; [reflexivity|].
  simpl in H. unfold remove_path in *. simpl.
  destruct (String.eqb p q); [discriminate|]. simpl. now rewrite IH.
Qed.

(** Two files written under names not yet taken are appended to the listing. *)
Lemma write_out_fresh (p q : string) (a b : body) (w : world) :
  p <> q ->
  lookup_path p (outdir w) = None ->
  lookup_path q (outdir w) = None ->
  outdir (write_out q b (write_out p a w))
  = outdir w ++ [(p, File (Some a) (clock w) Regular false);
                 (q, File (Some b) (clock w + 1) Regular false)].
Proof.
  intros Hne Hp Hq. cbn [outdir write_out clock].
  rewrite (remove_path_absent p) by exact Hp.
  rewrite remove_path_absent.
  - now rewrite <- app_assoc.
  - rewrite lookup_path_app, Hq. simpl.
    destruct (String.eqb_spec q p); [congruence | reflexivity].
Qed.

(** A letter endpoint at work, as an equation. *)
Lemma letter_endpoint_success (pf : platform) (template_name : string)
      (data : Subst.field_map) (output_prefix what msg : string)
      (w : world) (d d' : Docx.document) :
  let docx_filename := output_prefix +:+ "_" +:+ uuid8 pf +:+ ".docx" in
  let pdf_filename := output_prefix +:+ "_" +:+ uuid8 pf +:+ ".pdf" in
  let dp := path_join OUTPUT_DIR docx_filename in
  let pp := path_join OUTPUT_DIR pdf_filename in
  templates w (path_join TEMPLATES_DIR template_name) = Some (Template d) ->
  Subst.substitute data d = Returns d' ->
  save_raises pf dp = None ->
  convert_raises pf dp pp = None ->
  lookup_path dp (tmpdir w) = None ->
  letter_endpoint pf template_name data output_prefix what msg w
  = (Returns (Response true msg ("/download/" +:+ docx_filename)
                (Some ("/download/" +:+ pdf_filename)) None,
              [DeleteOldFiles]),
     write_out pp (PdfBody d') (write_out dp (DocxBody d') w)).
Proof.
  intros docx_filename pdf_filename dp pp Ht Hd Hs Hc Htmp.
  unfold letter_endpoint, try_except, bind at 1.
  rewrite (generate_document_success pf template_name data output_prefix w d d'
             Ht Hd Hs Hc Htmp).
  unfold ret. cbn [Api.docx_filename Api.pdf_filename Api.warning].
  rewrite truthy_name. reflexivity.
Qed.

End Downloads.

(** X15: [download_file] answers 404, and nothing else, only when no
    entry of the output directory that can be stat'ed is at the path, and
    then only logs; when it returns it serves that path under the requested
    name and leaves everything as it was, with the Word media type exactly
    for names of the form [stem + ".docx"] and the PDF media type for every
    other name; every entry of the output directory that can be stat'ed is
    served. *)
Theorem download_file_outcomes :
  forall (filename : string) (w : world),
    let file_path := Api.path_join Api.OUTPUT_DIR filename in
    (forall e w', Delivery.download_file filename w = (Raises e, w') ->
       e = HTTPException 404 "File not found" /\
       match lookup_path file_path (outdir w) with
       | Some f => f_stat f = false
       | None => True
       end /\
       templates w' = templates w /\ outdir w' = outdir w /\ tmpdir w' = tmpdir w /\
       clock w' = clock w /\
       errors w' = errors w ++ ["File not found: " +:+ file_path]) /\
    (forall r w', Delivery.download_file filename w = (Returns r, w') ->
       w' = w /\
       Delivery.fr_path r = file_path /\ Delivery.fr_filename r = filename /\
       (Delivery.fr_media_type r = Delivery.DOCX_MEDIA_TYPE <->
        exists stem, filename = stem +:+ ".docx") /\
       (Delivery.fr_media_type r <> Delivery.DOCX_MEDIA_TYPE ->
        Delivery.fr_media_type r = "application/pdf")) /\
    (forall f, lookup_path file_path (outdir w) = Some f -> f_stat f = true ->
       exists r, Delivery.download_file filename w = (Returns r, w)).
Proof.
  intros filename w file_path. split; [|split].
  - intros e w'. unfold Delivery.download_file, bind, Delivery.os_path_exists.
    fold file_path.
    destruct (lookup_path file_path (outdir w)) as [f|].
    + destruct (f_stat f) eqn:Hs; [discriminate|].
      cbv [negb logger_error raise]. intros [= <- <-]. now repeat split.
    + destruct (lookup_path file_path (tmpdir w)); [discriminate|].
      destruct (templates w file_path); [discriminate|].
      cbv [negb logger_error raise]. intros [= <- <-]. now repeat split.
  - intros r w'. unfold Delivery.download_file, bind, Delivery.os_path_exists.
    fold file_path.
    destruct (lookup_path file_path (outdir w)) as [f|];
      [destruct (f_stat f); [|discriminate]
      | destruct (lookup_path file_path (tmpdir w));
         [| destruct (templates w file_path); [|discriminate]]];
      cbv [negb ret]; intros [= <- <-];
      cbn [Delivery.fr_path Delivery.fr_filename Delivery.fr_media_type];
      (split; [reflexivity|]); (split; [reflexivity|]); (split; [reflexivity|]);
      (split; [split|]).
    all: try (intros Hm; apply endswith_iff;
              destruct (Delivery.endswith filename ".docx"); [reflexivity | discriminate]).
    all: try (intros Hs; apply endswith_iff in Hs; now rewrite Hs).
    all: intros Hm; destruct (Delivery.endswith filename ".docx");
      [contradiction | reflexivity].
  - intros f Hf Hs. eexists. exact (download_file_found filename w f Hf Hs).
Qed.

Lemma download_file_outcomes_witness :
  (HTTPException 404 "File not found" = HTTPException 404 "File not found" /\
   match lookup_path (Api.path_join Api.OUTPUT_DIR "offer_letter_9.pdf")
           (outdir (Scenario.world_with (Scenario.directory 3 None))) with
   | Some f => f_stat f = false
   | None => True
   end) /\
  exists r,
    Delivery.download_file "offer_letter_2.pdf"
      (Scenario.world_with (Scenario.directory 3 None))
    = (Returns r, Scenario.world_with (Scenario.directory 3 None)).
Proof.
  destruct (download_file_outcomes "offer_letter_9.pdf"
              (Scenario.world_with (Scenario.directory 3 None))) as (Hraise & _ & _).
  destruct (download_file_outcomes "offer_letter_2.pdf"
              (Scenario.world_with (Scenario.directory 3 None))) as (_ & _ & Hfound).
  split.
  - destruct (Hraise (HTTPException 404 "File not found")
                (World (fun _ => None) (Scenario.directory 3 None) [] 100
                       ["File not found: "
                        +:+ Api.path_join Api.OUTPUT_DIR "offer_letter_9.pdf"])
                eq_refl) as (He & Hl & _).
    split; [exact He | exact Hl].
  - apply (Hfound (File None 2 Regular false)); reflexivity.
Defined.

(** A link whose target is gone is listed in the directory and answered
    with 404; a name with a root or a drive is looked up outside the output
    directory. *)
Example download_file_scenarios :
  fst (Delivery.download_file "link"
         (Scenario.world_with [("generated_docs\link", File None 5 Dangling false)]))
  = Raises (HTTPException 404 "File not found") /\
  fst (Delivery.download_file
         (Api.TEMPLATES_DIR +:+ "\offer_template.docx") Scenario.template_world)
  = Returns (Delivery.Build_FileResponse
               (Api.TEMPLATES_DIR +:+ "\offer_template.docx")
               (Api.TEMPLATES_DIR +:+ "\offer_template.docx")
               Delivery.DOCX_MEDIA_TYPE).
Proof. split; vm_compute; reflexivity. Qed.

(** ** From the request to the download *)

Section EndToEnd.
Import Api Delivery.

Lemma fresh_listing_NoDup {A} (p q : string) (a b : A) (d : list (string * A)) :
  NoDup (List.map fst d) ->
  lookup_path p d = None -> lookup_path q d = None -> p <> q ->
  NoDup (List.map fst (d ++ [(p, a); (q, b)])).
Proof.
  intros Hnd Hp Hq Hne. rewrite map_app. apply NoDup_app. split; [exact Hnd|]. split.
  - intros x Hx Hk. apply list_elem_of_In in Hx. apply list_elem_of_In in Hk.
    destruct Hk as [<-|[<-|[]]].
    + now apply (lookup_path_absent p d).
    + now apply (lookup_path_absent q d).
  - simpl. apply NoDup_cons. split; [|apply NoDup_singleton].
    intros H. apply list_elem_of_In in H. destruct H as [E|[]]. congruence.
Qed.

Lemma artifact_name_endswith (output_prefix unique_id : string) :
  endswith (output_prefix +:+ "_" +:+ unique_id +:+ ".docx") ".docx" = true /\
  endswith (output_prefix +:+ "_" +:+ unique_id +:+ ".pdf") ".docx" = false.
Proof.
  pose proof (docx_name_endswith (output_prefix +:+ "_" +:+ unique_id)) as Hd.
  pose proof (pdf_name_endswith (output_prefix +:+ "_" +:+ unique_id)) as Hp.
  rewrite !sapp_assoc in Hd, Hp. now split.
Qed.

(** In a tidy directory the two files just written are the newest, so
    the sweep that follows keeps them. *)
Lemma sweep_after_writing (p q : string) (a b : body) (w : world) :
  Whole.tidy w -> p <> q ->
  lookup_path p (outdir w) = None -> lookup_path q (outdir w) = None ->
  exists w',
    delete_old_files (write_out q b (write_out p a w)) = (Returns tt, w') /\
    lookup_path p (outdir w') = Some (File (Some a) (clock w) Regular false) /\
    lookup_path q (outdir w') = Some (File (Some b) (clock w + 1) Regular false) /\
    length (outdir w') = Nat.min 40 (length (outdir w) + 2) /\
    errors w' = errors w.
Proof.
  intros [Hnd Hfiles] Hne Hp Hq.
  pose proof (write_out_fresh p q a b w Hne Hp Hq) as Hout.
  set (w1 := write_out q b (write_out p a w)) in *.
  assert (Hnd1 : NoDup (List.map fst (outdir w1))).
  { rewrite Hout. now apply fresh_listing_NoDup. }
  assert (Hfiles1 : forall r f, In (r, f) (outdir w1) ->
                                f_regular f = true /\ f_locked f = false).
  { intros r f Hin. rewrite Hout in Hin. apply in_app_or in Hin as [Hin|Hin].
    - destruct (Hfiles r f Hin) as (H1 & H2 & _). now split.
    - destruct Hin as [[= <- <-]|[[= <- <-]|[]]]; now split. }
  assert (Hold : forall t, (clock w <= t)%Z ->
            List.filter (fun e => (t <=? f_ctime (snd e))%Z) (outdir w) = []).
  { intros t Ht. apply filter_none. intros [r f] Hin.
    destruct (Hfiles r f Hin) as (_ & _ & Hlt). apply Z.leb_gt. simpl. lia. }
  destruct (sweep_clean w1 Hnd1 Hfiles1) as (w2 & Hsweep & _ & _ & _ & Herr & _ & Hlen).
  assert (Hkeep : forall r f t,
            In (r, f) (outdir w1) -> f_ctime f = t -> (clock w <= t)%Z ->
            lookup_path r (outdir w2) = Some f).
  { intros r f t Hin Ef Ht.
    replace w2 with (snd (delete_old_files w1)) by now rewrite Hsweep.
    apply delete_old_files_keeps; [exact Hnd1 | exact Hin |].
    rewrite Hout, List.filter_app, length_app, Ef, (Hold t Ht).
    etransitivity; [apply Nat.add_le_mono_l, List.filter_length_le|]. simpl. lia. }
  exists w2. split; [exact Hsweep|]. split; [|split; [|split]].
  - apply (Hkeep _ _ (clock w)); [|reflexivity|lia].
    rewrite Hout. apply in_or_app. right. now left.
  - apply (Hkeep _ _ (clock w + 1)%Z); [|reflexivity|lia].
    rewrite Hout. apply in_or_app. right. right. now left.
  - rewrite Hlen, Hout, length_app. reflexivity.
  - exact Herr.
Qed.

End EndToEnd.

(** X16: in a directory of distinct paths holding removable files created
    before now, a letter request whose substitution returns, served to its
    end, the generation and the sweep it scheduled, leaves both artifacts
    in place: each name answered can be downloaded, the .docx with the Word
    media type and the PDF with the PDF media type, and the directory holds
    at most 40 entries. *)
Theorem served_letter_can_be_downloaded :
  forall (pf : platform) (template_name : string) (data : Subst.field_map)
         (output_prefix what msg : string) (w : world) (d d' : Docx.document),
    let docx_filename := output_prefix +:+ "_" +:+ uuid8 pf +:+ ".docx" in
    let pdf_filename := output_prefix +:+ "_" +:+ uuid8 pf +:+ ".pdf" in
    let dp := Api.path_join Api.OUTPUT_DIR docx_filename in
    let pp := Api.path_join Api.OUTPUT_DIR pdf_filename in
    templates w (Api.path_join Api.TEMPLATES_DIR template_name) = Some (Template d) ->
    Subst.substitute data d = Returns d' ->
    save_raises pf dp = None ->
    convert_raises pf dp pp = None ->
    lookup_path dp (tmpdir w) = None ->
    lookup_path dp (outdir w) = None ->
    lookup_path pp (outdir w) = None ->
    Whole.tidy w ->
    exists w',
      Api.serve (Api.letter_endpoint pf template_name data output_prefix what msg) w
      = (Returns (Api.Response true msg ("/download/" +:+ docx_filename)
                               (Some ("/download/" +:+ pdf_filename)) None), w') /\
      Delivery.download_file docx_filename w'
      = (Returns (Delivery.Build_FileResponse dp docx_filename Delivery.DOCX_MEDIA_TYPE),
         w') /\
      Delivery.download_file pdf_filename w'
      = (Returns (Delivery.Build_FileResponse pp pdf_filename "application/pdf"), w') /\
      length (outdir w') = Nat.min 40 (length (outdir w) + 2) /\
      errors w' = errors w.
Proof.
  intros pf template_name data output_prefix what msg w d d'
         docx_filename pdf_filename dp pp Ht Hd Hs Hc Htmp Hfd Hfp Htidy.
  assert (Hne : dp <> pp) by apply docx_pdf_paths_differ.
  destruct (sweep_after_writing dp pp (DocxBody d') (PdfBody d') w Htidy Hne Hfd Hfp)
    as (w' & Hsweep & Hdl & Hpl & Hlen & Herr).
  destruct (artifact_name_endswith output_prefix (uuid8 pf)) as [Edocx Epdf].
  exists w'. split; [|split; [|split; [|split]]].
  - unfold Api.serve, bind at 1.
    rewrite (letter_endpoint_success pf template_name data output_prefix what msg w d d'
               Ht Hd Hs Hc Htmp).
    cbn [snd fst Api.run_tasks Api.run_task]. unfold bind, ret.
    fold docx_filename. fold pdf_filename. fold dp. fold pp.
    now rewrite Hsweep.
  - rewrite (download_file_found docx_filename w' _ Hdl eq_refl).
    fold docx_filename in Edocx. now rewrite Edocx.
  - rewrite (download_file_found pdf_filename w' _ Hpl eq_refl).
    fold pdf_filename in Epdf. now rewrite Epdf.
  - exact Hlen.
  - exact Herr.
Qed.

Lemma served_letter_can_be_downloaded_witness :
  exists w',
    Api.serve (Api.letter_endpoint Hosts.working "offer_template.docx"
                 [("NAME", Some "Bob")] "offer_letter" "offer letter"
                 "Offer letter generated successfully") Hosts.busy_world
    = (Returns (Api.Response true "Offer letter generated successfully"
                  ("/download/" +:+ ("offer_letter" +:+ "_" +:+ "1a2b3c4d" +:+ ".docx"))
                  (Some ("/download/" +:+ ("offer_letter" +:+ "_" +:+ "1a2b3c4d" +:+ ".pdf")))
                  None), w') /\
    length (outdir w') = 40.
Proof.
  destruct (served_letter_can_be_downloaded Hosts.working "offer_template.docx"
              [("NAME", Some "Bob")] "offer_letter" "offer letter"
              "Offer letter generated successfully" Hosts.busy_world
              Scenario.certificate_template
              (Docx.Document
                 [[Docx.Run "This certifies that Bob worked as {{POSITION}}"];
                  [Docx.Run "for "; Docx.Run "{{DURA"; Docx.Run "TION}}."]] []))
    as (w' & Hrun & _ & _ & Hlen & _); try reflexivity.
  - split.
    + apply (bool_decide_unpack _). vm_compute. exact I.
    + intros p f Hin. apply in_map_iff in Hin as (i & [= <- <-] & Hi).
      apply in_seq in Hi. cbn [f_locked f_ctime clock Hosts.busy_world].
      repeat split. lia.
  - exists w'. split; [exact Hrun | exact Hlen].
Defined.

(** X17: whatever the host does, a letter endpoint either answers with
    success and schedules the sweep exactly once, with a PDF link exactly
    when there is no warning, or raises an [HTTPException] with status
    500, having written nothing, scheduled nothing and logged the failure
    twice; and it raises exactly when the template cannot be loaded, the
    substitution raises or the .docx cannot be saved. *)
Theorem letter_endpoint_outcomes :
  forall (pf : platform) (template_name : string) (data : Subst.field_map)
         (output_prefix what msg : string) (w : world),
    let dp := Api.path_join Api.OUTPUT_DIR
                (output_prefix +:+ "_" +:+ uuid8 pf +:+ ".docx") in
    let tp := Api.path_join Api.TEMPLATES_DIR template_name in
    let renders :=
      match templates w tp with
      | Some (Template d) =>
          match Subst.substitute data d with
          | Returns _ => true
          | Raises _ => false
          end
      | _ => false
      end in
    let saves := match save_raises pf dp with None => true | Some _ => false end in
    let run := Api.letter_endpoint pf template_name data output_prefix what msg w in
    (renders && saves = true ->
     exists r, fst run = Returns (r, [Api.DeleteOldFiles]) /\
               Api.success r = true /\ Api.message r = msg /\
               (Api.pdf_url r = None <-> Api.resp_warning r <> None)) /\
    (renders && saves = false ->
     exists detail m1 m2,
       fst run = Raises (HTTPException 500 detail) /\
       outdir (snd run) = outdir w /\ tmpdir (snd run) = tmpdir w /\
       clock (snd run) = clock w /\
       errors (snd run) = errors w ++ [m1; m2]).
Proof.
  intros pf template_name data output_prefix what msg w dp tp renders saves run.
  subst renders saves run. unfold Api.letter_endpoint, Api.generate_document.
  fold dp. fold tp.
  set (pp := Api.path_join Api.OUTPUT_DIR (output_prefix +:+ "_" +:+ uuid8 pf +:+ ".pdf")).
  cbv [bind try_except Api.template_exists Api.load_document Api.lift Api.doc_save
       Api.convert logger_error raise ret Api.cleanup_old_files].
  destruct (templates w tp) as [[d|m]|] eqn:Ht; cbn [negb]; rewrite ?Ht.
  - destruct (Subst.substitute data d) as [d'|e0] eqn:Hd.
    + destruct (save_raises pf dp) as [m|] eqn:Hs; cbn [andb].
      * split; [discriminate|]. intros _. cbn [fst snd outdir tmpdir clock errors].
        do 3 eexists. repeat split. now rewrite <- app_assoc.
      * split; [|discriminate]. intros _.
        destruct (convert_raises pf dp pp) as [m|] eqn:Hc.
        -- eexists. cbn [fst]. split; [reflexivity|]. cbn. repeat split; easy.
        -- destruct (Api.read_docx dp _) as [d2|]; eexists; cbn [fst];
             (split; [reflexivity|]);
             cbn [Api.docx_filename Api.pdf_filename Api.warning Api.success Api.message
                  Api.pdf_url Api.resp_warning];
             rewrite ?truthy_name; cbn; repeat split; easy.
    + cbn [andb]. split; [discriminate|]. intros _.
      cbn [fst snd outdir tmpdir clock errors].
      do 3 eexists. repeat split. now rewrite <- app_assoc.
  - cbn [andb]. split; [discriminate|]. intros _. cbn [fst snd outdir tmpdir clock errors].
    do 3 eexists. repeat split. now rewrite <- app_assoc.
  - cbn [andb]. split; [discriminate|]. intros _. cbn [fst snd outdir tmpdir clock errors].
    do 3 eexists. repeat split. now rewrite <- app_assoc.
Qed.

Lemma letter_endpoint_outcomes_witness :
  (exists r,
     fst (Api.letter_endpoint Scenario.no_converter "offer_template.docx"
            [("NAME", Some "Bob")] "offer_letter" "offer letter" "done"
            Scenario.template_world)
     = Returns (r, [Api.DeleteOldFiles]) /\ Api.success r = true) /\
  (exists detail,
     fst (Api.letter_endpoint Hosts.working "missing.docx"
            [("NAME", Some "Bob")] "offer_letter" "offer letter" "done"
            Scenario.template_world)
     = Raises (HTTPException 500 detail)) /\
  (exists detail,
     fst (Api.letter_endpoint Hosts.working "offer_template.docx"
            [("NAME", Some Scenario.with_nul)] "offer_letter" "offer letter" "done"
            Scenario.template_world)
     = Raises (HTTPException 500 detail)).
Proof.
  split; [|split].
  - destruct (letter_endpoint_outcomes Scenario.no_converter "offer_template.docx"
                [("NAME", Some "Bob")] "offer_letter" "offer letter" "done"
                Scenario.template_world) as [H _].
    destruct (H eq_refl) as (r & Hr & Hs & _). exists r. split; [exact Hr | exact Hs].
  - destruct (letter_endpoint_outcomes Hosts.working "missing.docx"
                [("NAME", Some "Bob")] "offer_letter" "offer letter" "done"
                Scenario.template_world) as [_ H].
    destruct (H eq_refl) as (detail & _ & _ & Hr & _). exists detail. exact Hr.
  - destruct (letter_endpoint_outcomes Hosts.working "offer_template.docx"
                [("NAME", Some Scenario.with_nul)] "offer_letter" "offer letter" "done"
                Scenario.template_world) as [_ H].
    destruct (H eq_refl) as (detail & _ & _ & Hr & _). exists detail. exact Hr.
Defined.

(** The detail of the answer carries the status of the inner exception:
    [str] of an [HTTPException] is its status code, a colon and its
    detail. *)
Example letter_endpoint_detail :
  fst (Api.letter_endpoint Hosts.working "missing.docx" [] "offer_letter"
         "offer letter" "done" Scenario.template_world)
  = Raises (HTTPException 500 "500: Template file not found: missing.docx") /\
  errors (snd (Api.letter_endpoint Hosts.working "missing.docx" [] "offer_letter"
                 "offer letter" "done" Scenario.template_world))
  = ["Template file not found: " +:+ Api.path_join Api.TEMPLATES_DIR "missing.docx";
     "Error generating offer letter: 500: Template file not found: missing.docx"].
Proof. split; vm_compute; reflexivity. Qed.
